(** * The extraction pipeline of the financial dashboard, and its validator

    A shallow embedding of [src/extraction/pipeline.py]
    ([LLMExtractionPipeline]) and of [validate_data_structure] from
    [app.py], with the properties of the page locator, the extraction
    client, the response parser, the dataset assembler and the dataset
    validator. A second part adds the rest of [app.py] (the confirmation
    prompt, [run_extraction_pipeline], [main] and its guard) and the
    assistant of [src/chat] (the rows of the context, the command-line
    session, the two charts), with their properties.

    Conventions.
    - A Python [str] is a [string]; its characters are the code points
      0..255, among which the decimal digits are exactly ['0'..'9'].
    - A Python exception is a value of [PyError]; code that can raise
      returns a [Result].
    - Code that talks to the outside (the LLM client, [print]) runs in
      the monad [Py], which threads a [World]: the requests sent so far
      and the lines printed so far.
    - A [dict] used as a record is a [gmap string PyValue]; the order of
      its keys, and so the order of the columns of a table, is not
      modelled. *)

From stdpp Require Import gmap strings list pretty sorting.

Open Scope string_scope.
Open Scope list_scope.
Open Scope stdpp_scope.

(** ** Python strings *)

Module PyStr.

(** [s.startswith(pre)] *)
Fixpoint startswith (pre s : string) : bool :=
  match pre, s with
  | EmptyString, _ => true
  | String _ _, EmptyString => false
  | String a pre', String b s' => if decide (a = b) then startswith pre' s' else false
  end.

(** [s[n:]] for [0 <= n] *)
Fixpoint drop (n : nat) (s : string) : string :=
  match n, s with
  | O, _ => s
  | S _, EmptyString => EmptyString
  | S k, String _ s' => drop k s'
  end.

(** [s.find(sub)], counted from [i]: the lowest index at which [sub]
    starts, or [-1]. *)
Fixpoint find_from (i : Z) (sub s : string) : Z :=
  if startswith sub s then i
  else match s with
       | EmptyString => (-1)%Z
       | String _ s' => find_from (i + 1) sub s'
       end.

Definition find (sub s : string) : Z := find_from 0 sub s.

(** [sub in s] *)
Fixpoint contains (sub s : string) : bool :=
  startswith sub s ||
  match s with
  | EmptyString => false
  | String _ s' => contains sub s'
  end.

(** [s.replace(old, new)] scans [s] from the left and replaces the
    occurrences of [old] that do not overlap an earlier replaced one.
    [skip] counts the characters of a replaced occurrence that are still
    to be passed over. *)
Fixpoint replace_go (old new : string) (skip : nat) (s : string) : string :=
  match s with
  | EmptyString => EmptyString
  | String c s' =>
      match skip with
      | S k => replace_go old new k s'
      | O =>
          if startswith old s
          then new +:+ replace_go old new (String.length old - 1) s'
          else String c (replace_go old new 0 s')
      end
  end.

(** With an empty [old], Python puts [new] before every character and
    at the end. *)
Fixpoint interleave (new s : string) : string :=
  match s with
  | EmptyString => new
  | String c s' => new +:+ String c (interleave new s')
  end.

Definition replace (old new s : string) : string :=
  match old with
  | EmptyString => interleave new s
  | String _ _ => replace_go old new 0 s
  end.

(** [s.endswith(suf)] *)
Definition endswith (suf s : string) : bool :=
  bool_decide (drop (String.length s - String.length suf) s = suf)
  && bool_decide (String.length suf <= String.length s).

(** The characters of a string, for statements about single characters. *)
Fixpoint chars (s : string) : list Ascii.ascii :=
  match s with
  | EmptyString => []
  | String c s' => c :: chars s'
  end.

End PyStr.

(** ** Exceptions and results *)

Inductive PyError : Type :=
  | BaseException (msg : string)
  | FileNotFoundError
  | IndexError
  | KeyError (key : string)
  | TypeError (msg : string)
  | ValueError (msg : string)
  | AttributeError (msg : string)
  | APIError (msg : string)
  | NotModelled (what : string).

Inductive Result (A : Type) : Type :=
  | Ok (a : A)
  | Raise (e : PyError).
Arguments Ok {A} a.
Arguments Raise {A} e.

Definition rbind {A B} (r : Result A) (k : A -> Result B) : Result B :=
  match r with
  | Ok a => k a
  | Raise e => Raise e
  end.

Declare Scope result_scope.
Delimit Scope result_scope with result.
Notation "x <-! r ; k" := (rbind r (fun x => k))
  (at level 100, r at next level, right associativity) : result_scope.

(** [for x in xs: acc = f(acc, x)], stopping at the first exception. *)
Fixpoint foldM {A B} (f : B -> A -> Result B) (acc : B) (xs : list A) : Result B :=
  match xs with
  | [] => Ok acc
  | x :: xs' => rbind (f acc x) (fun acc' => foldM f acc' xs')
  end.

(** [[f(x) for x in xs]], stopping at the first exception. *)
Fixpoint mapR {A B} (f : A -> Result B) (xs : list A) : Result (list B) :=
  match xs with
  | [] => Ok []
  | x :: xs' => rbind (f x) (fun y => rbind (mapR f xs') (fun ys => Ok (y :: ys)))
  end.

(** [l[i]]: an [IndexError] out of range. *)
Definition getitem {A} (l : list A) (i : nat) : Result A :=
  match l !! i with
  | Some a => Ok a
  | None => Raise IndexError
  end.

(** ** Python values *)

(** A [datetime] at midnight, as [strptime] with a date-only format
    returns it. *)
Record datetime : Type := Datetime { year : Z; month : Z; day : Z }.

(** The scalar values that occur in page batches, parsed records and
    table cells. A float is kept as an opaque token: no arithmetic on
    floats is modelled. *)
Inductive PyValue : Type :=
  | VNone
  | VBool (b : bool)
  | VInt (z : Z)
  | VFloat (repr : string)
  | VStr (s : string)
  | VDate (d : datetime).

#[global] Instance datetime_eq_dec : EqDecision datetime.
Proof. solve_decision. Defined.
#[global] Instance PyValue_eq_dec : EqDecision PyValue.
Proof. solve_decision. Defined.

Definition newline : string := String (Ascii.ascii_of_nat 10) EmptyString.
Definition dquote : string := String (Ascii.ascii_of_nat 34) EmptyString.

(** [str(n).zfill(w)] for a natural number. *)
Definition zfill (w : nat) (s : string) : string :=
  String.concat EmptyString (replicate (w - String.length s) "0") +:+ s.

(** [str(v)], as an f-string formats [v]. *)
Definition py_str (v : PyValue) : string :=
  match v with
  | VNone => "None"
  | VBool true => "True"
  | VBool false => "False"
  | VInt z => pretty z
  | VFloat repr => repr
  | VStr s => s
  | VDate d =>
      zfill 4 (pretty d.(year)) +:+ "-" +:+ zfill 2 (pretty d.(month)) +:+ "-"
      +:+ zfill 2 (pretty d.(day)) +:+ " 00:00:00"
  end.

(** ** The world outside: requests sent and lines printed *)

(** One call of [client.messages.create]: the model, the output limit,
    the system instruction and the content of the single user message. *)
Record Request : Type := {
  req_model : string;
  req_max_tokens : Z;
  req_system : string;
  req_content : string;
}.

(** A printed line. [Stamped s] is the line [f'{datetime.now()}: s']:
    the clock is not modelled. *)
Inductive Line : Type :=
  | Text (s : string)
  | Stamped (s : string).

Record World : Type := {
  sent : list Request;
  stdout : list Line;
}.

Definition initial_world : World := {| sent := []; stdout := [] |}.

(** A computation with effects: it may raise, and in either case leaves
    a world behind. *)
Definition Py (A : Type) : Type := World -> Result A * World.

Definition ret {A} (a : A) : Py A := fun w => (Ok a, w).

Definition bind {A B} (c : Py A) (k : A -> Py B) : Py B :=
  fun w =>
    match c w with
    | (Ok a, w') => k a w'
    | (Raise e, w') => (Raise e, w')
    end.

Definition lift {A} (r : Result A) : Py A := fun w => (r, w).

Definition print (l : Line) : Py unit :=
  fun w => (Ok tt, {| sent := w.(sent); stdout := w.(stdout) ++ [l] |}).

Declare Scope py_scope.
Delimit Scope py_scope with py.
Notation "x <- c ;; k" := (bind c (fun x => k))
  (at level 100, c at next level, right associativity) : py_scope.
Notation "c ;;; k" := (bind c (fun _ => k))
  (at level 100, right associativity) : py_scope.

(** [[f(x) for x in xs]] with effects, left to right, stopping at the
    first exception. *)
Fixpoint mapM {A B} (f : A -> Py B) (xs : list A) : Py (list B) :=
  match xs with
  | [] => ret []
  | x :: xs' => bind (f x) (fun y => bind (mapM f xs') (fun ys => ret (y :: ys)))
  end.

(** ** Page Locator: [list_all_files] and [extract_pl_pages] *)

(** A file of the raw data directory: its path, and what
    [pdfplumber.open] gives for it, the text [page.extract_text()] gives
    for each of its pages, in page order, or the exception of the
    opening. The text of a page of a file that opens is taken to be
    there. *)
Record File : Type := {
  file_path : string;
  file_pdf : Result (list string);
}.

(** A quarterly report that opens: its path and the texts of its
    pages. *)
Record Document : Type := {
  doc_path : string;
  doc_pages : list string;
}.

(** A report as a file of the directory. *)
Definition readable (financial_file : Document) : File :=
  {| file_path := financial_file.(doc_path);
     file_pdf := Ok financial_file.(doc_pages) |}.

(** The dict [target] of [extract_pl_pages]: four lists under the keys
    index, simbol, file_name and target_page. *)
Record Target : Type := {
  tg_index : list Z;
  tg_simbol : list string;
  tg_file_name : list string;
  tg_target_page : list string;
}.

Definition empty_target : Target :=
  {| tg_index := []; tg_simbol := []; tg_file_name := []; tg_target_page := [] |}.

Definition map_page_simbol : gmap string string :=
  <["REXP" := "Consolidated Income Statements"]>
    (<["DIPD" := "STATEMENT OF PROFIT OR LOSS"]> ∅).

(** [financial_file[financial_file.find(simbol)+5:]] *)
Definition trimmed_file_name (simbol financial_file : string) : string :=
  PyStr.drop (Z.to_nat (PyStr.find simbol financial_file + 5)) financial_file.

(** The body of the loop over the pages of one document. With a symbol
    that [map_page_simbol] does not know, [.get] gives [None] and the
    [in] test raises. *)
Definition scan_page (simbol financial_file : string)
    (target : Target) (page_text : string) : Result Target :=
  match map_page_simbol !! simbol with
  | None => Raise (TypeError "'in <string>' requires string as left operand, not NoneType")
  | Some marker =>
      if PyStr.contains marker page_text
      then Ok {| tg_index := target.(tg_index);
                 tg_simbol := target.(tg_simbol) ++ [simbol];
                 tg_file_name := target.(tg_file_name)
                                 ++ [trimmed_file_name simbol financial_file];
                 tg_target_page := target.(tg_target_page) ++ [page_text] |}
      else Ok target
  end.

(** The body of the loop over the files, once the file is open: scan the
    pages, then append the running index, matched or not. *)
Definition scan_document (simbol : string)
    (st : Target * Z) (financial_file : Document) : Result (Target * Z) :=
  let '(target, index) := st in
  rbind (foldM (scan_page simbol financial_file.(doc_path)) target
               financial_file.(doc_pages))
    (fun target' =>
       Ok ({| tg_index := target'.(tg_index) ++ [index];
              tg_simbol := target'.(tg_simbol);
              tg_file_name := target'.(tg_file_name);
              tg_target_page := target'.(tg_target_page) |},
           (index + 1)%Z)).

(** The body of the loop over the files: open the file, which can
    raise, and scan it. *)
Definition scan_file (simbol : string)
    (st : Target * Z) (financial_file : File) : Result (Target * Z) :=
  rbind financial_file.(file_pdf) (fun pages =>
    scan_document simbol st {| doc_path := financial_file.(file_path);
                               doc_pages := pages |}).

Section Locator.

(** The raw data directory. For a symbol, [os.listdir] gives the names
    in its folder, or raises, with [FileNotFoundError] when the folder
    does not exist; for each name, in listing order, [glob.glob] gives
    the files that match the pattern made of the name. *)
Variable raw_data : string -> Result (list (list File)).

Definition list_all_files (simbol : string) : Result (list File) :=
  match rbind (raw_data simbol) (mapR (fun found => getitem found 0)) with
  | Raise FileNotFoundError =>
      Raise (BaseException
               "Error on listing files: Simbol not found! Simbols allowed REXP or DIPD")
  | financial_files => financial_files
  end.

Definition extract_pl_pages (simbol : string) : Result Target :=
  rbind (list_all_files simbol) (fun financial_files =>
  rbind (foldM (scan_file simbol) (empty_target, 0%Z) financial_files)
    (fun st => Ok st.1)).

End Locator.

(** The pages of a document whose text contains the marker of the symbol,
    in page order; a symbol without a marker has none. *)
Definition matching_pages (simbol : string) (pages : list string) : list string :=
  match map_page_simbol !! simbol with
  | Some marker => filter (fun text => PyStr.contains marker text = true) pages
  | None => []
  end.

(** The matched pages of a list of documents, document after document. *)
Definition matched_pages (simbol : string) (files : list Document) : list string :=
  files ≫= (fun file => matching_pages simbol file.(doc_pages)).

(** The file names that go with them: one per matched page. *)
Definition matched_file_names (simbol : string) (files : list Document) : list string :=
  files ≫= (fun file =>
    replicate (length (matching_pages simbol file.(doc_pages)))
              (trimmed_file_name simbol file.(doc_path))).

(** ** Prompt Builder and Extraction Client: [llm_data_extraction] *)

(** [pages.items()]: the keys in insertion order, each with its list. *)
Definition items (pages : Target) : list (string * list PyValue) :=
  [ ("index", VInt <$> pages.(tg_index));
    ("simbol", VStr <$> pages.(tg_simbol));
    ("file_name", VStr <$> pages.(tg_file_name));
    ("target_page", VStr <$> pages.(tg_target_page)) ].

Definition indent20 : string := "                    ".

(** One turn of the loop over [pages.items()]: a line of the message. *)
Definition add_item (index : nat) (message : string)
    (kv : string * list PyValue) : Result string :=
  rbind (getitem kv.2 index) (fun v =>
    Ok (message +:+ newline +:+ indent20 +:+ dquote +:+ kv.1 +:+ dquote +:+ ":"
                +:+ dquote +:+ py_str v +:+ dquote +:+ ",")).

(** The message for position [index]: the opening brace, one line per key,
    the closing brace. *)
Definition build_message (pages : Target) (index : nat) : Result string :=
  rbind (foldM (add_item index) ("{" +:+ newline) (items pages))
    (fun message => Ok (message +:+ newline +:+ "}")).

Section Client.

(** The LLM behind [client.messages.create]: given the requests already
    sent and the new one, the text blocks of the reply, or an exception
    of the transport. *)
Variable client : list Request -> Request -> Result (list string).

Definition messages_create (req : Request) : Py (list string) :=
  fun w => (client w.(sent) req,
            {| sent := w.(sent) ++ [req]; stdout := w.(stdout) |}).

(** The body of the loop of [llm_data_extraction] for one position. *)
Definition extract_one (pages : Target) (sys_prompt model_name : string)
    (max_tokens : Z) (index : nat) : Py string :=
  bind (lift (build_message pages index)) (fun message =>
  bind (messages_create {| req_model := model_name;
                           req_max_tokens := max_tokens;
                           req_system := sys_prompt;
                           req_content := message |}) (fun content =>
  lift (getitem content 0))).

Definition llm_data_extraction (pages : Target) (sys_prompt model_name : string)
    (max_tokens : Z) : Py (list string) :=
  mapM (extract_one pages sys_prompt model_name max_tokens)
       (seq 0 (length pages.(tg_index))).

End Client.

Definition default_model_name : string := "claude-sonnet-4-20250514".
Definition default_max_tokens : Z := 4096.

(** ** Response Parser: [parse_llm_extraction_response] *)

(** What [ast.literal_eval] can return: a scalar, a dict with string keys
    and scalar values (the shape of a financial record), or some other
    literal, kept opaque. *)
Inductive PyObject : Type :=
  | Scalar (v : PyValue)
  | Dict (d : gmap string PyValue)
  | Opaque (repr : string).

Definition backticks : string := "```".

(** [data.replace('```','').replace('json','')] *)
Definition strip_fences (data : string) : string :=
  PyStr.replace "json" EmptyString (PyStr.replace backticks EmptyString data).

(** A response wrapped in a code fence with the language tag json. *)
Definition fenced (body : string) : string :=
  backticks +:+ "json" +:+ body +:+ backticks.

Section Parser.

(** [ast.literal_eval], a function of the Python library: the object
    the text denotes, or the exception it raises. *)
Variable literal_eval : string -> Result PyObject.

(** The body of the loop over the responses. *)
Definition parse_one (data : string) : Py PyObject :=
  let parsed := strip_fences data in
  match literal_eval parsed with
  | Ok obj => ret obj
  | Raise e => bind (print (Text parsed)) (fun _ => lift (Raise e))
  end.

Definition parse_llm_extraction_response (responses : list string)
  : Py (list PyObject) :=
  mapM parse_one responses.

End Parser.

(** *** A fragment of [ast.literal_eval]

    [literal_eval_flat] reads the literals of the response format: a
    dict display with string keys whose values are strings, decimal
    integers with an optional minus sign, or [None], [True], [False],
    with blanks between the tokens and an optional comma after the last
    item. Blank lines may come before the display and after it, but no
    indentation before it, and no last line of blanks that lacks its
    newline: Python takes both for an indentation error. Where the
    fragment answers [Some obj], [ast.literal_eval] returns [obj]; it
    answers [None] on every other text, whether Python raises there or
    not. *)

Inductive Token : Type :=
  | TLBrace | TRBrace | TColon | TComma | TMinus
  | TStr (s : string)
  | TInt (digits : string)
  | TName (s : string).

Inductive LexState : Type :=
  | LDefault
  | LInStr (quote : Ascii.ascii) (acc : string)
  | LInNum (digits : string)
  | LInName (acc : string).

Definition code (c : Ascii.ascii) : nat := Ascii.nat_of_ascii c.

Definition is_digit (c : Ascii.ascii) : bool :=
  bool_decide (48 <= code c <= 57).

Definition is_name_start (c : Ascii.ascii) : bool :=
  bool_decide (65 <= code c <= 90) || bool_decide (97 <= code c <= 122)
  || bool_decide (code c = 95).

Definition is_blank (c : Ascii.ascii) : bool :=
  bool_decide (code c = 32) || bool_decide (code c = 9) || bool_decide (code c = 10).

Definition is_quote (c : Ascii.ascii) : bool :=
  bool_decide (code c = 34) || bool_decide (code c = 39).

(** A character a short string literal holds as itself: no quote is
    decided here, no backslash, no control character. *)
Definition is_plain (c : Ascii.ascii) : bool :=
  bool_decide (32 <= code c) && negb (bool_decide (code c = 92)).

Definition snoc (s : string) (c : Ascii.ascii) : string :=
  s +:+ String c EmptyString.

(** What a character does between tokens: the state it leads to and the
    tokens it completes. *)
Definition lex_start (c : Ascii.ascii) : option (LexState * list Token) :=
  if is_blank c then Some (LDefault, [])
  else if is_quote c then Some (LInStr c EmptyString, [])
  else if is_digit c then Some (LInNum (String c EmptyString), [])
  else if is_name_start c then Some (LInName (String c EmptyString), [])
  else if bool_decide (code c = 123) then Some (LDefault, [TLBrace])
  else if bool_decide (code c = 125) then Some (LDefault, [TRBrace])
  else if bool_decide (code c = 58) then Some (LDefault, [TColon])
  else if bool_decide (code c = 44) then Some (LDefault, [TComma])
  else if bool_decide (code c = 45) then Some (LDefault, [TMinus])
  else None.

Fixpoint lex (st : LexState) (s : string) : option (list Token) :=
  match s with
  | EmptyString =>
      match st with
      | LDefault => Some []
      | LInStr _ _ => None
      | LInNum ds => Some [TInt ds]
      | LInName a => Some [TName a]
      end
  | String c s' =>
      match st with
      | LDefault =>
          match lex_start c with
          | Some (st', toks) => (toks ++.) <$> lex st' s'
          | None => None
          end
      | LInStr q acc =>
          if decide (c = q) then (TStr acc ::.) <$> lex LDefault s'
          else if is_plain c then lex (LInStr q (snoc acc c)) s'
          else None
      | LInNum ds =>
          if is_digit c then lex (LInNum (snoc ds c)) s'
          else match lex_start c with
               | Some (st', toks) => (fun r => TInt ds :: toks ++ r) <$> lex st' s'
               | None => None
               end
      | LInName a =>
          if is_name_start c || is_digit c then lex (LInName (snoc a c)) s'
          else match lex_start c with
               | Some (st', toks) => (fun r => TName a :: toks ++ r) <$> lex st' s'
               | None => None
               end
      end
  end.

(** The value of a run of decimal digits. *)
Fixpoint digits_value (acc : Z) (ds : string) : Z :=
  match ds with
  | EmptyString => acc
  | String c ds' => digits_value (10 * acc + Z.of_nat (code c - 48)) ds'
  end.

(** A decimal integer literal of the fragment: no leading zero unless it
    is the single digit 0, at most 18 digits. *)
Definition int_literal (ds : string) : option Z :=
  if bool_decide (String.length ds <= 18)
     && (negb (PyStr.startswith "0" ds) || bool_decide (ds = "0"))
  then Some (digits_value 0 ds) else None.

Definition name_value (a : string) : option PyValue :=
  if decide (a = "None") then Some VNone
  else if decide (a = "True") then Some (VBool true)
  else if decide (a = "False") then Some (VBool false)
  else None.

(** The items of a display after its opening brace. A value is followed
    by a comma and the rest of the display, or by the closing brace, after
    which nothing may come. A key written twice keeps its last value. *)
Fixpoint parse_items (toks : list Token) (d : gmap string PyValue)
  : option (gmap string PyValue) :=
  match toks with
  | [TRBrace] => Some d
  | TStr k :: TColon :: TStr v :: rest =>
      match rest with
      | [TRBrace] => Some (<[k := VStr v]> d)
      | TComma :: rest' => parse_items rest' (<[k := VStr v]> d)
      | _ => None
      end
  | TStr k :: TColon :: TName a :: rest =>
      match name_value a, rest with
      | Some v, [TRBrace] => Some (<[k := v]> d)
      | Some v, TComma :: rest' => parse_items rest' (<[k := v]> d)
      | _, _ => None
      end
  | TStr k :: TColon :: TInt ds :: rest =>
      match int_literal ds, rest with
      | Some z, [TRBrace] => Some (<[k := VInt z]> d)
      | Some z, TComma :: rest' => parse_items rest' (<[k := VInt z]> d)
      | _, _ => None
      end
  | TStr k :: TColon :: TMinus :: TInt ds :: rest =>
      match int_literal ds, rest with
      | Some z, [TRBrace] => Some (<[k := VInt (- z)]> d)
      | Some z, TComma :: rest' => parse_items rest' (<[k := VInt (- z)]> d)
      | _, _ => None
      end
  | _ => None
  end.

(** Blank lines may come before the display, but no indentation. *)
Fixpoint skip_newlines (s : string) : string :=
  match s with
  | String c s' => if bool_decide (code c = 10) then skip_newlines s' else s
  | EmptyString => EmptyString
  end.

(** The last line of a text: what follows its last newline. *)
Fixpoint last_line (line s : string) : string :=
  match s with
  | EmptyString => line
  | String c s' =>
      if bool_decide (code c = 10) then last_line EmptyString s'
      else last_line (snoc line c) s'
  end.

Definition is_indent (c : Ascii.ascii) : bool :=
  bool_decide (code c = 32) || bool_decide (code c = 9).

(** A last line made of spaces and tabs, with no newline after it. *)
Definition dangling_indent (s : string) : bool :=
  match last_line EmptyString s with
  | EmptyString => false
  | String c line => is_indent c && forallb is_indent (PyStr.chars line)
  end.

Definition literal_eval_flat (s : string) : option PyObject :=
  let body := skip_newlines s in
  if PyStr.startswith "{" body && negb (dangling_indent body) then
    match lex LDefault body with
    | Some (TLBrace :: toks) => Dict <$> parse_items toks ∅
    | _ => None
    end
  else None.

(** A model of [ast.literal_eval] is any function that returns what the
    fragment returns wherever the fragment answers. *)
Definition extends_flat (literal_eval : string -> Result PyObject) : Prop :=
  forall s obj, literal_eval_flat s = Some obj -> literal_eval s = Ok obj.

(** The fragment itself as a model: outside the fragment it raises. *)
Definition literal_eval_of_flat (s : string) : Result PyObject :=
  match literal_eval_flat s with
  | Some obj => Ok obj
  | None => Raise (ValueError "malformed node or string")
  end.

(** ** [datetime.strptime(value, '%d%m%Y')]

    The library turns the format into the regular expression
    [(3[0-1]|[1-2]\d|0[1-9]|[1-9]| [1-9])(1[0-2]|0[1-9]|[1-9])(\d\d\d\d)],
    matches it at the start of the text by backtracking, alternatives in
    the order written, refuses text left over after the match, and then
    builds the date, which checks the calendar. *)

Module Strptime.

(** A character class. *)
Definition CharClass : Type := Ascii.ascii -> bool.

Definition range (lo hi : nat) : CharClass :=
  fun c => bool_decide (lo <= code c <= hi).
Definition digit : CharClass := range 48 57.
Definition one (n : nat) : CharClass := range n n.

(** The alternatives of the three directives, each a sequence of
    classes. 48 is the digit 0 and 32 the space. *)
Definition directive_d : list (list CharClass) :=
  [ [one 51; range 48 49]; [range 49 50; digit]; [one 48; range 49 57];
    [range 49 57]; [one 32; range 49 57] ].
Definition directive_m : list (list CharClass) :=
  [ [one 49; range 48 50]; [one 48; range 49 57]; [range 49 57] ].
Definition directive_Y : list (list CharClass) :=
  [ [digit; digit; digit; digit] ].

(** A class that holds decimal digits only, or the space only. *)
Definition digit_or_space (cl : CharClass) : Prop :=
  forall c, cl c = true -> is_digit c = true \/ code c = 32.

(** Match a sequence of classes at the start of [s]: the text matched
    and the text that follows. *)
Fixpoint match_seq (classes : list CharClass) (s : string) : option (string * string) :=
  match classes with
  | [] => Some (EmptyString, s)
  | cl :: classes' =>
      match s with
      | EmptyString => None
      | String c s' =>
          if cl c
          then (fun '(m, rest) => (String c m, rest)) <$> match_seq classes' s'
          else None
      end
  end.

(** The ways one directive matches at the start of [s], in the order
    the matcher tries them. *)
Definition candidates (alts : list (list CharClass)) (s : string)
  : list (string * string) :=
  omap (fun alt => match_seq alt s) alts.

(** The first way the whole expression matches: the three groups and
    the text left over. *)
Definition regex_match (s : string) : option (string * string * string * string) :=
  head (
    '(d, r1) ← candidates directive_d s;
    '(m, r2) ← candidates directive_m r1;
    '(Y, r3) ← candidates directive_Y r2;
    [ (d, m, Y, r3) ]).

(** [int(text)] for a group of digits, which for the day may start
    with a space. *)
Fixpoint int (text : string) : Z :=
  match text with
  | String c text' =>
      if bool_decide (code c = 32) then int text' else digits_value 0 text
  | EmptyString => 0
  end.

Definition is_leap (y : Z) : bool :=
  bool_decide (y mod 4 = 0)%Z
  && (negb (bool_decide (y mod 100 = 0)%Z) || bool_decide (y mod 400 = 0)%Z).

Definition days_in_month (y m : Z) : Z :=
  if bool_decide (m = 2)%Z then (if is_leap y then 29 else 28)%Z
  else if bool_decide (m = 4 \/ m = 6 \/ m = 9 \/ m = 11)%Z then 30%Z
  else 31%Z.

(** What the date constructor accepts. *)
Definition valid_date (y m d : Z) : bool :=
  bool_decide (1 <= y <= 9999)%Z && bool_decide (1 <= m <= 12)%Z
  && bool_decide (1 <= d <= days_in_month y m)%Z.

Definition strptime (data_string : string) : Result datetime :=
  match regex_match data_string with
  | None => Raise (ValueError "time data does not match format '%d%m%Y'")
  | Some (d, m, Y, rest) =>
      match rest with
      | String _ _ => Raise (ValueError "unconverted data remains")
      | EmptyString =>
          if valid_date (int Y) (int m) (int d)
          then Ok (Datetime (int Y) (int m) (int d))
          else if bool_decide (int Y < 1)%Z
               then Raise (ValueError "year 0 is out of range")
               else Raise (ValueError "day is out of range for month")
      end
  end.

End Strptime.

(** The body of the loop over the file names: the report date of one
    value of the column [df['file_name'].str.replace('.pdf', '')]. *)
Definition report_date (file_name : string) : Result datetime :=
  Strptime.strptime (PyStr.replace ".pdf" EmptyString file_name).

(** A text of decimal digits only. *)
Definition all_digits (s : string) : Prop :=
  Forall (fun c => is_digit c = true) (PyStr.chars s).

(** A failure of [strptime] itself: the date-format error. *)
Definition date_format_error {A} (r : Result A) : Prop :=
  exists msg, r = Raise (ValueError msg).

(** ** Tables *)

(** A [pandas.DataFrame]: the set of its column labels, its row index
    and its rows. A row maps a label to the cell; a label of the table
    that a row does not map is a missing cell (NaN). A cell is the
    Python value the table was given for it. pandas chooses a dtype for
    every column and holds the numbers and the [None]s of the column in
    that dtype: this conversion is not modelled, and a cell that is not
    a text stands for the value pandas holds for it. A text is held as
    it is. *)
Record DataFrame : Type := {
  df_columns : gset string;
  df_index : list Z;
  df_rows : list (gmap string PyValue);
}.

(** [RangeIndex(n)] *)
Definition range_index (n : nat) : list Z := Z.of_nat <$> seq 0 n.

(** [pd.DataFrame(data)] for a list of dicts: the labels are the keys of
    the dicts, the cells the values they give. *)
Definition DataFrame_of_records (data : list (gmap string PyValue)) : DataFrame :=
  {| df_columns := ⋃ (dom <$> data);
     df_index := range_index (length data);
     df_rows := data |}.

(** [pd.concat((a, b))] *)
Definition concat (a b : DataFrame) : DataFrame :=
  {| df_columns := a.(df_columns) ∪ b.(df_columns);
     df_index := a.(df_index) ++ b.(df_index);
     df_rows := a.(df_rows) ++ b.(df_rows) |}.

(** [df.reset_index()]: the old index becomes a column, named index, or
    level_0 when a column index is there already; the name must be free. *)
Definition reset_index (df : DataFrame) : Result DataFrame :=
  let name := if decide ("index" ∈ df.(df_columns)) then "level_0" else "index" in
  if decide (name ∈ df.(df_columns))
  then Raise (ValueError "cannot insert level_0, already exists")
  else Ok {| df_columns := {[ name ]} ∪ df.(df_columns);
             df_index := range_index (length df.(df_rows));
             df_rows := zip_with (fun i row => <[name := VInt i]> row)
                                 df.(df_index) df.(df_rows) |}.

(** [df.drop(label, axis=1)] *)
Definition drop (label : string) (df : DataFrame) : Result DataFrame :=
  if decide (label ∈ df.(df_columns))
  then Ok {| df_columns := df.(df_columns) ∖ {[ label ]};
             df_index := df.(df_index);
             df_rows := delete label <$> df.(df_rows) |}
  else Raise (KeyError label).

(** [df[label]]: the cells of a column, [None] for a missing cell. *)
Definition column (label : string) (df : DataFrame) : Result (list (option PyValue)) :=
  if decide (label ∈ df.(df_columns))
  then Ok ((fun row => row !! label) <$> df.(df_rows))
  else Raise (KeyError label).

(** [df[label] = values], for as many values as rows. *)
Definition assign (label : string) (values : list PyValue) (df : DataFrame) : DataFrame :=
  {| df_columns := {[ label ]} ∪ df.(df_columns);
     df_index := df.(df_index);
     df_rows := zip_with (fun v row => <[label := v]> row) values df.(df_rows) |}.

(** The order of [datetime] values. *)
Definition date_le (a b : datetime) : Prop :=
  (a.(year) < b.(year)
   \/ (a.(year) = b.(year)
       /\ (a.(month) < b.(month) \/ (a.(month) = b.(month) /\ a.(day) <= b.(day)))))%Z.

Definition date_lt (a b : datetime) : Prop := date_le a b /\ a <> b.

#[global] Instance date_le_dec : RelDecision date_le.
Proof. intros a b. unfold date_le. apply _. Defined.

(** The sort key of a row: its date under [label]. A row without a date
    there sorts first; the assembler never meets one. *)
Definition row_date (label : string) (row : gmap string PyValue) : datetime :=
  match row !! label with
  | Some (VDate d) => d
  | _ => Datetime 0 0 0
  end.

Definition row_le (label : string) (a b : Z * gmap string PyValue) : Prop :=
  date_le (row_date label a.2) (row_date label b.2).

#[global] Instance row_le_dec label : RelDecision (row_le label).
Proof. intros a b. unfold row_le. apply _. Defined.

(** [df.sort_values([label])] on a column of dates: the rows, each with
    its index entry, in ascending order of the date. Rows of equal date
    are kept in their order here; pandas does not promise that, and no
    statement below depends on it. *)
Definition sort_values (label : string) (df : DataFrame) : DataFrame :=
  let sorted := merge_sort (row_le label) (zip df.(df_index) df.(df_rows)) in
  {| df_columns := df.(df_columns);
     df_index := sorted.*1;
     df_rows := sorted.*2 |}.

(** ** Dataset Assembler: the table [run] builds and saves *)

(** The kinds of cells. A missing cell and [None] are null. *)
Definition is_text_cell (c : option PyValue) : bool :=
  match c with Some (VStr _) => true | _ => false end.
Definition is_null_cell (c : option PyValue) : bool :=
  match c with None | Some VNone => true | _ => false end.
Definition is_number_cell (c : option PyValue) : bool :=
  match c with Some (VInt _) | Some (VFloat _) => true | _ => false end.
Definition is_bool_cell (c : option PyValue) : bool :=
  match c with Some (VBool _) => true | _ => false end.
Definition is_date_cell (c : option PyValue) : bool :=
  match c with Some (VDate _) => true | _ => false end.

(** [df['file_name'].str]: pandas gives the string accessor to a column
    it takes for texts or for a mix of values, as it takes every column
    that holds a text; it refuses, with [AttributeError], a column whose
    cells, the null ones apart, are all numbers, all booleans or all
    dates. The other columns without a text are not modelled. *)
Definition str_accessor (cells : list (option PyValue)) : Result unit :=
  let present := filter (fun c => is_null_cell c = false) cells in
  if existsb is_text_cell cells then Ok tt
  else if negb (bool_decide (present = []))
          && (forallb is_number_cell present || forallb is_bool_cell present
              || forallb is_date_cell present)
  then Raise (AttributeError "Can only use .str accessor with string values!")
  else Raise (NotModelled "the string accessor of a column without a text").

(** One turn of the loop over the values of
    [df['file_name'].str.replace('.pdf', '')]. In a column that has the
    accessor, [replace] leaves NaN for a cell that is not a text, and
    [strptime] refuses it. *)
Definition report_date_of_cell (cell : option PyValue) : Result datetime :=
  match cell with
  | Some (VStr value) => report_date value
  | _ => Raise (TypeError "strptime() argument 1 must be str, not float")
  end.

(** From [pd.concat] to the last [reset_index().drop('index', axis=1)]. *)
Definition mount_dataframe (parsed_dipd_data parsed_rexp_data : list (gmap string PyValue))
  : Result DataFrame :=
  rbind (reset_index (concat (DataFrame_of_records parsed_dipd_data)
                             (DataFrame_of_records parsed_rexp_data))) (fun df =>
  rbind (drop "index" df) (fun df =>
  rbind (drop "level_0" df) (fun df =>
  rbind (column "file_name" df) (fun file_names =>
  rbind (str_accessor file_names) (fun _ =>
  rbind (mapR report_date_of_cell file_names) (fun dates =>
  let df := assign "Report Date" (VDate <$> dates) df in
  rbind (reset_index (sort_values "Report Date" df)) (fun df =>
  drop "index" df))))))).

(** The report date of a parsed record: that of its file name. *)
Definition record_date (record : gmap string PyValue) : Result datetime :=
  report_date_of_cell (record !! "file_name").

(** A record whose file name gives a date. *)
Definition derivable (record : gmap string PyValue) : Prop :=
  exists date, record_date record = Ok date.

(** The labels of the table made of some records. *)
Definition record_columns (records : list (gmap string PyValue)) : gset string :=
  ⋃ (dom <$> records).

(** The two [drop]s after the first [reset_index] find their columns:
    the records carry a key index and no key level_0, or the other way
    round. *)
Definition index_droppable (columns : gset string) : Prop :=
  (("index" ∈ columns) /\ ("level_0" ∉ columns))
  \/ (("index" ∉ columns) /\ ("level_0" ∈ columns)).

(** The column Report Date of a table, as dates. *)
Definition report_dates (df : DataFrame) : list datetime :=
  row_date "Report Date" <$> df.(df_rows).

(** A parsed response as a table row: only a dict is one. *)
Definition as_record (obj : PyObject) : Result (gmap string PyValue) :=
  match obj with
  | Dict d => Ok d
  | _ => Raise (NotModelled "a parsed response that is not a flat dict")
  end.

Section Run.

Variable raw_data : string -> Result (list (list File)).
Variable client : list Request -> Request -> Result (list string).
Variable literal_eval : string -> Result PyObject.
Variable SYS_EXTRACTION_PROMPT : string.

Local Open Scope py_scope.

(** [run], up to the table it hands to [to_csv]; writing the file is
    not modelled. *)
Definition run : Py DataFrame :=
  print (Stamped "Extracting statement pages from pdf files...") ;;;
  pl_pages_rexp <- lift (extract_pl_pages raw_data "REXP") ;;
  pl_pages_dipd <- lift (extract_pl_pages raw_data "DIPD") ;;
  print (Stamped "Extracting data from statement pages...") ;;;
  responses_dipd <- llm_data_extraction client pl_pages_dipd SYS_EXTRACTION_PROMPT
                      default_model_name default_max_tokens ;;
  responses_rexp <- llm_data_extraction client pl_pages_rexp SYS_EXTRACTION_PROMPT
                      default_model_name default_max_tokens ;;
  print (Stamped "Ensure correct data format...") ;;;
  parsed_dipd_data <- parse_llm_extraction_response literal_eval responses_dipd ;;
  parsed_rexp_data <- parse_llm_extraction_response literal_eval responses_rexp ;;
  print (Stamped "Mounting Dataframe...") ;;;
  dipd <- lift (mapR as_record parsed_dipd_data) ;;
  rexp <- lift (mapR as_record parsed_rexp_data) ;;
  lift (mount_dataframe dipd rexp).

End Run.

(** ** Dataset Validator: [validate_data_structure] *)

(** The reason a validation fails, one constructor for each message:
    - [DataFileEmpty]: Data file is empty
    - [MissingRequiredColumns missing]: Missing required columns, then
      the names in [missing]
    - [InvalidCompaniesFound offending]: Invalid companies found, then
      the set [offending], here as a list without duplicates
    - [ColumnShouldBeNumeric col]: Column [col] should be numeric
    - [InvalidDateFormat]: Report Date column has invalid date format
    - [InsufficientRecords]: Insufficient data records (minimum 4
      records required)
    - [ErrorReadingDataFile e]: Error reading data file, then [e]. *)
Inductive Reason : Type :=
  | DataFileEmpty
  | MissingRequiredColumns (missing : gset string)
  | InvalidCompaniesFound (offending : list (option PyValue))
  | ColumnShouldBeNumeric (col : string)
  | InvalidDateFormat
  | InsufficientRecords
  | ErrorReadingDataFile (e : PyError).

Definition required_columns : gset string :=
  {[ "Simbol"; "file_name"; "Revenue"; "Cost of Goods Sold (COGS)";
     "Gross Profit"; "Operating Expenses"; "Operating Income";
     "Net Income"; "Report Date" ]}.

Definition valid_companies : list (option PyValue) :=
  [ Some (VStr "REXP"); Some (VStr "DIPD") ].

Definition numeric_columns : list string :=
  [ "Revenue"; "Cost of Goods Sold (COGS)"; "Gross Profit";
    "Operating Expenses"; "Operating Income"; "Net Income" ].

(** The dtype of a column, as [read_csv] infers it from the cells. *)
Inductive Dtype : Type := int64 | uint64 | float64 | bool_ | object_.

Definition is_int_cell (c : option PyValue) : bool :=
  match c with Some (VInt _) => true | _ => false end.
Definition is_float_cell (c : option PyValue) : bool :=
  match c with Some (VInt _) | Some (VFloat _) | None => true | _ => false end.

(** An integer that does not fit 64 bits with a sign, and one that fits
    64 bits without. *)
Definition beyond_int64 (c : option PyValue) : bool :=
  match c with
  | Some (VInt z) => negb (bool_decide (- 2 ^ 63 <= z < 2 ^ 63)%Z)
  | _ => false
  end.
Definition is_uint64_cell (c : option PyValue) : bool :=
  match c with
  | Some (VInt z) => bool_decide (0 <= z < 2 ^ 64)%Z
  | _ => false
  end.

(** A column of integers is [int64] when they all fit; when one does
    not, it is [uint64] if they all fit without a sign, and otherwise
    stays as it was read, which is [object]. With floats or missing
    cells beside an integer that does not fit, the reader decides by
    the order of the cells: this case is not modelled. *)
Definition dtype_of (cells : list (option PyValue)) : Result Dtype :=
  match cells with
  | [] => Ok object_
  | _ =>
      if forallb is_int_cell cells then
        if negb (existsb beyond_int64 cells) then Ok int64
        else if forallb is_uint64_cell cells then Ok uint64
        else Ok object_
      else if forallb is_float_cell cells then
        if existsb beyond_int64 cells
        then Raise (NotModelled "a column of numbers with an integer beyond 64 bits")
        else Ok float64
      else if forallb is_bool_cell cells then Ok bool_
      else Ok object_
  end.

(** [pd.api.types.is_numeric_dtype] *)
Definition is_numeric_dtype (cells : list (option PyValue)) : Result bool :=
  rbind (dtype_of cells) (fun dtype =>
    match dtype with
    | int64 | uint64 | float64 | bool_ => Ok true
    | object_ => Ok false
    end).

(** The loop over [numeric_columns]: the first column that is not
    numeric, if any. *)
Fixpoint first_not_numeric (df : DataFrame) (cols : list string) : Result (option string) :=
  match cols with
  | [] => Ok None
  | col :: cols' =>
      rbind (column col df) (fun cells =>
      rbind (is_numeric_dtype cells) (fun numeric =>
        if numeric then first_not_numeric df cols'
        else Ok (Some col)))
  end.

(** [actual_companies - valid_companies] *)
Definition invalid_companies (cells : list (option PyValue)) : list (option PyValue) :=
  remove_dups (filter (fun c => c ∉ valid_companies) cells).

Section Validator.

(** [pd.read_csv]: the table in the file, or the exception of the
    reader. *)
Variable read_csv : string -> Result DataFrame.
(** [pd.to_datetime] on a column: whether it parses every cell. *)
Variable to_datetime : list (option PyValue) -> bool.

(** The body of the [try], after the file is read. *)
Definition validate_table (df : DataFrame) : Result (bool * option Reason) :=
  if decide (length df.(df_rows) = 0) then Ok (false, Some DataFileEmpty)
  else
    let missing_columns := required_columns ∖ df.(df_columns) in
    if decide (missing_columns ≠ ∅)
    then Ok (false, Some (MissingRequiredColumns missing_columns))
    else
      rbind (column "Simbol" df) (fun simbols =>
      if decide (Forall (fun c => c ∈ valid_companies) simbols)
      then
        rbind (first_not_numeric df numeric_columns) (fun bad =>
        match bad with
        | Some col => Ok (false, Some (ColumnShouldBeNumeric col))
        | None =>
            match column "Report Date" df with
            | Ok dates =>
                if to_datetime dates
                then if decide (length df.(df_rows) < 4)
                     then Ok (false, Some InsufficientRecords)
                     else Ok (true, None)
                else Ok (false, Some InvalidDateFormat)
            | Raise _ => Ok (false, Some InvalidDateFormat)
            end
        end)
      else Ok (false, Some (InvalidCompaniesFound (invalid_companies simbols)))).

Definition validate_data_structure (file_path : string) : bool * option Reason :=
  match rbind (read_csv file_path) validate_table with
  | Ok outcome => outcome
  | Raise e => (false, Some (ErrorReadingDataFile e))
  end.

(** *** The checks one by one

    Each check looks at the table and gives the reason it fails, if it
    does. An exception inside a check is the failure the enclosing
    [except] reports. *)

Definition check_nonempty (df : DataFrame) : option Reason :=
  if decide (length df.(df_rows) = 0) then Some DataFileEmpty else None.

Definition check_columns (df : DataFrame) : option Reason :=
  let missing_columns := required_columns ∖ df.(df_columns) in
  if decide (missing_columns ≠ ∅) then Some (MissingRequiredColumns missing_columns)
  else None.

Definition check_companies (df : DataFrame) : option Reason :=
  match column "Simbol" df with
  | Ok simbols =>
      if decide (Forall (fun c => c ∈ valid_companies) simbols) then None
      else Some (InvalidCompaniesFound (invalid_companies simbols))
  | Raise e => Some (ErrorReadingDataFile e)
  end.

Definition check_numeric (df : DataFrame) : option Reason :=
  match first_not_numeric df numeric_columns with
  | Ok None => None
  | Ok (Some col) => Some (ColumnShouldBeNumeric col)
  | Raise e => Some (ErrorReadingDataFile e)
  end.

Definition check_dates (df : DataFrame) : option Reason :=
  match column "Report Date" df with
  | Ok dates => if to_datetime dates then None else Some InvalidDateFormat
  | Raise _ => Some InvalidDateFormat
  end.

Definition check_min_rows (df : DataFrame) : option Reason :=
  if decide (length df.(df_rows) < 4) then Some InsufficientRecords else None.

(** The reason of the first check of a list that fails. *)
Fixpoint first_failure (checks : list (DataFrame -> option Reason)) (df : DataFrame)
  : option Reason :=
  match checks with
  | [] => None
  | check :: checks' =>
      match check df with
      | Some reason => Some reason
      | None => first_failure checks' df
      end
  end.

Definition outcome_of (failure : option Reason) : bool * option Reason :=
  match failure with
  | Some reason => (false, Some reason)
  | None => (true, None)
  end.

(** The order in which the function makes the checks. *)
Definition checks_in_code_order : list (DataFrame -> option Reason) :=
  [ check_nonempty; check_columns; check_companies; check_numeric;
    check_dates; check_min_rows ].

(** The order the specification lists: columns (a), non-empty (b),
    companies (c), numeric (d), dates (e), rows (f). *)
Definition checks_in_spec_order : list (DataFrame -> option Reason) :=
  [ check_columns; check_nonempty; check_companies; check_numeric;
    check_dates; check_min_rows ].

(** The validator as the specification words it. *)
Definition validate_as_specified (df : DataFrame) : bool * option Reason :=
  outcome_of (first_failure checks_in_spec_order df).

End Validator.

(** The reply to a request parses: the client answers it, after the
    requests in [history], with a first text block that, once stripped,
    is a literal. *)
Definition reply_parses (client : list Request -> Request -> Result (list string))
    (literal_eval : string -> Result PyObject)
    (history : list Request) (req : Request) : Prop :=
  exists text blocks obj,
    client history req = Ok (text :: blocks)
    /\ literal_eval (strip_fences text) = Ok obj.

(** ** Sample data *)

Module Samples.

(** A report whose statement runs over two pages, both carrying the
    marker of REXP. *)
Definition two_marker_pages : Document :=
  {| doc_path := "C:\reports\data\raw\\REXP\30062022.pdf";
     doc_pages := [ "Rexp Holdings - Interim report";
                    "Consolidated Income Statements - Group";
                    "Consolidated Income Statements - Company" ] |}.

(** A report with no page that carries the marker. *)
Definition no_marker_page : Document :=
  {| doc_path := "C:\reports\data\raw\\REXP\30092022.pdf";
     doc_pages := [ "Rexp Holdings - Interim report"; "Notes to the accounts" ] |}.

(** A report with exactly one marker page. *)
Definition one_marker_page : Document :=
  {| doc_path := "C:\reports\data\raw\\REXP\31122022.pdf";
     doc_pages := [ "Rexp Holdings - Interim report";
                    "Consolidated Income Statements - Group" ] |}.

(** The listing of a folder whose names are those of the given reports:
    for each name [glob] finds the report, and nothing else. *)
Definition folder_of (files : list Document) : Result (list (list File)) :=
  Ok ((fun financial_file => [readable financial_file]) <$> files).

(** A raw data directory with the given reports under REXP and nothing
    else. *)
Definition rexp_only (files : list Document) : string -> Result (list (list File)) :=
  fun simbol => if decide (simbol = "REXP") then folder_of files
                else Raise FileNotFoundError.

(** A text in double quotes. *)
Definition quoted (s : string) : string := dquote +:+ s +:+ dquote.

(** A JSON object whose file name holds the letters json. *)
Definition record_json_in_file_name : string :=
  "{" +:+ quoted "Simbol" +:+ ": " +:+ quoted "REXP" +:+ ", "
  +:+ quoted "file_name" +:+ ": " +:+ quoted "30062022json.pdf" +:+ ", "
  +:+ quoted "Revenue" +:+ ": 2767931}".

(** A JSON object of the response format, on several lines. *)
Definition record_30062022 : string :=
  newline +:+ "{" +:+ newline
  +:+ quoted "index" +:+ ": 0," +:+ newline
  +:+ quoted "Simbol" +:+ ": " +:+ quoted "REXP" +:+ "," +:+ newline
  +:+ quoted "file_name" +:+ ": " +:+ quoted "30062022.pdf" +:+ "," +:+ newline
  +:+ quoted "Revenue" +:+ ": 2767931," +:+ newline
  +:+ quoted "Cost of Goods Sold (COGS)" +:+ ": -1735091" +:+ newline
  +:+ "}" +:+ newline.

(** A parsed record with the keys of the response format. *)
Definition financial_record (index : Z) (simbol file_name : string) (revenue : Z)
  : gmap string PyValue :=
  <["index" := VInt index]>
    (<["Simbol" := VStr simbol]>
    (<["file_name" := VStr file_name]>
    (<["Revenue" := VInt revenue]>
    (<["Cost of Goods Sold (COGS)" := VInt (- 1735091)]>
    (<["Gross Profit" := VInt 1032840]>
    (<["Operating Expenses" := VInt (- 580822)]>
    (<["Operating Income" := VInt 458611]>
    (<["Net Income" := VInt 991673]> ∅)))))))).

Definition dipd_records : list (gmap string PyValue) :=
  [ financial_record 0 "DIPD" "31032023.pdf" 100;
    financial_record 1 "DIPD" "31122022.pdf" 200 ].

Definition rexp_records : list (gmap string PyValue) :=
  [ financial_record 0 "REXP" "30062022.pdf" 2767931 ].

(** A row of the saved table: a record without its index, with its
    report date as the text the file holds. *)
Definition saved_row (simbol file_name report_date : string) (revenue : PyValue)
  : gmap string PyValue :=
  <["Report Date" := VStr report_date]>
    (<["Revenue" := revenue]>
       (delete "index" (financial_record 0 simbol file_name 0))).

Definition table_of (columns : gset string) (rows : list (gmap string PyValue))
  : DataFrame :=
  {| df_columns := columns; df_index := range_index (length rows); df_rows := rows |}.

(** Four rows of two companies, every column there. *)
Definition good_rows : list (gmap string PyValue) :=
  [ saved_row "REXP" "30062022.pdf" "2022-06-30" (VInt 2767931);
    saved_row "REXP" "30092022.pdf" "2022-09-30" (VInt 2800000);
    saved_row "DIPD" "31122022.pdf" "2022-12-31" (VInt 200);
    saved_row "DIPD" "31032023.pdf" "2023-03-31" (VInt 100) ].

Definition good_table : DataFrame := table_of required_columns good_rows.

(** A file with a header line only, and a header that lacks columns. *)
Definition header_only : DataFrame := table_of {[ "Simbol"; "file_name" ]} [].

(** A date parser that takes every column. *)
Definition any_date (cells : list (option PyValue)) : bool := true.

(** A client that answers every request with one fixed text. *)
Definition constant_client (text : string)
  : list Request -> Request -> Result (list string) :=
  fun _ _ => Ok [text].

End Samples.

(** * More of the program *)

(** ** What the pipeline raises and sends *)

(** The exception [list_all_files] raises for a folder that is not
    there. *)
Definition listing_error : PyError :=
  BaseException "Error on listing files: Simbol not found! Simbols allowed REXP or DIPD".

(** The run comes to a report folder that is not there: that of REXP,
    or that of DIPD once the reports of REXP are listed and read. *)
Definition missing_folder (raw_data : string -> Result (list (list File))) : Prop :=
  raw_data "REXP" = Raise FileNotFoundError
  \/ ((exists files, list_all_files raw_data "REXP" = Ok (readable <$> files))
      /\ raw_data "DIPD" = Raise FileNotFoundError).

(** The exception of the test [None in page.extract_text()]. *)
Definition no_marker_error : PyError :=
  TypeError "'in <string>' requires string as left operand, not NoneType".

(** A file the loop of the locator passes: it opens, and the test of
    its pages does not raise, because it has no page or because the
    symbol has a marker. *)
Definition passes (simbol : string) (financial_file : File) : Prop :=
  exists pages,
    financial_file.(file_pdf) = Ok pages
    /\ (pages = [] \/ is_Some (map_page_simbol !! simbol)).

(** A file at which the loop stops with [e]: it does not open, or it has
    a page and the symbol has no marker. *)
Definition stops_at (simbol : string) (financial_file : File) (e : PyError) : Prop :=
  financial_file.(file_pdf) = Raise e
  \/ (map_page_simbol !! simbol = None
      /\ e = no_marker_error
      /\ exists page pages, financial_file.(file_pdf) = Ok (page :: pages)).

(** The call [client.messages.create] of [llm_data_extraction] for one
    message. *)
Definition request_for (sys_prompt model_name : string) (max_tokens : Z)
    (message : string) : Request :=
  {| req_model := model_name;
     req_max_tokens := max_tokens;
     req_system := sys_prompt;
     req_content := message |}.

(** The row the assembler makes of a record: the record without the
    index columns, with its report date. *)
Definition table_row (date : datetime) (record : gmap string PyValue)
  : gmap string PyValue :=
  <["Report Date" := VDate date]> (delete "level_0" (delete "index" record)).

(** The text cells of a row. *)
Definition texts (row : gmap string PyValue) : gmap string string :=
  omap (fun v => match v with VStr s => Some s | _ => None end) row.

(** What of a row does not depend on the dtype of its columns: its
    report date and its text cells. *)
Definition held (row : gmap string PyValue) : option PyValue * gmap string string :=
  (row !! "Report Date", texts row).

(** A column without a text whose cells, the null ones apart, are of one
    kind, numbers, booleans or dates, and that has a cell of that
    kind. *)
Definition refused (cells : list (option PyValue)) : Prop :=
  exists kind,
    kind ∈ [is_number_cell; is_bool_cell; is_date_cell]
    /\ Exists (fun c => kind c = true) cells
    /\ Forall (fun c => kind c = true \/ is_null_cell c = true) cells.

(** A raw data directory with one report in each folder, each with one
    page that carries the marker of its symbol. *)
Definition one_report_each : string -> Result (list (list File)) :=
  fun simbol =>
    if decide (simbol = "REXP") then Samples.folder_of [Samples.one_marker_page]
    else if decide (simbol = "DIPD")
         then Samples.folder_of
                [ {| doc_path := "C:\reports\data\raw\\DIPD\31032023.pdf";
                     doc_pages := [ "Dipped Products PLC";
                                    "STATEMENT OF PROFIT OR LOSS" ] |} ]
         else Raise FileNotFoundError.

(** A table with every row put under one company symbol. *)
Definition with_simbol (simbol : string) (df : DataFrame) : DataFrame :=
  {| df_columns := df.(df_columns);
     df_index := df.(df_index);
     df_rows := (fun row => <["Simbol" := VStr simbol]> row) <$> df.(df_rows) |}.

(** ** The application: [app.py] *)

(** *** [strip] and [upper] *)

(** [c.isspace()] for the code points 0..255. *)
Definition is_space (c : Ascii.ascii) : bool :=
  let n := Ascii.nat_of_ascii c in
  bool_decide (9 <= n <= 13) || bool_decide (28 <= n <= 32)
  || bool_decide (n = 133) || bool_decide (n = 160).

Fixpoint lstrip (s : string) : string :=
  match s with
  | EmptyString => EmptyString
  | String c s' => if is_space c then lstrip s' else s
  end.

Fixpoint rstrip (s : string) : string :=
  match s with
  | EmptyString => EmptyString
  | String c s' =>
      match rstrip s' with
      | EmptyString => if is_space c then EmptyString else String c EmptyString
      | rest => String c rest
      end
  end.

(** [s.strip()] *)
Definition strip (s : string) : string := lstrip (rstrip s).

(** [c.upper()] for a code point 0..255. The capital of the sharp s is
    two letters; the capitals of the micro sign and of the y with
    diaeresis lie beyond 255, where the strings of this development do
    not reach: [None] stands for them. *)
Definition upper_char (c : Ascii.ascii) : option string :=
  let n := Ascii.nat_of_ascii c in
  if bool_decide (97 <= n <= 122)
  then Some (String (Ascii.ascii_of_nat (n - 32)) EmptyString)
  else if bool_decide (n = 223) then Some "SS"
  else if bool_decide (n = 181 \/ n = 255) then None
  else if bool_decide (224 <= n <= 254 /\ n <> 247)
  then Some (String (Ascii.ascii_of_nat (n - 32)) EmptyString)
  else Some (String c EmptyString).

(** [s.upper()], or [None] when it holds a character beyond 255; such a
    text is equal to no text of this development. *)
Fixpoint upper (s : string) : option string :=
  match s with
  | EmptyString => Some EmptyString
  | String c s' =>
      match upper_char c, upper s' with
      | Some u, Some rest => Some (u +:+ rest)
      | _, _ => None
      end
  end.

(** *** How a function ends *)

(** What ends a function of the application that does not return: the
    exceptions that are not a [PyError] of the pipeline, and these. *)
Inductive Stop : Type :=
  | SystemExit (code : Z)
  | KeyboardInterrupt
  | EOFError
  | ImportError
  | Error (e : PyError).

Inductive Outcome (A : Type) : Type :=
  | Returns (a : A)
  | Stops (x : Stop).
Arguments Returns {A} a.
Arguments Stops {A} x.

(** What a clause [except Exception] catches. [SystemExit],
    [KeyboardInterrupt] and an exception raised as [BaseException(...)]
    pass it. An outcome the pipeline's model leaves open
    ([NotModelled]) is carried through as it is. *)
Definition is_Exception (x : Stop) : bool :=
  match x with
  | SystemExit _ | KeyboardInterrupt => false
  | EOFError | ImportError => true
  | Error (BaseException _) | Error (NotModelled _) => false
  | Error _ => true
  end.

(** A computation of the pipeline, seen from the application. *)
Definition of_py {A} (c : Py A) : World -> Outcome A * World :=
  fun w =>
    match c w with
    | (Ok a, w') => (Returns a, w')
    | (Raise e, w') => (Stops (Error e), w')
    end.

(** *** [get_user_confirmation] *)

(** What the keyboard gives to one call of [input]: a line, or an
    interrupt. When nothing is left, the input is at its end. *)
Inductive Key : Type :=
  | Typed (line : string)
  | CtrlC.

(** What the terminal shows: the prompt of an [input], or a printed
    line. *)
Inductive Shown : Type :=
  | Asked (prompt : string)
  | Printed (line : string).

Record Console : Type := {
  pending : list Key;
  screen : list Shown;
}.

(** The loop of [get_user_confirmation]; each turn takes one key. At the
    end of the input [input] raises [EOFError], which the function does
    not catch. *)
Fixpoint get_user_confirmation (message : string) (keys : list Key) (shown : list Shown)
  : Outcome bool * Console :=
  let shown := shown ++ [Asked (message +:+ " (Y/N): ")] in
  match keys with
  | [] => (Stops EOFError, {| pending := []; screen := shown |})
  | CtrlC :: keys' =>
      (Stops (SystemExit 0),
       {| pending := keys';
          screen := shown ++ [Printed (newline +:+ newline
                                       +:+ "Operation cancelled by user.")] |})
  | Typed line :: keys' =>
      let response := upper (strip line) in
      if bool_decide (response ∈ [Some "Y"; Some "YES"])
      then (Returns true, {| pending := keys'; screen := shown |})
      else if bool_decide (response ∈ [Some "N"; Some "NO"])
      then (Returns false, {| pending := keys'; screen := shown |})
      else get_user_confirmation message keys'
             (shown ++ [Printed "Please enter Y or N"])
  end.

(** What a typed line says: yes, no, or nothing the function
    understands. *)
Definition answer (line : string) : option bool :=
  if bool_decide (strip line ∈ ["Y"; "y"; "YES"; "YEs"; "YeS"; "Yes";
                                "yES"; "yEs"; "yeS"; "yes"])
  then Some true
  else if bool_decide (strip line ∈ ["N"; "n"; "NO"; "No"; "nO"; "no"])
  then Some false
  else None.

(** What the terminal shows for lines the function does not
    understand: for each the prompt, then the reminder. *)
Definition reminders (message : string) (lines : list string) : list Shown :=
  lines ≫= (fun _ => [Asked (message +:+ " (Y/N): "); Printed "Please enter Y or N"]).

(** *** [run_extraction_pipeline] *)

Section Script.

Variable raw_data : string -> Result (list (list File)).
Variable client : list Request -> Request -> Result (list string).
Variable literal_eval : string -> Result PyObject.
Variable SYS_EXTRACTION_PROMPT : string.
(** [anthropic.Anthropic()] *)
Variable Anthropic : Result unit.
(** The end of [run], from [os.makedirs] on: the folder, the file and
    the lines about them. *)
Variable save : DataFrame -> Py unit.

Local Open Scope py_scope.

(** [LLMExtractionPipeline()] *)
Definition LLMExtractionPipeline : Py unit :=
  lift Anthropic ;;; print (Stamped "Pipeline started").

(** [pipeline.run()], with the saving of the table. *)
Definition run_and_save : Py unit :=
  df <- run raw_data client literal_eval SYS_EXTRACTION_PROMPT ;;
  save df.

(** The three statements in the inner [try] of
    [run_extraction_pipeline], the import apart. *)
Definition pipeline_script : Py unit :=
  LLMExtractionPipeline ;;; run_and_save.

End Script.

(** The lines [run_extraction_pipeline] prints, by what they say:
    - [PipelineScriptNotFound path]: Pipeline script not found, then the
      path
    - [RunningExtractionPipeline path]: the three lines Running
      extraction pipeline..., Pipeline location with the path, This may
      take a few minutes..., and an empty line
    - [PipelineCompleted]: Pipeline completed successfully!
    - [FailedToImportPipeline]: Failed to import pipeline, then the
      error
    - [PipelineExecutionFailed x]: Pipeline execution failed, then the
      error [x]. *)
Inductive Notice : Type :=
  | PipelineScriptNotFound (path : string)
  | RunningExtractionPipeline (path : string)
  | PipelineCompleted
  | FailedToImportPipeline
  | PipelineExecutionFailed (x : Stop).

(** The world of the pipeline and the lines of the application; how the
    two kinds of lines interleave is not kept. *)
Record AppWorld : Type := {
  app_world : World;
  app_notices : list Notice;
}.

Definition notice (n : Notice) (a : AppWorld) : AppWorld :=
  {| app_world := a.(app_world); app_notices := a.(app_notices) ++ [n] |}.

(** [run_extraction_pipeline(pipeline_path)]. [found] is
    [os.path.exists(pipeline_path)]; [import_and_run] is the inner [try]:
    the import of the pipeline module, which can end in [ImportError],
    then [pipeline_script]. The search path and the working directory
    are not modelled. *)
Definition run_extraction_pipeline (pipeline_path : string) (found : bool)
    (import_and_run : World -> Outcome unit * World) (a : AppWorld)
  : Outcome bool * AppWorld :=
  if negb found then (Returns false, notice (PipelineScriptNotFound pipeline_path) a)
  else
    let a := notice (RunningExtractionPipeline pipeline_path) a in
    match import_and_run a.(app_world) with
    | (Returns _, w) =>
        (Returns true,
         notice PipelineCompleted {| app_world := w; app_notices := a.(app_notices) |})
    | (Stops ImportError, w) =>
        (Returns false,
         notice FailedToImportPipeline {| app_world := w; app_notices := a.(app_notices) |})
    | (Stops x, w) =>
        let a := {| app_world := w; app_notices := a.(app_notices) |} in
        if is_Exception x then (Returns false, notice (PipelineExecutionFailed x) a)
        else (Stops x, a)
    end.

(** *** [main] *)

Module Bootstrap.

Inductive Mode : Type := Cli | Web.

(** The flags of the command line. *)
Record Args : Type := {
  args_web : bool;
  args_cli : bool;
  args_force : bool;
}.

(** The paths [main] looks at. *)
Inductive Path : Type := financial_data | pipeline_script | raw_dir.

(** What [main] does to the outside, one step per call, with what the
    call returned. A call that did not return is [Stopped]. [Launching]
    is recorded when the launch starts: the application runs inside that
    call. *)
Inductive Step : Type :=
  | MadeDirs
  | DataChecked (data_exists : bool)
  | Existed (path : Path) (found : bool)
  | Confirmed (message : string) (answer : bool)
  | Extracted (success : bool)
  | Validated (is_valid : bool) (error_message : option Reason)
  | Removed
  | Launching (mode : Mode)
  | Stopped (x : Stop).

Definition extraction_question : string :=
  "Do you want to run the data extraction pipeline?".
Definition deletion_question : string := "Delete invalid data and re-extract?".

Section Main.

(** The state of the outside: files, terminal, network. *)
Variable S : Type.

(** A function [main] calls. *)
Definition Callee (A : Type) : Type := S -> Outcome A * S.

(** [main] itself: it threads the state and the record of its steps. *)
Definition App (A : Type) : Type := S * list Step -> Outcome A * (S * list Step).

Definition ret {A} (a : A) : App A := fun st => (Returns a, st).

Definition bind {A B} (c : App A) (k : A -> App B) : App B :=
  fun st =>
    match c st with
    | (Returns a, st') => k a st'
    | (Stops x, st') => (Stops x, st')
    end.

(** [sys.exit(code)] *)
Definition sys_exit {A} (code : Z) : App A := fun st => (Stops (SystemExit code), st).

Definition call {A} (f : Callee A) (step : A -> Step) : App A :=
  fun st =>
    match f st.1 with
    | (Returns a, s') => (Returns a, (s', st.2 ++ [step a]))
    | (Stops x, s') => (Stops x, (s', st.2 ++ [Stopped x]))
    end.

Definition launch (mode : Mode) (f : Callee unit) : App unit :=
  fun st =>
    match f st.1 with
    | (outcome, s') => (outcome, (s', st.2 ++ [Launching mode]))
    end.

(** [os.makedirs(paths['processed_dir'], exist_ok=True)] *)
Variable makedirs : Callee unit.
Variable check_data_exists : Callee bool.
(** [os.path.exists] *)
Variable exists_ : Path -> Callee bool.
Variable get_user_confirmation : string -> Callee bool.
Variable run_extraction_pipeline : Callee bool.
Variable validate_data_structure : Callee (bool * option Reason).
(** [os.remove(paths['financial_data'])] *)
Variable remove : Callee unit.
Variable launch_cli_app : Callee unit.
Variable launch_web_app : Callee unit.

Local Notation "x <- c ;; k" := (bind c (fun x => k))
  (at level 100, c at next level, right associativity).
Local Notation "c ;;; k" := (bind c (fun _ => k))
  (at level 100, right associativity).

(** Step 1.1 of [main]: the extraction, when there is no data. *)
Definition extract_if_needed (data_exists : bool) : App unit :=
  if data_exists then ret tt
  else
    found <- call (exists_ pipeline_script) (Existed pipeline_script) ;;
    if negb found then sys_exit 1
    else
      found <- call (exists_ raw_dir) (Existed raw_dir) ;;
      if negb found then sys_exit 1
      else
        should_extract <- call (get_user_confirmation extraction_question)
                            (Confirmed extraction_question) ;;
        if negb should_extract then sys_exit 0
        else
          success <- call run_extraction_pipeline Extracted ;;
          if negb success then sys_exit 1 else ret tt.

(** Step 2 of [main]: the validation, and step 2.1 when it fails. *)
Definition validate_or_reextract : App unit :=
  v <- call validate_data_structure (fun v => Validated v.1 v.2) ;;
  if v.1 then ret tt
  else
    should_reextract <- call (get_user_confirmation deletion_question)
                          (Confirmed deletion_question) ;;
    if negb should_reextract then sys_exit 1
    else
      found <- call (exists_ financial_data) (Existed financial_data) ;;
      (if found then call remove (fun _ => Removed) else ret tt) ;;;
      success <- call run_extraction_pipeline Extracted ;;
      if negb success then sys_exit 1
      else
        v <- call validate_data_structure (fun v => Validated v.1 v.2) ;;
        if negb v.1 then sys_exit 1 else ret tt.

(** [main()], for parsed arguments. What it prints, and the summary it
    reads from the valid file only to print it, are left out. *)
Definition main (args : Args) : App unit :=
  call makedirs (fun _ => MadeDirs) ;;;
  data_exists <- call check_data_exists DataChecked ;;
  let data_exists := if args.(args_force) then false else data_exists in
  extract_if_needed data_exists ;;;
  validate_or_reextract ;;;
  if args.(args_cli) then launch Cli launch_cli_app
  else launch Web launch_web_app.

(** The guard around [main()] at the bottom of the file. *)
Definition guarded_main (args : Args) : App unit :=
  fun st =>
    match main args st with
    | (Stops KeyboardInterrupt, st') => (Stops (SystemExit 0), st')
    | (Stops x, st') =>
        if is_Exception x then (Stops (SystemExit 1), st') else (Stops x, st')
    | (Returns a, st') => (Returns a, st')
    end.

End Main.

End Bootstrap.

(** A saving that always works and prints its two lines. *)
Definition save_ok (output_path : string) (df : DataFrame) : Py unit :=
  bind (print (Stamped ("Saving Dataframe at " +:+ output_path +:+ "...")))
    (fun _ => print (Stamped "File saved successfully!")).

(** The inner [try] of [run_extraction_pipeline] on the pipeline of this
    repository: the import, which works or ends in [ImportError], then
    the script. *)
Definition import_and_run (imported : bool) (script : Py unit)
  : World -> Outcome unit * World :=
  fun w => if imported then of_py script w else (Stops ImportError, w).

(** A callee that returns [a] and leaves the outside as it is. *)
Definition always {S A} (a : A) : Bootstrap.Callee S A := fun s => (Returns a, s).

(** [main] where every call returns: the data are there or not, the
    validator says [is_valid] each time, the operator says yes, and the
    pipeline succeeds. *)
Definition main_with (data_exists is_valid : bool) (args : Bootstrap.Args)
  : Bootstrap.App unit unit :=
  Bootstrap.main unit (always tt) (always data_exists) (fun _ => always true)
    (fun _ => always true) (always true)
    (always (is_valid, if is_valid then None else Some DataFileEmpty))
    (always tt) (always tt) (always tt) args.

(** ** The assistant: [chat/integrated_dash.py] *)

(** *** The rows of the context: [prepare_context_data] *)

Module Rows.

Section Rows.

(** The rows of a table, with the equality by which [drop_duplicates]
    tells two rows apart. *)
Context {A : Type} `{EqDecision A}.

(** [df.head(n)]: the first [n] rows, or all but the last [-n]. *)
Definition head (n : Z) (df : list A) : list A :=
  if (n <? 0)%Z then take (length df - Z.to_nat (- n)) df
  else take (Z.to_nat n) df.

(** [df.tail(n)]: the last [n] rows, or all but the first [-n]. *)
Definition tail (n : Z) (df : list A) : list A :=
  if (n <? 0)%Z then list.drop (Z.to_nat (- n)) df
  else list.drop (length df - Z.to_nat n) df.

(** [df.drop_duplicates()]: a row is kept where it first occurs. *)
Fixpoint drop_duplicates_after (seen : list A) (df : list A) : list A :=
  match df with
  | [] => []
  | row :: df' =>
      if decide (row ∈ seen) then drop_duplicates_after seen df'
      else row :: drop_duplicates_after (row :: seen) df'
  end.

Definition drop_duplicates (df : list A) : list A := drop_duplicates_after [] df.

(** The rows [prepare_context_data] shows, [context_df], for a table
    that is not empty. *)
Definition context_rows (max_context_rows : Z) (df : list A) : list A :=
  let total_rows := Z.of_nat (length df) in
  if (total_rows <=? max_context_rows)%Z then df
  else
    let recent_data := tail (max_context_rows / 2) df in
    let historical_data := head (max_context_rows / 2) df in
    drop_duplicates (historical_data ++ recent_data).

End Rows.

End Rows.

(** *** [query_financial_data] and [run_cli_session] *)

(** [c.lower()] for a code point 0..255. *)
Definition lower_char (c : Ascii.ascii) : Ascii.ascii :=
  let n := Ascii.nat_of_ascii c in
  if bool_decide (65 <= n <= 90) || bool_decide (192 <= n <= 222 /\ n <> 215)
  then Ascii.ascii_of_nat (n + 32)
  else c.

(** [s.lower()] *)
Fixpoint lower (s : string) : string :=
  match s with
  | EmptyString => EmptyString
  | String c s' => String (lower_char c) (lower s')
  end.

(** What [query_financial_data] returns: the text of the model, or one
    of its two messages.
    - [NoDataLoaded]: No financial data loaded. Please load data first.
    - [ErrorProcessingQuery e]: Error processing query, then the
      error [e]. *)
Inductive Reply : Type :=
  | Answer (text : string)
  | NoDataLoaded
  | ErrorProcessingQuery (e : PyError).

(** The prompt of a query: the context, the query, the closing
    request. *)
Definition full_prompt (context_data user_query : string) : string :=
  "Financial Data Context:" +:+ newline +:+ context_data +:+ newline +:+ newline
  +:+ "User Query: " +:+ user_query +:+ newline +:+ newline
  +:+ "Please provide a comprehensive answer based on the financial data above. Include specific numbers, dates, and calculations where relevant. Use markdown formatting for better readability.".

(** What the session shows, by what the lines say:
    - [QuestionPrompt]: the prompt Your question
    - [ThankYou]: Thank you for using Financial AI Assistant!
    - [ExampleQueries]: the heading EXAMPLE QUERIES, a rule, the ten
      numbered examples and a rule
    - [ProcessingQuery]: Processing your query...
    - [AIResponse reply]: the heading AI RESPONSE, a rule, the reply, a
      rule and the line Generated at with the time
    - [SessionEnded]: Session ended by user.
    - [ErrorLine x]: Error, then the exception [x]. *)
Inductive Display : Type :=
  | QuestionPrompt
  | ThankYou
  | ExampleQueries
  | ProcessingQuery
  | AIResponse (reply : Reply)
  | SessionEnded
  | ErrorLine (x : Stop).

(** The terminal of the session and the requests sent. *)
Record Terminal : Type := {
  keyboard : list Key;
  display : list Display;
  requests : list Request;
}.

Definition show (d : Display) (t : Terminal) : Terminal :=
  {| keyboard := t.(keyboard); display := t.(display) ++ [d];
     requests := t.(requests) |}.

Section Assistant.

Variable client : list Request -> Request -> Result (list string).
Variable SYS_PROMPT_AGENT : string.
(** [self.df is not None] *)
Variable loaded : bool.
(** [prepare_context_data()] on the loaded table: the text, or the
    exception of the formatting. *)
Variable prepare_context_data : Result string.

(** [query_financial_data(user_query)]: the reply and the requests sent
    after it, or the exception that passes its [except Exception]. *)
Definition query_financial_data (user_query : string) (sent : list Request)
  : Outcome Reply * list Request :=
  if negb loaded then (Returns NoDataLoaded, sent)
  else
    match prepare_context_data with
    | Raise e => (Stops (Error e), sent)
    | Ok context_data =>
        let request := {| req_model := default_model_name;
                          req_max_tokens := default_max_tokens;
                          req_system := SYS_PROMPT_AGENT;
                          req_content := full_prompt context_data user_query |} in
        match client sent request with
        | Ok (text :: _) => (Returns (Answer text), sent ++ [request])
        | Ok [] => (Returns (ErrorProcessingQuery IndexError), sent ++ [request])
        | Raise e =>
            if is_Exception (Error e)
            then (Returns (ErrorProcessingQuery e), sent ++ [request])
            else (Stops (Error e), sent ++ [request])
        end
    end.

(** The loop of [run_cli_session]. Each turn takes one unit of [fuel];
    [None] is a loop that is still running when the fuel is used up. At
    the end of the input, [input] raises [EOFError] in every turn, and
    the loop catches it as it catches every [Exception]; a
    [KeyboardInterrupt] ends the session, and what is neither passes. *)
Fixpoint run_cli_loop (fuel : nat) (t : Terminal) : option (Outcome unit * Terminal) :=
  match fuel with
  | O => None
  | S fuel' =>
      let t := show QuestionPrompt t in
      match t.(keyboard) with
      | [] => run_cli_loop fuel' (show (ErrorLine EOFError) t)
      | CtrlC :: keys =>
          Some (Returns tt,
                show SessionEnded {| keyboard := keys; display := t.(display);
                                     requests := t.(requests) |})
      | Typed line :: keys =>
          let t := {| keyboard := keys; display := t.(display);
                      requests := t.(requests) |} in
          let user_input := strip line in
          if bool_decide (lower user_input ∈ ["quit"; "exit"; "q"])
          then Some (Returns tt, show ThankYou t)
          else if bool_decide (lower user_input ∈ ["help"; "examples"])
          then run_cli_loop fuel' (show ExampleQueries t)
          else if bool_decide (user_input = EmptyString)
          then run_cli_loop fuel' t
          else
            let t := show ProcessingQuery t in
            match query_financial_data user_input t.(requests) with
            | (Returns response, sent) =>
                run_cli_loop fuel'
                  (show (AIResponse response)
                     {| keyboard := t.(keyboard); display := t.(display);
                        requests := sent |})
            | (Stops x, sent) =>
                let t := {| keyboard := t.(keyboard); display := t.(display);
                            requests := sent |} in
                match x with
                | KeyboardInterrupt => Some (Returns tt, show SessionEnded t)
                | _ =>
                    if is_Exception x then run_cli_loop fuel' (show (ErrorLine x) t)
                    else Some (Stops x, t)
                end
            end
      end
  end.

End Assistant.

(** What a typed line is to the session. *)
Inductive LineKind : Type :=
  | Quit
  | Help
  | Blank
  | Question (user_input : string).

Definition line_kind (line : string) : LineKind :=
  let user_input := strip line in
  if bool_decide (lower user_input ∈ ["quit"; "exit"; "q"]) then Quit
  else if bool_decide (lower user_input ∈ ["help"; "examples"]) then Help
  else if bool_decide (user_input = EmptyString) then Blank
  else Question user_input.

(** The questions among some lines, in their order. *)
Definition questions (lines : list string) : list string :=
  lines ≫= (fun line =>
    match line_kind line with
    | Question user_input => [user_input]
    | _ => []
    end).

(** ** The charts: [chat/plots.py] *)

Module Plots.

Definition COLOR_MAP : gmap string string :=
  <["REXP" := "#FF4444"]> (<["DIPD" := "#4444FF"]> ∅).

(** An entry of [METRIC_INFO]. *)
Record MetricInfo : Type := {
  info_label : string;
  info_title : string;
}.

Definition METRIC_INFO : gmap string MetricInfo :=
  <["Revenue" := {| info_label := "Revenue (Rn)";
                    info_title := "Revenue Trend Over Time" |}]>
  (<["Gross Profit" := {| info_label := "Gross Profit (Rn)";
                          info_title := "Gross Profit Trend Over Time" |}]>
  (<["Operating Income" := {| info_label := "Operating Income (Rn)";
                              info_title := "Operating Income Trend Over Time" |}]>
  (<["Net Income" := {| info_label := "Net Income (Rn)";
                        info_title := "Net Income Trend Over Time" |}]> ∅))).

(** [cell in companies], the test of [isin] for one cell; the
    companies are texts. *)
Definition isin (companies : list string) (cell : option PyValue) : bool :=
  match cell with
  | Some (VStr s) => bool_decide (s ∈ companies)
  | _ => false
  end.

(** [df[mask]]: the rows where the mask holds, with their index
    entries. *)
Definition select (mask : gmap string PyValue -> bool) (df : DataFrame) : DataFrame :=
  {| df_columns := df.(df_columns);
     df_index := (filter (fun p => mask p.2 = true) (zip df.(df_index) df.(df_rows))).*1;
     df_rows := filter (fun row => mask row = true) df.(df_rows) |}.

(** [df if companies is None else df[df['Simbol'].isin(companies)]] *)
Definition filter_companies (companies : option (list string)) (df : DataFrame)
  : Result DataFrame :=
  match companies with
  | None => Ok df
  | Some companies =>
      if decide ("Simbol" ∈ df.(df_columns))
      then Ok (select (fun row => isin companies (row !! "Simbol")) df)
      else Raise (KeyError "Simbol")
  end.

(** The arguments [create_metric_trend_chart] gives to [px.line]; the
    figure is the library's work. *)
Record LineChart : Type := {
  chart_data : DataFrame;
  chart_x : string;
  chart_y : string;
  chart_color : string;
  chart_title : string;
  chart_labels : gmap string string;
  chart_color_discrete_map : gmap string string;
}.

Definition create_metric_trend_chart (df : DataFrame) (metric : string)
    (companies : option (list string)) : Result LineChart :=
  rbind (filter_companies companies df) (fun df_filtered =>
  let info := default {| info_label := metric +:+ " (Rn)";
                         info_title := metric +:+ " Trend Over Time" |}
                      (METRIC_INFO !! metric) in
  Ok {| chart_data := df_filtered;
        chart_x := "Report Date";
        chart_y := metric;
        chart_color := "Simbol";
        chart_title := info.(info_title);
        chart_labels := <["Report Date" := "Date"]> (<[metric := info.(info_label)]> ∅);
        chart_color_discrete_map := COLOR_MAP |}).

Inductive TraceKind : Type := Scatter | Bar.

(** A trace of the figure: what [go.Scatter] or [go.Bar] is given, and
    the cell of the grid it is added to. *)
Record Trace : Type := {
  trace_kind : TraceKind;
  trace_x : list (option PyValue);
  trace_y : list (option PyValue);
  trace_name : string;
  trace_color : string;
  trace_dash : option string;
  trace_row : nat;
  trace_col : nat;
}.

(** A value of the column Simbol as the loop over [unique()] has it: a
    text, or [None] for a missing cell (NaN). Other values are not
    modelled. *)
Definition simbol_of (cell : option PyValue) : Result (option string) :=
  match cell with
  | None => Ok None
  | Some (VStr s) => Ok (Some s)
  | Some _ => Raise (NotModelled "a company symbol that is not a text")
  end.

(** [f'{company}'] *)
Definition company_text (company : option string) : string := default "nan" company.

(** [COLOR_MAP.get(company, '#666666')] *)
Definition company_color (company : option string) : string :=
  default "#666666" (company ≫= fun c => COLOR_MAP !! c).

(** [df_filtered['Simbol'] == company], for one row; NaN equals
    nothing. *)
Definition is_company (company : option string) (row : gmap string PyValue) : bool :=
  match company with
  | Some c => bool_decide (row !! "Simbol" = Some (VStr c))
  | None => false
  end.

(** The four traces of a company, from the cells of its rows. *)
Definition four_traces (company : option string)
    (dates gross operating net quarters income : list (option PyValue)) : list Trace :=
  let color := company_color company in
  [ {| trace_kind := Scatter; trace_x := dates; trace_y := gross;
       trace_name := company_text company +:+ " - Gross";
       trace_color := color; trace_dash := None; trace_row := 1; trace_col := 1 |};
    {| trace_kind := Scatter; trace_x := dates; trace_y := operating;
       trace_name := company_text company +:+ " - Operating";
       trace_color := color; trace_dash := Some "dash"; trace_row := 1; trace_col := 2 |};
    {| trace_kind := Scatter; trace_x := dates; trace_y := net;
       trace_name := company_text company +:+ " - Net";
       trace_color := color; trace_dash := Some "dot"; trace_row := 2; trace_col := 1 |};
    {| trace_kind := Bar; trace_x := quarters; trace_y := income;
       trace_name := company_text company +:+ " - Net Income";
       trace_color := color; trace_dash := None; trace_row := 2; trace_col := 2 |} ].

(** One turn of the loop over the companies. *)
Definition company_traces (df_filtered : DataFrame) (company : option string)
  : Result (list Trace) :=
  let company_data := select (is_company company) df_filtered in
  rbind (column "Report Date" company_data) (fun dates =>
  rbind (column "Gross Margin %" company_data) (fun gross =>
  rbind (column "Operating Margin %" company_data) (fun operating =>
  rbind (column "Net Margin %" company_data) (fun net =>
  rbind (column "Quarter_Year" company_data) (fun quarters =>
  rbind (column "Net Income" company_data) (fun income =>
  Ok (four_traces company dates gross operating net quarters income))))))).

(** The traces of the figure of [create_profitability_comparison], in
    the order they are added. *)
Definition create_profitability_comparison (df : DataFrame)
    (companies : option (list string)) : Result (list Trace) :=
  rbind (filter_companies companies df) (fun df_filtered =>
  rbind (column "Simbol" df_filtered) (fun cells =>
  rbind (mapR simbol_of cells) (fun simbols =>
  rbind (mapR (company_traces df_filtered) (Rows.drop_duplicates simbols)) (fun traces =>
  Ok (mjoin traces))))).

(** The cells of a column in some rows. *)
Definition cells (label : string) (rows : list (gmap string PyValue))
  : list (option PyValue) :=
  (fun row => row !! label) <$> rows.

(** The four traces of a company over some rows. *)
Definition traces_over (company : option string) (rows : list (gmap string PyValue))
  : list Trace :=
  four_traces company (cells "Report Date" rows) (cells "Gross Margin %" rows)
    (cells "Operating Margin %" rows) (cells "Net Margin %" rows)
    (cells "Quarter_Year" rows) (cells "Net Income" rows).

(** Whether the row of a cell is among the selected companies. *)
Definition selected (companies : option (list string)) (cell : option PyValue) : bool :=
  match companies with
  | None => true
  | Some companies => isin companies cell
  end.

End Plots.

(* ================================================================= *)
(** * Properties *)

(** ** The embedding at work *)

Example replace_removes_suffix :
  PyStr.replace ".pdf" EmptyString "30062022.pdf" = "30062022".
Proof. reflexivity. Qed.

Example replace_left_to_right : PyStr.replace "aa" "b" "aaaaa" = "bba".
Proof. reflexivity. Qed.

Example strip_can_leave_json : strip_fences "jsjsonon" = "json".
Proof. reflexivity. Qed.

Example file_name_of_path :
  trimmed_file_name "REXP" "C:\reports\data\raw\\REXP\30062022.pdf" = "30062022.pdf".
Proof. reflexivity. Qed.

(** The message of a page record: keys and values in double quotes, a
    comma after every line, the closing brace on a line of its own. *)
Example message_of_record :
  build_message {| tg_index := [0%Z]; tg_simbol := ["REXP"];
                   tg_file_name := ["30062022.pdf"]; tg_target_page := ["Revenue 1"] |} 0
  = Ok ("{" +:+ newline
        +:+ newline +:+ indent20 +:+ Samples.quoted "index" +:+ ":"
        +:+ Samples.quoted "0" +:+ ","
        +:+ newline +:+ indent20 +:+ Samples.quoted "simbol" +:+ ":"
        +:+ Samples.quoted "REXP" +:+ ","
        +:+ newline +:+ indent20 +:+ Samples.quoted "file_name" +:+ ":"
        +:+ Samples.quoted "30062022.pdf" +:+ ","
        +:+ newline +:+ indent20 +:+ Samples.quoted "target_page" +:+ ":"
        +:+ Samples.quoted "Revenue 1" +:+ ","
        +:+ newline +:+ "}").
Proof. vm_compute. reflexivity. Qed.

(** A comma after the last item of a dict display is part of a valid
    literal. *)
Example literal_with_trailing_comma :
  literal_eval_flat "{'index': 0, 'Simbol': 'REXP', 'Revenue': -17, }"
  = Some (Dict (<["index" := VInt 0]>
               (<["Simbol" := VStr "REXP"]> (<["Revenue" := VInt (-17)]> ∅)))).
Proof. vm_compute. reflexivity. Qed.

Example report_date_one_digit_month :
  report_date "1122024.pdf" = Ok (Datetime 2024 2 11).
Proof. vm_compute. reflexivity. Qed.

Example report_date_first_match_only :
  report_date "3122024.pdf" = Raise (ValueError "day is out of range for month").
Proof. vm_compute. reflexivity. Qed.

Example report_date_text_left_over :
  report_date "300620221.pdf" = Raise (ValueError "unconverted data remains").
Proof. vm_compute. reflexivity. Qed.

Example report_date_not_a_date :
  report_date "Q2-2022.pdf"
  = Raise (ValueError "time data does not match format '%d%m%Y'").
Proof. vm_compute. reflexivity. Qed.

(** ** Strings *)

#[local] Arguments String.append !_ _ / : simpl nomatch.

Section StringFacts.

Lemma append_nil_r (s : string) : s +:+ EmptyString = s.
Proof. induction s as [|c s IH]; simpl; [done | by f_equal]. Qed.

Lemma append_assoc (a b c : string) : (a +:+ b) +:+ c = a +:+ (b +:+ c).
Proof. induction a as [|x a IH]; simpl; [done | by f_equal]. Qed.

Lemma startswith_app (pre rest : string) : PyStr.startswith pre (pre +:+ rest) = true.
Proof.
  induction pre as [|c pre IH]; simpl; [done|].
  destruct (decide (c = c)); [exact IH | done].
Qed.

(** [startswith] decides being a prefix. *)
Lemma startswith_spec (pre s : string) :
  PyStr.startswith pre s = true <-> exists rest, s = pre +:+ rest.
Proof.
  split.
  - revert s. induction pre as [|c pre IH]; intros s H.
    + by exists s.
    + destruct s as [|b s]; simpl in H; [done|].
      destruct (decide (c = b)) as [->|]; [|done].
      destruct (IH _ H) as [rest ->]. by exists rest.
  - intros [rest ->]. apply startswith_app.
Qed.

Lemma contains_startswith (sub s : string) :
  PyStr.startswith sub s = true -> PyStr.contains sub s = true.
Proof. intros H. destruct s; simpl; rewrite H; done. Qed.

(** [contains] decides being a substring. *)
Lemma contains_spec (sub s : string) :
  PyStr.contains sub s = true <-> exists pre post, s = pre +:+ sub +:+ post.
Proof.
  split.
  - induction s as [|c s IH]; simpl; intros H.
    + apply orb_true_iff in H as [H|H]; [|done].
      apply startswith_spec in H as [rest ->]. by exists EmptyString, rest.
    + apply orb_true_iff in H as [H|H].
      * apply startswith_spec in H as [rest ->]. by exists EmptyString, rest.
      * destruct (IH H) as (pre & post & ->). by exists (String c pre), post.
  - intros (pre & post & ->). induction pre as [|c pre IH].
    + change (EmptyString +:+ sub +:+ post) with (sub +:+ post).
      apply contains_startswith, startswith_app.
    + simpl. simpl in IH. rewrite IH. apply orb_true_r.
Qed.

Lemma drop_app_length (a b : string) : PyStr.drop (String.length a) (a +:+ b) = b.
Proof. induction a as [|c a IH]; simpl; [by destruct b | exact IH]. Qed.

(** Passing over [k] characters is dropping them. *)
Lemma replace_go_skip (old new : string) (k : nat) (s : string) :
  PyStr.replace_go old new k s = PyStr.replace_go old new 0 (PyStr.drop k s).
Proof.
  revert k. induction s as [|c s IH]; intros [|k]; simpl; try done.
Qed.

Lemma replace_go_cons (old new : string) (c : Ascii.ascii) (s : string) :
  PyStr.replace_go old new 0 (String c s)
  = if PyStr.startswith old (String c s)
    then new +:+ PyStr.replace_go old new (String.length old - 1) s
    else String c (PyStr.replace_go old new 0 s).
Proof. reflexivity. Qed.

(** The equation of [replace] for a text to remove: at an occurrence,
    go on after it; elsewhere keep the character. *)
Lemma replace_unfold (old new s : string) :
  old <> EmptyString ->
  PyStr.replace old new s =
    if PyStr.startswith old s
    then new +:+ PyStr.replace old new (PyStr.drop (String.length old) s)
    else match s with
         | EmptyString => EmptyString
         | String c s' => String c (PyStr.replace old new s')
         end.
Proof.
  intros Hold. destruct old as [|a old]; [done|]. unfold PyStr.replace.
  destruct s as [|c s].
  - simpl. done.
  - cbn [PyStr.replace_go].
    destruct (PyStr.startswith (String a old) (String c s)); [|done].
    f_equal. rewrite replace_go_skip. simpl. by rewrite Nat.sub_0_r.
Qed.

(** A text without [old] is left as it is. *)
Lemma replace_absent (old new s : string) :
  old <> EmptyString ->
  PyStr.contains old s = false ->
  PyStr.replace old new s = s.
Proof.
  intros Hold. induction s as [|c s IH]; intros Hc.
  - rewrite replace_unfold by done. simpl in Hc.
    apply orb_false_iff in Hc as [-> _]. done.
  - rewrite replace_unfold by done. simpl in Hc.
    apply orb_false_iff in Hc as [-> Hc]. by rewrite IH.
Qed.

(** An occurrence at the start of a long text is already there in a
    shorter one that is long enough. *)
Lemma startswith_app_short (old a b c : string) :
  PyStr.startswith old (a +:+ b +:+ c) = true ->
  String.length old <= String.length a + String.length b ->
  PyStr.startswith old (a +:+ b) = true.
Proof.
  revert a b. induction old as [|x old IH]; intros a b H Hlen; [done|].
  destruct a as [|y a]; simpl in *.
  - destruct b as [|y b]; simpl in *; [lia|].
    destruct (decide (x = y)); [|done].
    apply (IH EmptyString b); [done | simpl; lia].
  - destruct (decide (x = y)); [|done]. apply IH; [done | lia].
Qed.

(** Wherever the first occurrence of [old] stands in a text, [replace]
    replaces it and goes on behind it. [old] is written as its last
    character after the rest, [front]. *)
Lemma replace_first_occurrence (front : string) (last : Ascii.ascii)
    (new pre post : string) :
  let old := front +:+ String last EmptyString in
  PyStr.contains old (pre +:+ front) = false ->
  PyStr.replace old new (pre +:+ old +:+ post)
  = pre +:+ new +:+ PyStr.replace old new post.
Proof.
  intros old. assert (Hold : old <> EmptyString) by (unfold old; by destruct front).
  assert (Hlen : String.length old = S (String.length front)).
  { unfold old. clear. induction front as [|c front IH]; simpl; [done | by rewrite IH]. }
  induction pre as [|c pre IH]; intros Hc.
  - change (EmptyString +:+ old +:+ post) with (old +:+ post).
    rewrite replace_unfold by done.
    by rewrite startswith_app, drop_app_length.
  - rewrite replace_unfold by done.
    change (PyStr.contains old (String c (pre +:+ front)) = false) in Hc.
    simpl in Hc. apply orb_false_iff in Hc as [Hs Hc].
    destruct (PyStr.startswith old (String c pre +:+ old +:+ post)) eqn:Hstart.
    + assert (old +:+ post = front +:+ String last post) as Heq
        by (unfold old; by rewrite append_assoc).
      rewrite Heq in Hstart.
      apply (startswith_app_short old (String c pre) front) in Hstart.
      * simpl in Hstart. congruence.
      * simpl. lia.
    + simpl. f_equal. by apply IH.
Qed.

(** The closing fence is removed on its own: the backticks of a text
    are removed three by three from the left, and the three of the
    closing fence do not change what is left of a run before them. *)
Lemma replace_backticks_closing (body : string) (k : nat) :
  k <= String.length body ->
  PyStr.replace_go backticks EmptyString k (body +:+ backticks)
  = PyStr.replace_go backticks EmptyString k body.
Proof.
  revert k. induction body as [|a body IH]; intros k Hk.
  - simpl in Hk. assert (k = 0) as -> by lia. reflexivity.
  - destruct k as [|k]; [|simpl in *; apply IH; lia].
    change (String a body +:+ backticks) with (String a (body +:+ backticks)).
    rewrite !replace_go_cons.
    destruct (PyStr.startswith backticks (String a body)) eqn:H1.
    + assert (PyStr.startswith backticks (String a (body +:+ backticks)) = true) as ->.
      { apply startswith_spec in H1 as [rest H1].
        change (String a (body +:+ backticks)) with (String a body +:+ backticks).
        rewrite H1, append_assoc. apply startswith_app. }
      f_equal. apply IH.
      apply startswith_spec in H1 as [rest H1]. injection H1 as _ ->. simpl. lia.
    + destruct (PyStr.startswith backticks (String a (body +:+ backticks))) eqn:H2.
      * destruct body as [|b [|c body]].
        -- simpl in H2. case_decide; [subst a; reflexivity | done].
        -- simpl in H2. case_decide; [subst a | done].
           case_decide; [subst b; reflexivity | done].
        -- simpl in H1, H2. congruence.
      * f_equal. apply IH. lia.
Qed.

(** Stripping a fenced text gives what stripping the text between the
    fences gives. *)
Lemma strip_fences_fenced (body : string) :
  strip_fences (fenced body) = strip_fences body.
Proof.
  unfold strip_fences, fenced.
  assert (PyStr.replace backticks EmptyString (backticks +:+ "json" +:+ body +:+ backticks)
          = "json" +:+ PyStr.replace backticks EmptyString body) as ->.
  { unfold PyStr.replace, backticks. simpl.
    f_equal. f_equal. f_equal. f_equal.
    apply (replace_backticks_closing body 0). lia. }
  reflexivity.
Qed.

End StringFacts.

(** ** Page Locator *)

Section LocatorFacts.

Implicit Types (simbol : string) (target : Target) (files : list Document).

(** The loop over the pages of one document, when it ends without an
    exception, has added the matching pages and nothing else. *)
Lemma scan_pages_ok simbol path target pages target' :
  foldM (scan_page simbol path) target pages = Ok target' ->
  target'.(tg_index) = target.(tg_index)
  /\ target'.(tg_simbol)
     = target.(tg_simbol) ++ replicate (length (matching_pages simbol pages)) simbol
  /\ target'.(tg_file_name)
     = target.(tg_file_name)
       ++ replicate (length (matching_pages simbol pages)) (trimmed_file_name simbol path)
  /\ target'.(tg_target_page) = target.(tg_target_page) ++ matching_pages simbol pages.
Proof.
  unfold matching_pages. revert target.
  induction pages as [|text pages IH]; intros target H; simpl in H.
  - injection H as <-. destruct (map_page_simbol !! simbol); simpl;
      by rewrite !app_nil_r.
  - unfold scan_page at 1 in H.
    destruct (map_page_simbol !! simbol) as [marker|] eqn:Hm; [|done].
    rewrite filter_cons.
    destruct (PyStr.contains marker text) eqn:Hc; simpl in H.
    + destruct (IH _ H) as (Hi & Hs & Hf & Hp). simpl in Hi, Hs, Hf, Hp.
      rewrite decide_True by done. simpl.
      rewrite Hi, Hs, Hf, Hp, <- !app_assoc. done.
    + rewrite decide_False by done. by apply IH.
Qed.

(** With a marker for the symbol, that loop never raises. *)
Lemma scan_pages_total simbol path target pages :
  is_Some (map_page_simbol !! simbol) ->
  exists target', foldM (scan_page simbol path) target pages = Ok target'.
Proof.
  intros [marker Hm]. revert target.
  induction pages as [|text pages IH]; intros target; simpl; [by eexists|].
  unfold scan_page at 1. rewrite Hm.
  destruct (PyStr.contains marker text); simpl; apply IH.
Qed.

(** The loop over the documents: one index per document, counting on
    from [index]; the matched pages of all documents. *)
Lemma scan_documents_ok simbol files target index target' index' :
  foldM (scan_document simbol) (target, index) files = Ok (target', index') ->
  index' = (index + Z.of_nat (length files))%Z
  /\ target'.(tg_index)
     = target.(tg_index) ++ ((fun i => (index + Z.of_nat i)%Z) <$> seq 0 (length files))
  /\ target'.(tg_simbol)
     = target.(tg_simbol) ++ replicate (length (matched_pages simbol files)) simbol
  /\ target'.(tg_file_name) = target.(tg_file_name) ++ matched_file_names simbol files
  /\ target'.(tg_target_page) = target.(tg_target_page) ++ matched_pages simbol files.
Proof.
  revert target index.
  induction files as [|file files IH]; intros target index H; simpl in H.
  - injection H as <- <-. simpl. rewrite !app_nil_r. split; [lia | done].
  - destruct (foldM (scan_page simbol (doc_path file)) target (doc_pages file))
      as [t1|] eqn:Hpages; simpl in H; [|done].
    apply scan_pages_ok in Hpages as (Hi & Hs & Hf & Hp).
    apply IH in H as (-> & Hi' & Hs' & Hf' & Hp'). simpl in *.
    unfold matched_pages, matched_file_names. simpl.
    rewrite Hi', Hs', Hf', Hp', Hi, Hs, Hf, Hp.
    rewrite length_app, replicate_add, <- !app_assoc.
    split; [lia|]. split; [|done]. simpl. f_equal.
    rewrite <- fmap_S_seq, <- list_fmap_compose. simpl.
    f_equal; [f_equal; lia|]. apply list_fmap_ext. intros _ i _. simpl. lia.
Qed.

Lemma scan_documents_total simbol files target index :
  is_Some (map_page_simbol !! simbol) ->
  exists st, foldM (scan_document simbol) (target, index) files = Ok st.
Proof.
  intros Hm. revert target index.
  induction files as [|file files IH]; intros target index; simpl; [by eexists|].
  destruct (scan_pages_total simbol (doc_path file) target (doc_pages file) Hm)
    as [t1 ->]. simpl. apply IH.
Qed.

(** A file that opens is scanned as the report it holds. *)
Lemma scan_files_readable simbol files st :
  foldM (scan_file simbol) st (readable <$> files)
  = foldM (scan_document simbol) st files.
Proof.
  revert st. induction files as [|[path pages] files IH]; intros st; [done|].
  rewrite fmap_cons. simpl. unfold scan_file at 1. simpl.
  destruct (scan_document simbol st _) as [st'|]; simpl; [apply IH | done].
Qed.

(** The listing of a folder whose names [glob] finds. *)
Lemma list_all_files_found raw_data simbol names :
  raw_data simbol = Ok names ->
  list_all_files raw_data simbol = mapR (fun found => getitem found 0) names.
Proof.
  intros Hnames. unfold list_all_files. rewrite Hnames. simpl.
  assert (forall e, mapR (fun found : list File => getitem found 0) names = Raise e ->
                    e = IndexError) as Herr.
  { clear. induction names as [|found names IH]; intros e; simpl; [done|].
    destruct found as [|f found]; simpl; [by intros [= <-]|].
    destruct (mapR _ names) as [fs|e']; simpl; [done|].
    intros [= <-]. by apply IH. }
  destruct (mapR _ names) as [fs|e]; [done|]. by rewrite (Herr e eq_refl).
Qed.

(** The locator on a folder whose files are listed and open. *)
Lemma extract_pl_pages_readable raw_data simbol files :
  list_all_files raw_data simbol = Ok (readable <$> files) ->
  extract_pl_pages raw_data simbol
  = rbind (foldM (scan_document simbol) (empty_target, 0%Z) files) (fun st => Ok st.1).
Proof.
  intros Hfiles. unfold extract_pl_pages. rewrite Hfiles. simpl.
  by rewrite scan_files_readable.
Qed.

(** What [extract_pl_pages] returns, when it returns. *)
Lemma extract_pl_pages_ok raw_data simbol files target :
  list_all_files raw_data simbol = Ok (readable <$> files) ->
  extract_pl_pages raw_data simbol = Ok target ->
  target = {| tg_index := range_index (length files);
              tg_simbol := replicate (length (matched_pages simbol files)) simbol;
              tg_file_name := matched_file_names simbol files;
              tg_target_page := matched_pages simbol files |}.
Proof.
  intros Hfiles. rewrite (extract_pl_pages_readable _ _ _ Hfiles).
  destruct (foldM _ _ _) as [[t i]|] eqn:H; simpl; [|done].
  intros [= <-]. apply scan_documents_ok in H as (_ & Hi & Hs & Hf & Hp).
  destruct t; simpl in *. subst. reflexivity.
Qed.

Lemma extract_pl_pages_total raw_data simbol files :
  list_all_files raw_data simbol = Ok (readable <$> files) ->
  is_Some (map_page_simbol !! simbol) ->
  exists target, extract_pl_pages raw_data simbol = Ok target.
Proof.
  intros Hfiles Hm. rewrite (extract_pl_pages_readable _ _ _ Hfiles).
  destruct (scan_documents_total simbol files empty_target 0%Z Hm) as [st ->].
  simpl. by eexists.
Qed.

End LocatorFacts.

(** C4. For every symbol whose folder is listed and whose documents
    open, the batch the Page Locator returns has one index
    entry per document of the symbol, the entries 0, 1, 2, ... whatever the
    documents matched, while the simbol, file_name and target_page lists
    have one entry per matched page; for a supported symbol the locator
    does return a batch; and the index list need not be as long as the
    other three: a document with two marker pages makes it shorter, a
    document with none makes it longer. *)
Theorem locator_index_per_document
    (raw_data : string -> Result (list (list File))) (simbol : string)
    (files : list Document) :
  list_all_files raw_data simbol = Ok (readable <$> files) ->
  (forall target, extract_pl_pages raw_data simbol = Ok target ->
     length target.(tg_index) = length files
     /\ target.(tg_index) = range_index (length files)
     /\ length target.(tg_simbol) = length (matched_pages simbol files)
     /\ length target.(tg_file_name) = length (matched_pages simbol files)
     /\ length target.(tg_target_page) = length (matched_pages simbol files))
  /\ (is_Some (map_page_simbol !! simbol) ->
      exists target, extract_pl_pages raw_data simbol = Ok target)
  /\ (exists target,
        extract_pl_pages (Samples.rexp_only [Samples.two_marker_pages]) "REXP" = Ok target
        /\ length target.(tg_index) = 1 /\ length target.(tg_target_page) = 2)
  /\ (exists target,
        extract_pl_pages (Samples.rexp_only [Samples.no_marker_page]) "REXP" = Ok target
        /\ length target.(tg_index) = 1 /\ length target.(tg_target_page) = 0).
Proof.
  intros Hfiles. split; [|split; [|split]].
  - intros target H. rewrite (extract_pl_pages_ok _ _ _ _ Hfiles H). simpl.
    unfold range_index, matched_file_names, matched_pages.
    rewrite length_fmap, length_seq, length_replicate. repeat split; try done.
    clear. induction files as [|file files IH]; [done|].
    rewrite !bind_cons, !length_app, length_replicate, IH. done.
  - intros Hm. by apply extract_pl_pages_total with files.
  - eexists. split; [vm_compute; reflexivity|]. done.
  - eexists. split; [vm_compute; reflexivity|]. done.
Qed.

Lemma locator_index_per_document_witness :
  exists target,
    extract_pl_pages (Samples.rexp_only [Samples.two_marker_pages; Samples.no_marker_page])
      "REXP" = Ok target
    /\ length target.(tg_index) = 2 /\ length target.(tg_target_page) = 2.
Proof.
  destruct (locator_index_per_document
              (Samples.rexp_only [Samples.two_marker_pages; Samples.no_marker_page])
              "REXP" [Samples.two_marker_pages; Samples.no_marker_page] eq_refl)
    as (Hok & Htotal & _).
  destruct Htotal as [target Ht]; [vm_compute; eauto|].
  exists target. split; [exact Ht|].
  destruct (Hok target Ht) as (Hi & _ & _ & _ & Hp). split; [exact Hi|].
  rewrite Hp. vm_compute. reflexivity.
Defined.

(** C5. For a supported symbol, REXP with the marker Consolidated Income
    Statements or DIPD with the marker STATEMENT OF PROFIT OR LOSS, whose
    folder is listed and whose documents open, the
    locator returns a batch whose pages are, document after document and
    page after page, the pages whose text contains the marker: a page is
    in the batch exactly when it is a page of one of the documents and
    its text contains the marker. Each document contributes as many
    entries as it has such pages, none, one or several; nothing is
    removed as a duplicate. *)
Theorem locator_pages_iff_marker
    (raw_data : string -> Result (list (list File))) (simbol marker : string)
    (files : list Document) :
  (simbol, marker) ∈ [ ("REXP", "Consolidated Income Statements");
                       ("DIPD", "STATEMENT OF PROFIT OR LOSS") ] ->
  list_all_files raw_data simbol = Ok (readable <$> files) ->
  exists target,
    extract_pl_pages raw_data simbol = Ok target
    /\ target.(tg_target_page)
       = files ≫= (fun file =>
           filter (fun text => PyStr.contains marker text = true) file.(doc_pages))
    /\ target.(tg_simbol) = replicate (length target.(tg_target_page)) simbol
    /\ (forall text,
          text ∈ target.(tg_target_page)
          <-> exists file, file ∈ files /\ text ∈ file.(doc_pages)
                /\ exists pre post, text = pre +:+ marker +:+ post).
Proof.
  intros Hsm Hfiles.
  assert (Hm : map_page_simbol !! simbol = Some marker).
  { apply elem_of_cons in Hsm as [[= -> ->]|Hsm]; [done|].
    apply elem_of_cons in Hsm as [[= -> ->]|Hsm]; [done|].
    by apply elem_of_nil in Hsm. }
  destruct (extract_pl_pages_total raw_data simbol files Hfiles) as [target Ht]; [by eexists|].
  exists target. split; [exact Ht|].
  rewrite (extract_pl_pages_ok _ _ _ _ Hfiles Ht). simpl.
  unfold matched_pages, matching_pages. rewrite Hm.
  split; [done|]. split; [done|].
  intros text. rewrite list_elem_of_bind. split.
  - intros (file & Htext & Hfile). apply list_elem_of_filter in Htext as [Hc Htext].
    exists file. repeat split; [done..|]. by apply contains_spec.
  - intros (file & Hfile & Htext & Hsub). exists file. split; [|done].
    apply list_elem_of_filter. split; [|done]. by apply contains_spec.
Qed.

(** A text that stands on two pages of a document is in the batch twice,
    and a document without the marker adds nothing. *)
Example locator_keeps_duplicates :
  extract_pl_pages
    (Samples.rexp_only
       [ {| doc_path := "C:\reports\data\raw\\REXP\30062022.pdf";
            doc_pages := [ "Consolidated Income Statements"; "Notes";
                           "Consolidated Income Statements" ] |};
         Samples.no_marker_page ])
    "REXP"
  = Ok {| tg_index := [0%Z; 1%Z];
          tg_simbol := ["REXP"; "REXP"];
          tg_file_name := ["30062022.pdf"; "30062022.pdf"];
          tg_target_page := [ "Consolidated Income Statements";
                              "Consolidated Income Statements" ] |}.
Proof. vm_compute. reflexivity. Qed.

Lemma locator_pages_iff_marker_witness :
  exists target,
    extract_pl_pages (Samples.rexp_only [Samples.two_marker_pages; Samples.no_marker_page])
      "REXP" = Ok target
    /\ target.(tg_target_page) = [ "Consolidated Income Statements - Group";
                                   "Consolidated Income Statements - Company" ].
Proof.
  destruct (locator_pages_iff_marker
              (Samples.rexp_only [Samples.two_marker_pages; Samples.no_marker_page])
              "REXP" "Consolidated Income Statements"
              [Samples.two_marker_pages; Samples.no_marker_page])
    as (target & Ht & Hp & _).
  - apply elem_of_cons. left. reflexivity.
  - reflexivity.
  - exists target. split; [exact Ht|]. rewrite Hp. vm_compute. reflexivity.
Defined.

(** ** Extraction Client *)

Section ClientFacts.

Variable client : list Request -> Request -> Result (list string).

(** A loop that ends without an exception gives one result per turn. *)
Lemma mapM_ok_length {A B} (f : A -> Py B) (xs : list A) w ys w' :
  mapM f xs w = (Ok ys, w') -> length ys = length xs.
Proof.
  revert w ys. induction xs as [|x xs IH]; intros w ys H; simpl in H.
  - by injection H as <- <-.
  - unfold bind in H. destruct (f x w) as [[y|e] w1]; [|done].
    destruct (mapM f xs w1) as [[ys1|e] w2] eqn:Hrest; [|done].
    injection H as <- <-. simpl. f_equal. by eapply IH.
Qed.

(** One turn that ends without an exception has sent one request. *)
Lemma extract_one_sent pages sys_prompt model_name max_tokens index w text w' :
  extract_one client pages sys_prompt model_name max_tokens index w = (Ok text, w') ->
  length w'.(sent) = S (length w.(sent)) /\ w'.(stdout) = w.(stdout).
Proof.
  unfold extract_one, bind, lift, messages_create.
  destruct (build_message pages index) as [message|]; [|done].
  destruct (client _ _) as [content|]; [|done].
  intros [= _ <-]. simpl. rewrite length_app. simpl. split; [lia | done].
Qed.

Lemma mapM_extract_sent pages sys_prompt model_name max_tokens indices w texts w' :
  mapM (extract_one client pages sys_prompt model_name max_tokens) indices w
    = (Ok texts, w') ->
  length w'.(sent) = length w.(sent) + length indices.
Proof.
  revert w texts. induction indices as [|i indices IH]; intros w texts H; simpl in H.
  - unfold ret in H. injection H as <- <-. simpl. lia.
  - unfold bind in H.
    destruct (extract_one _ _ _ _ _ i w) as [[y|e] w1] eqn:Hone; [|done].
    destruct (mapM _ indices w1) as [[ys1|e] w2] eqn:Hrest; [|done].
    injection H as <- <-. apply extract_one_sent in Hone as [Hone _].
    apply IH in Hrest. simpl. lia.
Qed.

(** A call that returns has made one request per entry of the index
    list, and returns one response for each. *)
Lemma llm_data_extraction_ok pages sys_prompt model_name max_tokens w responses w' :
  llm_data_extraction client pages sys_prompt model_name max_tokens w
    = (Ok responses, w') ->
  length responses = length pages.(tg_index)
  /\ length w'.(sent) = length w.(sent) + length pages.(tg_index).
Proof.
  unfold llm_data_extraction. intros H. split.
  - apply mapM_ok_length in H. by rewrite length_seq in H.
  - apply mapM_extract_sent in H. by rewrite length_seq in H.
Qed.

(** The message can be built at a position that all four lists have. *)
Lemma build_message_in_bounds pages index :
  (forall kv, kv ∈ items pages -> is_Some (kv.2 !! index)) ->
  exists message, build_message pages index = Ok message.
Proof.
  intros Hin. unfold build_message.
  assert (forall kvs message,
            (forall kv, kv ∈ kvs -> is_Some (kv.2 !! index)) ->
            exists message', foldM (add_item index) message kvs = Ok message') as Hfold.
  { induction kvs as [|kv kvs IH]; intros message Hkvs; simpl; [by eexists|].
    destruct (Hkvs kv) as [v Hv]; [by left|].
    unfold add_item at 1, getitem. rewrite Hv. simpl.
    apply IH. intros kv' Hkv'. apply Hkvs. by right. }
  destruct (Hfold (items pages) ("{" +:+ newline) Hin) as [message ->].
  simpl. by eexists.
Qed.

(** The message of a position is built exactly when every list of the
    batch has an entry there; what fails otherwise is the read. *)
Lemma build_message_reads pages index :
  ((exists message, build_message pages index = Ok message)
   <-> forall kv, kv ∈ items pages -> is_Some (kv.2 !! index))
  /\ forall e, build_message pages index = Raise e -> e = IndexError.
Proof.
  unfold build_message.
  assert (forall kvs message,
            ((exists message', foldM (add_item index) message kvs = Ok message')
             <-> forall kv, kv ∈ kvs -> is_Some (kv.2 !! index))
            /\ forall e, foldM (add_item index) message kvs = Raise e -> e = IndexError)
    as Hfold.
  { induction kvs as [|kv kvs IH]; intros message; simpl.
    - split; [|done]. split; [|by eexists]. intros _ kv Hkv. by apply elem_of_nil in Hkv.
    - unfold add_item at 1 3, getitem. destruct (kv.2 !! index) as [v|] eqn:Hv; simpl.
      + destruct (IH (message +:+ newline +:+ indent20 +:+ dquote +:+ kv.1 +:+ dquote
                        +:+ ":" +:+ dquote +:+ py_str v +:+ dquote +:+ ","))
          as [[IH1 IH2] IH3].
        split; [|exact IH3]. split.
        * intros H kv' Hkv'. apply elem_of_cons in Hkv' as [->|Hkv']; [by eexists|].
          by apply IH1.
        * intros H. apply IH2. intros kv' Hkv'. apply H. by right.
      + split; [|by intros e [= <-]]. split; [by intros [? ?]|].
        intros H. destruct (H kv) as [v Hv']; [by left|]. congruence. }
  destruct (Hfold (items pages) ("{" +:+ newline)) as [[H1 H2] H3].
  split; [split|].
  - intros [message Hm]. apply H1.
    destruct (foldM _ _ _) as [message'|]; [by eexists | done].
  - intros H. destruct (H2 H) as [message' ->]. simpl. by eexists.
  - intros e He. destruct (foldM _ _ _) as [message'|e'] eqn:Hf; [done|].
    simpl in He. injection He as <-. by apply H3.
Qed.

End ClientFacts.

Section ClientTrace.

Variable client : list Request -> Request -> Result (list string).
Variables (pages : Target) (sys_prompt model_name : string) (max_tokens : Z).

Local Notation "'request'" := (request_for sys_prompt model_name max_tokens).
Local Notation "'turn'" := (extract_one client pages sys_prompt model_name max_tokens).

(** One turn of the loop, case by case. *)
Lemma extract_one_cases index w :
  turn index w
  = match build_message pages index with
    | Raise e => (Raise e, w)
    | Ok message =>
        let w' := {| sent := w.(sent) ++ [request message]; stdout := w.(stdout) |} in
        match client w.(sent) (request message) with
        | Raise e => (Raise e, w')
        | Ok [] => (Raise IndexError, w')
        | Ok (text :: _) => (Ok text, w')
        end
    end.
Proof.
  unfold extract_one, bind, lift, messages_create, request_for.
  destruct (build_message pages index) as [message|]; [|done].
  destruct (client _ _) as [[|text blocks]|]; done.
Qed.

(** A loop that ends well: its messages, its requests, its replies. *)
Lemma mapM_extract_requests indices w texts w' :
  mapM turn indices w = (Ok texts, w') ->
  exists messages,
    mapR (build_message pages) indices = Ok messages
    /\ w'.(sent) = w.(sent) ++ (request <$> messages)
    /\ w'.(stdout) = w.(stdout)
    /\ forall n message,
         messages !! n = Some message ->
         exists text blocks,
           texts !! n = Some text
           /\ client (w.(sent) ++ (request <$> take n messages)) (request message)
              = Ok (text :: blocks).
Proof.
  revert w texts. induction indices as [|i indices IH]; intros w texts H; simpl in H.
  - unfold ret in H. injection H as <- <-. exists []. simpl.
    rewrite app_nil_r. repeat split. intros n message Hn. by rewrite lookup_nil in Hn.
  - unfold bind in H. rewrite extract_one_cases in H.
    destruct (build_message pages i) as [message0|] eqn:Hm; [|done]. simpl in H.
    destruct (client (sent w) (request message0)) as [[|text0 blocks0]|] eqn:Hc; try done.
    destruct (mapM _ indices _) as [[texts1|e] w2] eqn:Hrest; [|done].
    unfold ret in H. injection H as <- <-.
    apply IH in Hrest as (messages & Hmessages & Hs & Ho & Hreplies). simpl in *.
    exists (message0 :: messages). simpl. rewrite Hm, Hmessages. simpl.
    split; [done|]. split; [by rewrite Hs, <- app_assoc|]. split; [done|].
    intros [|n] message Hn; simpl in Hn.
    + injection Hn as <-. exists text0, blocks0. simpl. by rewrite app_nil_r.
    + destruct (Hreplies n message Hn) as (text & blocks & Ht & Hreply).
      exists text, blocks. split; [done|]. simpl.
      rewrite <- app_assoc in Hreply. exact Hreply.
Qed.

(** A loop that raises: the turns before went well, and the turn that
    raised is the last one that sent anything. *)
Lemma mapM_extract_failure indices w e w' :
  mapM turn indices w = (Raise e, w') ->
  w'.(stdout) = w.(stdout)
  /\ exists before index after messages,
       indices = before ++ index :: after
       /\ mapR (build_message pages) before = Ok messages
       /\ ((build_message pages index = Raise e
            /\ w'.(sent) = w.(sent) ++ (request <$> messages))
           \/ exists message,
                build_message pages index = Ok message
                /\ w'.(sent) = w.(sent) ++ (request <$> (messages ++ [message]))
                /\ (client (w.(sent) ++ (request <$> messages)) (request message) = Raise e
                    \/ (client (w.(sent) ++ (request <$> messages)) (request message) = Ok []
                        /\ e = IndexError))).
Proof.
  revert w. induction indices as [|i indices IH]; intros w H; simpl in H; [done|].
  unfold bind in H. rewrite extract_one_cases in H.
  destruct (build_message pages i) as [message0|] eqn:Hm.
  2:{ injection H as <- <-. split; [done|]. exists [], i, indices, []. simpl.
      rewrite app_nil_r. split; [done|]. split; [done|]. by left. }
  simpl in H.
  destruct (client (sent w) (request message0)) as [[|text0 blocks0]|] eqn:Hc.
  - injection H as <- <-. split; [done|]. exists [], i, indices, []. simpl.
    split; [done|]. split; [done|]. right. exists message0.
    rewrite app_nil_r. split; [done|]. split; [done|]. by right.
  - destruct (mapM _ indices _) as [[texts1|e1] w2] eqn:Hrest; [done|].
    injection H as -> ->.
    apply IH in Hrest as (Ho & before & index & after & messages & -> & Hmessages & Hcase).
    simpl in *. split; [done|].
    exists (i :: before), index, after, (message0 :: messages). simpl.
    rewrite Hm, Hmessages. simpl. split; [done|]. split; [done|].
    destruct Hcase as [[Hb Hs]|(message & Hb & Hs & Hreply)].
    + left. split; [done|]. by rewrite Hs, <- app_assoc.
    + right. exists message. split; [done|].
      rewrite <- !app_assoc in *. simpl in *. by split.
  - injection H as <- <-. split; [done|]. exists [], i, indices, []. simpl.
    split; [done|]. split; [done|]. right. exists message0.
    rewrite app_nil_r. split; [done|]. split; [done|]. by left.
Qed.

End ClientTrace.

Lemma seq_split (a n : nat) (before : list nat) (index : nat) (after : list nat) :
  seq a n = before ++ index :: after ->
  before = seq a (length before) /\ index = a + length before /\ length before < n.
Proof.
  intros H.
  assert (Hlen : n = length before + S (length after)).
  { apply (f_equal length) in H. rewrite length_seq, length_app in H. simpl in H. lia. }
  split; [|split; [|lia]].
  - apply (f_equal (take (length before))) in H.
    rewrite take_seq, take_app_length, Nat.min_l in H by lia. done.
  - apply (f_equal (fun l => l !! length before)) in H.
    rewrite list_lookup_middle in H by done.
    rewrite lookup_seq_lt in H by lia. congruence.
Qed.

(** A loop over positions whose messages can be built, with a client
    that answers every request with a block, returns. *)
Lemma mapM_extract_total
    (client : list Request -> Request -> Result (list string))
    (pages : Target) (sys_prompt model_name : string) (max_tokens : Z)
    (indices : list nat) (w : World) :
  (forall history request, exists text blocks,
     client history request = Ok (text :: blocks)) ->
  (forall index, index ∈ indices -> exists message, build_message pages index = Ok message) ->
  exists texts w',
    mapM (extract_one client pages sys_prompt model_name max_tokens) indices w
    = (Ok texts, w').
Proof.
  intros Hclient. revert w.
  induction indices as [|i indices IH]; intros w Hbuilt; simpl; [by eexists _, _|].
  unfold bind. rewrite extract_one_cases.
  destruct (Hbuilt i) as [message ->]; [by left|]. simpl.
  destruct (Hclient w.(sent) (request_for sys_prompt model_name max_tokens message))
    as (text & blocks & ->).
  destruct (IH {| sent := w.(sent)
                          ++ [request_for sys_prompt model_name max_tokens message];
                  stdout := w.(stdout) |}) as (texts & w' & ->).
  { intros index Hindex. apply Hbuilt. by right. }
  by eexists _, _.
Qed.

(** C9. [llm_data_extraction] makes one turn per entry of the index list
    of the batch, that is one per document, and a turn reads the lists
    under every key of the batch at its position: the message of a
    position is built exactly when every list has an entry there, and
    the turn fails with [IndexError] otherwise. When every document has
    exactly one matching page, every such read is in bounds, so the
    call can fail at the client only, with what the client raises or on
    a reply without a block, and it returns whenever the client answers
    every request. For the batch of a single document without a
    matching page the read of the simbol list at position 0 is out of
    bounds: the call ends with [IndexError], before any request. *)
Theorem llm_extraction_reads_by_index
    (raw_data : string -> Result (list (list File))) (simbol : string)
    (files : list Document) (pages : Target)
    (client : list Request -> Request -> Result (list string))
    (sys_prompt model_name : string) (max_tokens : Z) (w : World) :
  list_all_files raw_data simbol = Ok (readable <$> files) ->
  extract_pl_pages raw_data simbol = Ok pages ->
  (llm_data_extraction client pages sys_prompt model_name max_tokens w
   = mapM (extract_one client pages sys_prompt model_name max_tokens)
          (seq 0 (length files)) w)
  /\ (forall responses w',
        llm_data_extraction client pages sys_prompt model_name max_tokens w
          = (Ok responses, w') ->
        length responses = length files
        /\ length w'.(sent) = length w.(sent) + length files)
  /\ (forall index,
        ((exists message, build_message pages index = Ok message)
         <-> forall kv, kv ∈ items pages -> is_Some (kv.2 !! index))
        /\ forall e, build_message pages index = Raise e -> e = IndexError)
  /\ (Forall (fun file => length (matching_pages simbol file.(doc_pages)) = 1) files ->
      (forall index kv,
         index < length pages.(tg_index) -> kv ∈ items pages -> is_Some (kv.2 !! index))
      /\ (forall e w',
            llm_data_extraction client pages sys_prompt model_name max_tokens w
              = (Raise e, w') ->
            exists history request,
              client history request = Raise e
              \/ (client history request = Ok [] /\ e = IndexError))
      /\ ((forall history request, exists text blocks,
             client history request = Ok (text :: blocks)) ->
          exists responses w',
            llm_data_extraction client pages sys_prompt model_name max_tokens w
              = (Ok responses, w')))
  /\ (exists batch,
        extract_pl_pages (Samples.rexp_only [Samples.no_marker_page]) "REXP" = Ok batch
        /\ batch.(tg_index) = [0%Z] /\ batch.(tg_simbol) = []
        /\ llm_data_extraction client batch sys_prompt model_name max_tokens w
           = (Raise IndexError, w)).
Proof.
  intros Hfiles Hpages.
  pose proof (extract_pl_pages_ok _ _ _ _ Hfiles Hpages) as ->.
  assert (Hindex : length (range_index (length files)) = length files).
  { unfold range_index. by rewrite length_fmap, length_seq. }
  split; [|split; [|split; [|split]]].
  - unfold llm_data_extraction. simpl. by rewrite Hindex.
  - intros responses w' H. apply llm_data_extraction_ok in H. simpl in H.
    by rewrite Hindex in H.
  - intros index. apply build_message_reads.
  - intros Hone.
    assert (Hlen : length (matched_pages simbol files) = length files
                   /\ length (matched_file_names simbol files) = length files).
    { clear -Hone. unfold matched_pages, matched_file_names.
      induction Hone as [|file files H1 _ [IH1 IH2]]; [done|].
      rewrite !bind_cons, !length_app, length_replicate, IH1, IH2, H1. done. }
    destruct Hlen as [Hp Hf].
    assert (Hin : forall index kv,
               index < length files ->
               kv ∈ items {| tg_index := range_index (length files);
                             tg_simbol := replicate (length (matched_pages simbol files)) simbol;
                             tg_file_name := matched_file_names simbol files;
                             tg_target_page := matched_pages simbol files |} ->
               is_Some (kv.2 !! index)).
    { intros index kv Hlt Hkv. apply lookup_lt_is_Some. unfold items in Hkv. simpl in Hkv.
      repeat (apply elem_of_cons in Hkv as [->|Hkv]); simpl;
        rewrite ?length_fmap, ?length_replicate, ?length_seq;
        unfold range_index; rewrite ?length_fmap, ?length_seq; try lia.
      by apply elem_of_nil in Hkv. }
    split; [|split].
    + intros index kv Hlt. simpl in Hlt. rewrite Hindex in Hlt. by apply Hin.
    + intros e w' H. unfold llm_data_extraction in H. simpl in H. rewrite Hindex in H.
      apply mapM_extract_failure in H
        as (_ & before & index & after & messages & Hsplit & _ & Hcase).
      apply seq_split in Hsplit as (_ & -> & Hlt). simpl in Hcase.
      destruct Hcase as [[Hb _]|(message & _ & _ & Hreply)].
      * exfalso.
        match type of Hb with
        | build_message ?batch _ = _ =>
            destruct (build_message_reads batch (length before)) as [[_ Hbuilt] _]
        end.
        destruct Hbuilt as [message Hm]; [intros kv; by apply Hin|]. congruence.
      * by eexists _, _.
    + intros Hclient. unfold llm_data_extraction. simpl. rewrite Hindex.
      apply mapM_extract_total; [exact Hclient|].
      intros index Helem. apply elem_of_seq in Helem.
      apply build_message_reads. intros kv. apply Hin. lia.
  - eexists. split; [vm_compute; reflexivity|]. split; [done|]. split; [done|].
    destruct w as [s o]. reflexivity.
Qed.

Lemma llm_extraction_reads_by_index_witness :
  exists responses w',
    llm_data_extraction (Samples.constant_client "{}")
      {| tg_index := [0%Z]; tg_simbol := ["REXP"]; tg_file_name := ["31122022.pdf"];
         tg_target_page := ["Consolidated Income Statements - Group"] |}
      "system" default_model_name default_max_tokens initial_world
    = (Ok responses, w').
Proof.
  destruct (llm_extraction_reads_by_index
              (Samples.rexp_only [Samples.one_marker_page]) "REXP"
              [Samples.one_marker_page]
              {| tg_index := [0%Z]; tg_simbol := ["REXP"]; tg_file_name := ["31122022.pdf"];
                 tg_target_page := ["Consolidated Income Statements - Group"] |}
              (Samples.constant_client "{}") "system" default_model_name
              default_max_tokens initial_world)
    as (_ & _ & _ & Hbounds & _).
  - reflexivity.
  - vm_compute. reflexivity.
  - destruct Hbounds as (_ & _ & Hreturns).
    + repeat constructor.
    + apply Hreturns. intros history request. by eexists _, _.
Defined.

(** C1, at the input where the code departs from it. The batch of one
    document with two marker pages holds two matched pages, and
    [llm_data_extraction] sends one request for it: the request for the
    first page. The second page is never sent. *)
Theorem llm_extraction_one_request_for_two_pages :
  exists batch w',
    extract_pl_pages (Samples.rexp_only [Samples.two_marker_pages]) "REXP" = Ok batch
    /\ length batch.(tg_target_page) = 2
    /\ llm_data_extraction (Samples.constant_client "{}") batch "system"
         default_model_name default_max_tokens initial_world = (Ok ["{}"], w')
    /\ length w'.(sent) = 1
    /\ Forall (fun req =>
         PyStr.contains "Consolidated Income Statements - Company" req.(req_content)
         = false) w'.(sent).
Proof.
  eexists. eexists. split; [vm_compute; reflexivity|].
  split; [reflexivity|]. split; [vm_compute; reflexivity|].
  split; [reflexivity|]. repeat constructor.
Qed.

(** ** Response Parser *)

Section ParserFacts.

Variable literal_eval : string -> Result PyObject.

(** A response that parses leaves the world as it was. *)
Lemma parse_one_ok data obj :
  literal_eval (strip_fences data) = Ok obj ->
  forall w, parse_one literal_eval data w = (Ok obj, w).
Proof. intros H w. unfold parse_one. by rewrite H. Qed.

(** A response that does not parse prints its stripped text and
    raises what [literal_eval] raised. *)
Lemma parse_one_raise data e :
  literal_eval (strip_fences data) = Raise e ->
  forall w, parse_one literal_eval data w
            = (Raise e, {| sent := w.(sent);
                           stdout := w.(stdout) ++ [Text (strip_fences data)] |}).
Proof. intros H w. unfold parse_one. by rewrite H. Qed.

(** The parser returns only when every response parses, and then it
    has printed nothing. *)
Lemma parse_ok_inv responses w objs w' :
  parse_llm_extraction_response literal_eval responses w = (Ok objs, w') ->
  w' = w
  /\ Forall2 (fun data obj => literal_eval (strip_fences data) = Ok obj) responses objs.
Proof.
  unfold parse_llm_extraction_response. revert objs.
  induction responses as [|data responses IH]; intros objs H; simpl in H.
  - unfold ret in H. injection H as <- <-. by split.
  - unfold bind in H.
    destruct (literal_eval (strip_fences data)) as [obj|e] eqn:Hdata.
    + rewrite (parse_one_ok _ _ Hdata) in H.
      destruct (mapM _ responses w) as [[objs1|e] w1] eqn:Hrest; [|done].
      unfold ret in H. injection H as <- <-.
      destruct (IH _ eq_refl) as [-> Hall]. split; [done|]. by constructor.
    + by rewrite (parse_one_raise _ _ Hdata) in H.
Qed.

(** The responses before the first one that does not parse are read
    in silence; that one is printed and stops the loop. *)
Lemma parse_first_failure good data rest e w :
  Forall (fun r => exists obj, literal_eval (strip_fences r) = Ok obj) good ->
  literal_eval (strip_fences data) = Raise e ->
  parse_llm_extraction_response literal_eval (good ++ data :: rest) w
  = (Raise e, {| sent := w.(sent);
                 stdout := w.(stdout) ++ [Text (strip_fences data)] |}).
Proof.
  unfold parse_llm_extraction_response. intros Hgood Hdata.
  induction Hgood as [|r good [obj Hr] _ IH]; simpl.
  - unfold bind. by rewrite (parse_one_raise _ _ Hdata).
  - unfold bind at 1. rewrite (parse_one_ok _ _ Hr).
    unfold bind at 1. simpl in IH. by rewrite IH.
Qed.

(** A list with a response that does not parse splits at the first
    such response. *)
Lemma first_malformed responses :
  (exists data, data ∈ responses /\ exists e, literal_eval (strip_fences data) = Raise e) ->
  exists good data rest e,
    responses = good ++ data :: rest
    /\ Forall (fun r => exists obj, literal_eval (strip_fences r) = Ok obj) good
    /\ literal_eval (strip_fences data) = Raise e.
Proof.
  induction responses as [|r responses IH]; intros (data & Hin & e & He).
  - by apply elem_of_nil in Hin.
  - destruct (literal_eval (strip_fences r)) as [obj|e'] eqn:Hr.
    + apply elem_of_cons in Hin as [->|Hin]; [congruence|].
      destruct IH as (good & data' & rest & e'' & -> & Hgood & Hdata'); [by eauto|].
      exists (r :: good), data', rest, e''. repeat split; [|done].
      constructor; [by eexists | done].
    + exists [], r, responses, e'. by repeat split.
Qed.

End ParserFacts.

(** ** The run as a whole *)

Section RunFacts.

Variable raw_data : string -> Result (list (list File)).
Variable client : list Request -> Request -> Result (list string).
Variable literal_eval : string -> Result PyObject.
Variable SYS_EXTRACTION_PROMPT : string.

(** One turn of the extraction loop that ends well has sent one
    request and returns the first block of its reply. *)
Lemma extract_one_trace pages sys_prompt model_name max_tokens index w text w' :
  extract_one client pages sys_prompt model_name max_tokens index w = (Ok text, w') ->
  exists req blocks,
    w'.(sent) = w.(sent) ++ [req] /\ w'.(stdout) = w.(stdout)
    /\ client w.(sent) req = Ok (text :: blocks).
Proof.
  unfold extract_one, bind, lift, messages_create.
  destruct (build_message pages index) as [message|]; [|done].
  destruct (client _ _) as [content|] eqn:Hreply; [|done].
  destruct content as [|text' blocks]; [done|].
  intros [= <- <-]. simpl. by eexists _, _.
Qed.

(** The requests of a loop that ends well, each with the reply it got. *)
Lemma mapM_extract_trace pages sys_prompt model_name max_tokens indices w texts w' :
  mapM (extract_one client pages sys_prompt model_name max_tokens) indices w
    = (Ok texts, w') ->
  w'.(stdout) = w.(stdout)
  /\ exists reqs,
       w'.(sent) = w.(sent) ++ reqs
       /\ forall n req, reqs !! n = Some req ->
            exists text blocks,
              texts !! n = Some text
              /\ client (w.(sent) ++ take n reqs) req = Ok (text :: blocks).
Proof.
  revert w texts. induction indices as [|i indices IH]; intros w texts H; simpl in H.
  - unfold ret in H. injection H as <- <-. split; [done|]. exists [].
    split; [by rewrite app_nil_r|]. intros n req Hn. by rewrite lookup_nil in Hn.
  - unfold bind in H.
    destruct (extract_one _ _ _ _ _ i w) as [[text|e] w1] eqn:Hone; [|done].
    destruct (mapM _ indices w1) as [[texts1|e] w2] eqn:Hrest; [|done].
    unfold ret in H. injection H as <- <-.
    apply extract_one_trace in Hone as (req0 & blocks0 & Hs1 & Ho1 & Hreply0).
    apply IH in Hrest as (Ho2 & reqs1 & Hs2 & Hreplies).
    split; [congruence|]. exists (req0 :: reqs1).
    split; [by rewrite Hs2, Hs1, <- app_assoc|].
    intros [|n] req Hn; simpl in Hn.
    + injection Hn as <-. exists text, blocks0. simpl. by rewrite app_nil_r.
    + destruct (Hreplies n req Hn) as (text' & blocks' & Ht & Hc).
      exists text', blocks'. split; [done|].
      simpl. rewrite Hs1, <- app_assoc in Hc. exact Hc.
Qed.

(** A run that completes has parsed the reply to every request it
    sent. *)
Lemma run_ok_replies_parse w df w' :
  run raw_data client literal_eval SYS_EXTRACTION_PROMPT w = (Ok df, w') ->
  exists reqs,
    w'.(sent) = w.(sent) ++ reqs
    /\ forall n req, reqs !! n = Some req ->
         reply_parses client literal_eval (w.(sent) ++ take n reqs) req.
Proof.
  unfold run, bind, lift, print. simpl.
  destruct (extract_pl_pages raw_data "REXP") as [pl_pages_rexp|]; [|done].
  destruct (extract_pl_pages raw_data "DIPD") as [pl_pages_dipd|]; [|done].
  simpl.
  destruct (llm_data_extraction client pl_pages_dipd _ _ _ _)
    as [[responses_dipd|] w1] eqn:Hd; [|done].
  destruct (llm_data_extraction client pl_pages_rexp _ _ _ w1)
    as [[responses_rexp|] w2] eqn:Hr; [|done].
  destruct (parse_llm_extraction_response literal_eval responses_dipd _)
    as [[parsed_dipd|] w3] eqn:Hpd; [|done].
  destruct (parse_llm_extraction_response literal_eval responses_rexp _)
    as [[parsed_rexp|] w4] eqn:Hpr; [|done].
  apply parse_ok_inv in Hpd as [-> Hpd]. apply parse_ok_inv in Hpr as [-> Hpr].
  apply mapM_extract_trace in Hd as (_ & reqs_d & Hs1 & Hrd).
  apply mapM_extract_trace in Hr as (_ & reqs_r & Hs2 & Hrr).
  simpl in *.
  destruct (mapR as_record parsed_dipd); [|done].
  destruct (mapR as_record parsed_rexp); [|done].
  destruct (mount_dataframe _ _); [|done].
  intros [= _ <-]. simpl. exists (reqs_d ++ reqs_r).
  split; [by rewrite Hs2, Hs1, <- app_assoc|].
  intros n req Hn. unfold reply_parses.
  apply lookup_app_Some in Hn as [Hn|[Hge Hn]].
  - destruct (Hrd n req Hn) as (text & blocks & Ht & Hc).
    destruct (Forall2_lookup_l _ _ _ _ _ Hpd Ht) as (obj & _ & Hobj).
    exists text, blocks, obj. split; [|done].
    rewrite take_app_le by (apply lookup_lt_Some in Hn; lia). exact Hc.
  - destruct (Hrr _ req Hn) as (text & blocks & Ht & Hc).
    destruct (Forall2_lookup_l _ _ _ _ _ Hpr Ht) as (obj & _ & Hobj).
    exists text, blocks, obj. split; [|done].
    rewrite Hs1, <- app_assoc in Hc.
    rewrite take_app_ge by done. exact Hc.
Qed.

End RunFacts.

(** C6. When some response, once stripped of fences, is not a literal,
    that is [literal_eval] raises on it, the parser reads the responses
    before the first such one, prints the stripped text of that one and
    raises what [literal_eval] raised: it does not return a list of
    records, partial or empty. The run stops there too: a run that
    completes has parsed the reply to every request it sent. *)
Theorem parser_raises_on_malformed
    (literal_eval : string -> Result PyObject) (responses : list string) (w : World) :
  (exists data, data ∈ responses
     /\ exists e, literal_eval (strip_fences data) = Raise e) ->
  (exists good data rest e,
     responses = good ++ data :: rest
     /\ Forall (fun r => exists obj, literal_eval (strip_fences r) = Ok obj) good
     /\ literal_eval (strip_fences data) = Raise e
     /\ parse_llm_extraction_response literal_eval responses w
        = (Raise e, {| sent := w.(sent);
                       stdout := w.(stdout) ++ [Text (strip_fences data)] |}))
  /\ (forall objs w', parse_llm_extraction_response literal_eval responses w <> (Ok objs, w'))
  /\ (forall raw_data client prompt w0 df w',
        run raw_data client literal_eval prompt w0 = (Ok df, w') ->
        exists reqs,
          w'.(sent) = w0.(sent) ++ reqs
          /\ forall n req, reqs !! n = Some req ->
               reply_parses client literal_eval (w0.(sent) ++ take n reqs) req).
Proof.
  intros Hbad.
  destruct (first_malformed literal_eval responses Hbad)
    as (good & data & rest & e & -> & Hgood & Hdata).
  pose proof (parse_first_failure literal_eval good data rest e w Hgood Hdata) as Hparse.
  split; [|split].
  - by exists good, data, rest, e.
  - intros objs w'. by rewrite Hparse.
  - intros raw_data client prompt w0 df w'. apply run_ok_replies_parse.
Qed.

Lemma parser_raises_on_malformed_witness :
  exists data e,
    data ∈ [ fenced Samples.record_30062022; "Sorry, I cannot read this page." ]
    /\ parse_llm_extraction_response literal_eval_of_flat
         [ fenced Samples.record_30062022; "Sorry, I cannot read this page." ] initial_world
       = (Raise e, {| sent := []; stdout := [Text (strip_fences data)] |}).
Proof.
  destruct (parser_raises_on_malformed literal_eval_of_flat
              [ fenced Samples.record_30062022; "Sorry, I cannot read this page." ]
              initial_world) as ((good & data & rest & e & Hsplit & _ & He & Hparse) & _).
  - exists "Sorry, I cannot read this page.". split.
    + apply elem_of_cons. right. apply elem_of_cons. left. reflexivity.
    + eexists. vm_compute. reflexivity.
  - exists data, e. split; [|exact Hparse].
    rewrite Hsplit. apply elem_of_app. right. apply elem_of_cons. left. reflexivity.
Defined.

(** The fragment is a model of [ast.literal_eval]. *)
Lemma literal_eval_of_flat_extends : extends_flat literal_eval_of_flat.
Proof. intros s obj H. unfold literal_eval_of_flat. by rewrite H. Qed.

(** C7 as stated fails on a well-formed JSON object whose file name holds
    the letters json: read from the fenced text, the file name is
    30062022.pdf; read from the same text without the fences, it is
    30062022json.pdf. *)
Lemma fence_round_trip_counterexample :
  exists with_fence as_written,
    literal_eval_flat (strip_fences (fenced Samples.record_json_in_file_name))
      = Some (Dict with_fence)
    /\ literal_eval_flat Samples.record_json_in_file_name = Some (Dict as_written)
    /\ with_fence !! "file_name" = Some (VStr "30062022.pdf")
    /\ as_written !! "file_name" = Some (VStr "30062022json.pdf").
Proof.
  eexists. eexists. split; [vm_compute; reflexivity|].
  split; [vm_compute; reflexivity|]. split; vm_compute; reflexivity.
Qed.

(** C7, amended. For every text between the fences, stripping the fenced
    text gives what stripping the unfenced text gives, so the parser
    returns for the fenced response what it returns for the unfenced one,
    or fails on both alike. When the text between the fences contains
    neither three backticks nor the letters json, stripping the fenced
    text gives that text back, and the literal read from it is the one
    read from the text as written. *)
Theorem fence_round_trip
    (literal_eval : string -> Result PyObject) (body : string) (w : World) :
  strip_fences (fenced body) = strip_fences body
  /\ parse_llm_extraction_response literal_eval [fenced body] w
     = parse_llm_extraction_response literal_eval [body] w
  /\ (PyStr.contains backticks body = false ->
      PyStr.contains "json" body = false ->
      strip_fences (fenced body) = body
      /\ literal_eval (strip_fences (fenced body)) = literal_eval body).
Proof.
  pose proof (strip_fences_fenced body) as Hstrip. split; [exact Hstrip|]. split.
  - unfold parse_llm_extraction_response. simpl. unfold parse_one. by rewrite Hstrip.
  - intros Hb Hj. rewrite Hstrip. unfold strip_fences.
    rewrite (replace_absent backticks) by done.
    rewrite (replace_absent "json") by done. done.
Qed.

Lemma fence_round_trip_witness :
  strip_fences (fenced Samples.record_30062022) = Samples.record_30062022
  /\ literal_eval_of_flat (strip_fences (fenced Samples.record_30062022))
     = Ok (Dict (<["index" := VInt 0]>
                (<["Simbol" := VStr "REXP"]>
                (<["file_name" := VStr "30062022.pdf"]>
                (<["Revenue" := VInt 2767931]>
                (<["Cost of Goods Sold (COGS)" := VInt (-1735091)]> ∅)))))).
Proof.
  destruct (fence_round_trip literal_eval_of_flat Samples.record_30062022 initial_world)
    as (_ & _ & Hclean).
  destruct Hclean as [Hsame Heval]; [vm_compute; reflexivity | vm_compute; reflexivity |].
  split; [exact Hsame|]. rewrite Heval. vm_compute. reflexivity.
Defined.

(** C10. Stripping removes the letters json and three backticks wherever
    their first occurrence stands in the response, then goes on behind
    it, not only at the fences. So there is a response, a JSON object
    whose file name is 30062022json.pdf, for which the parser returns a
    record whose file name is 30062022.pdf. This holds for every
    [literal_eval] that reads the literals of the response format as
    Python does. *)
Theorem strip_changes_file_name (literal_eval : string -> Result PyObject) :
  extends_flat literal_eval ->
  (exists response as_written parsed,
     literal_eval response = Ok (Dict as_written)
     /\ as_written !! "file_name" = Some (VStr "30062022json.pdf")
     /\ (forall w, parse_llm_extraction_response literal_eval [response] w
                   = (Ok [Dict parsed], w))
     /\ parsed !! "file_name" = Some (VStr "30062022.pdf"))
  /\ (forall pre post,
        PyStr.contains "json" (pre +:+ "jso") = false ->
        PyStr.replace "json" EmptyString (pre +:+ "json" +:+ post)
        = pre +:+ PyStr.replace "json" EmptyString post)
  /\ (forall pre post,
        PyStr.contains backticks (pre +:+ "``") = false ->
        PyStr.replace backticks EmptyString (pre +:+ backticks +:+ post)
        = pre +:+ PyStr.replace backticks EmptyString post).
Proof.
  intros Hext. split; [|split].
  - exists Samples.record_json_in_file_name. eexists. eexists.
    split; [apply Hext; vm_compute; reflexivity|].
    split; [vm_compute; reflexivity|]. split.
    + intros w. unfold parse_llm_extraction_response. simpl. unfold bind, parse_one.
      erewrite Hext; [reflexivity|]. vm_compute. reflexivity.
    + vm_compute. reflexivity.
  - intros pre post H. apply (replace_first_occurrence "jso" (Ascii.ascii_of_nat 110) EmptyString pre post H).
  - intros pre post H.
    apply (replace_first_occurrence "``" (Ascii.ascii_of_nat 96) EmptyString pre post H).
Qed.

Lemma strip_changes_file_name_witness :
  exists response as_written parsed,
    literal_eval_of_flat response = Ok (Dict as_written)
    /\ as_written !! "file_name" = Some (VStr "30062022json.pdf")
    /\ parse_llm_extraction_response literal_eval_of_flat [response] initial_world
       = (Ok [Dict parsed], initial_world)
    /\ parsed !! "file_name" = Some (VStr "30062022.pdf").
Proof.
  destruct (strip_changes_file_name literal_eval_of_flat literal_eval_of_flat_extends)
    as ((response & as_written & parsed & Hraw & Hname_raw & Hparse & Hname) & _).
  exists response, as_written, parsed. repeat split; [exact Hraw | exact Hname_raw | | exact Hname].
  apply Hparse.
Defined.

(** ** Report dates *)

Section StrptimeFacts.

Import Strptime.

Lemma chars_app (a b : string) : PyStr.chars (a +:+ b) = PyStr.chars a ++ PyStr.chars b.
Proof. induction a as [|c a IH]; simpl; [done | by rewrite IH]. Qed.

Lemma length_chars (s : string) : length (PyStr.chars s) = String.length s.
Proof. induction s as [|c s IH]; simpl; [done | by rewrite IH]. Qed.

(** What [match_seq] matched is the start of the text, one character for
    each class, each in its class. *)
Lemma match_seq_Some classes s m rest :
  match_seq classes s = Some (m, rest) ->
  s = m +:+ rest
  /\ Forall2 (fun (cl : CharClass) c => cl c = true) classes (PyStr.chars m).
Proof.
  revert s m. induction classes as [|cl classes IH]; intros s m H; simpl in H.
  - injection H as <- <-. split; [done | constructor].
  - destruct s as [|c s]; [done|]. destruct (cl c) eqn:Hc; [|done].
    destruct (match_seq classes s) as [[m' rest']|] eqn:Hm; [|done].
    injection H as <- <-. destruct (IH _ _ Hm) as [-> Hall].
    split; [done|]. simpl. by constructor.
Qed.

Lemma candidates_elem alts s m rest :
  (m, rest) ∈ candidates alts s ->
  exists alt, alt ∈ alts /\ match_seq alt s = Some (m, rest).
Proof. unfold candidates. intros H. by apply list_elem_of_omap in H. Qed.

Lemma range_digit lo hi : 48 <= lo -> hi <= 57 -> digit_or_space (range lo hi).
Proof.
  intros Hlo Hhi c Hc. left. unfold range in Hc. unfold is_digit.
  apply bool_decide_eq_true in Hc. apply bool_decide_eq_true. lia.
Qed.

Lemma one_space : digit_or_space (one 32).
Proof.
  intros c Hc. right. unfold one, range in Hc. apply bool_decide_eq_true in Hc. lia.
Qed.

Lemma directives_classes :
  Forall (fun alt => Forall digit_or_space alt /\ 1 <= length alt <= 2) directive_d
  /\ Forall (fun alt => Forall (fun cl => forall c, cl c = true -> is_digit c = true) alt
                        /\ 1 <= length alt <= 2) directive_m
  /\ Forall (fun alt => Forall (fun cl => forall c, cl c = true -> is_digit c = true) alt
                        /\ length alt = 4) directive_Y.
Proof.
  assert (Hr : forall lo hi, 48 <= lo -> hi <= 57 ->
               forall c, range lo hi c = true -> is_digit c = true).
  { intros lo hi Hlo Hhi c Hc. unfold range in Hc. unfold is_digit.
    apply bool_decide_eq_true in Hc. apply bool_decide_eq_true. lia. }
  unfold directive_d, directive_m, directive_Y, digit, one.
  repeat (first [apply Forall_nil_2 | apply Forall_cons_2 | split]);
    simpl; try lia;
    first [apply one_space | apply range_digit; lia | apply Hr; lia].
Qed.

(** A match of the whole expression splits the text into a day, a
    month, a year and what is left over. *)
Lemma regex_match_Some s d m Y rest :
  regex_match s = Some (d, m, Y, rest) ->
  s = d +:+ m +:+ Y +:+ rest
  /\ 1 <= String.length d <= 2 /\ 1 <= String.length m <= 2 /\ String.length Y = 4
  /\ Forall (fun c => is_digit c = true \/ code c = 32) (PyStr.chars d)
  /\ all_digits m /\ all_digits Y.
Proof.
  unfold regex_match. intros H. apply head_Some_elem_of in H.
  apply list_elem_of_bind in H as ([d' r1] & H & Hd).
  apply list_elem_of_bind in H as ([m' r2] & H & Hm).
  apply list_elem_of_bind in H as ([Y' r3] & H & HY).
  apply list_elem_of_singleton in H. injection H as -> -> -> ->.
  apply candidates_elem in Hd as (altd & Haltd & Hd).
  apply candidates_elem in Hm as (altm & Haltm & Hm).
  apply candidates_elem in HY as (altY & HaltY & HY).
  apply match_seq_Some in Hd as [-> Hd].
  apply match_seq_Some in Hm as [-> Hm].
  apply match_seq_Some in HY as [-> HY].
  destruct directives_classes as (Cd & Cm & CY).
  rewrite Forall_forall in Cd, Cm, CY.
  destruct (Cd _ Haltd) as [Cd1 Cd2]. destruct (Cm _ Haltm) as [Cm1 Cm2].
  destruct (CY _ HaltY) as [CY1 CY2].
  pose proof (Forall2_length _ _ _ Hd) as Ld.
  pose proof (Forall2_length _ _ _ Hm) as Lm.
  pose proof (Forall2_length _ _ _ HY) as LY.
  rewrite length_chars in Ld, Lm, LY. unfold CharClass in *.
  split; [done|]. split; [lia|]. split; [lia|]. split; [lia|].
  unfold all_digits. repeat split.
  - clear -Hd Cd1. induction Hd as [|cl c alt cs Hc _ IH]; [constructor|].
    apply Forall_cons in Cd1 as [Hcl Cd1]. constructor; [by apply Hcl | by apply IH].
  - clear -Hm Cm1. induction Hm as [|cl c alt cs Hc _ IH]; [constructor|].
    apply Forall_cons in Cm1 as [Hcl Cm1]. constructor; [by apply Hcl | by apply IH].
  - clear -HY CY1. induction HY as [|cl c alt cs Hc _ IH]; [constructor|].
    apply Forall_cons in CY1 as [Hcl CY1]. constructor; [by apply Hcl | by apply IH].
Qed.

(** [strptime] returns a date or raises [ValueError], nothing else. *)
Lemma strptime_cases s :
  (exists date, strptime s = Ok date) \/ date_format_error (strptime s).
Proof.
  unfold strptime, date_format_error.
  destruct (regex_match s) as [[[[d m] Y] rest]|]; [|by right; eexists].
  destruct rest; [|by right; eexists].
  destruct (valid_date _ _ _); [by left; eexists|].
  destruct (bool_decide _); by right; eexists.
Qed.

(** When [strptime] returns a date, the text is that date written as a
    day, a month and a year. *)
Lemma strptime_Ok s date :
  strptime s = Ok date ->
  exists dd mm yyyy,
    s = dd +:+ mm +:+ yyyy
    /\ 1 <= String.length dd <= 2 /\ 1 <= String.length mm <= 2
    /\ String.length yyyy = 4
    /\ Forall (fun c => is_digit c = true \/ code c = 32) (PyStr.chars s)
    /\ date = Datetime (int yyyy) (int mm) (int dd)
    /\ valid_date (int yyyy) (int mm) (int dd) = true.
Proof.
  unfold strptime. destruct (regex_match s) as [[[[d m] Y] rest]|] eqn:Hre; [|done].
  destruct rest; [|done]. destruct (valid_date _ _ _) eqn:Hvalid; [|by destruct (bool_decide _)].
  intros [= <-]. apply regex_match_Some in Hre as (-> & Ld & Lm & LY & Hd & Hm & HY).
  exists d, m, Y. rewrite append_nil_r. repeat split; try done; try lia.
  rewrite !chars_app. apply Forall_app. split; [done|]. apply Forall_app. split.
  - eapply Forall_impl; [exact Hm|]. by left.
  - eapply Forall_impl; [exact HY|]. by left.
Qed.

End StrptimeFacts.

Section StrptimeDigits.

Import Strptime.

Implicit Types a b c : Ascii.ascii.

Lemma is_digit_code c : is_digit c = true <-> 48 <= code c <= 57.
Proof. unfold is_digit. apply bool_decide_eq_true. Qed.

(** Two digits that make a day of a month are the first way the day
    directive matches. *)
Lemma candidates_d_two a b rest :
  is_digit a = true -> is_digit b = true ->
  (1 <= digits_value 0 (String a (String b EmptyString)) <= 31)%Z ->
  exists tail,
    candidates directive_d (String a (String b rest))
    = (String a (String b EmptyString), rest) :: tail.
Proof.
  intros Ha%is_digit_code Hb%is_digit_code Hv. simpl in Hv.
  unfold candidates, directive_d, one, digit, range. simpl.
  repeat (case_bool_decide; simpl; try (exfalso; lia)); by eexists.
Qed.

Lemma candidates_m_two a b rest :
  is_digit a = true -> is_digit b = true ->
  (1 <= digits_value 0 (String a (String b EmptyString)) <= 12)%Z ->
  exists tail,
    candidates directive_m (String a (String b rest))
    = (String a (String b EmptyString), rest) :: tail.
Proof.
  intros Ha%is_digit_code Hb%is_digit_code Hv. simpl in Hv.
  unfold candidates, directive_m, one, digit, range. simpl.
  repeat (case_bool_decide; simpl; try (exfalso; lia)); by eexists.
Qed.

Lemma candidates_Y_four a b c d rest :
  is_digit a = true -> is_digit b = true -> is_digit c = true -> is_digit d = true ->
  candidates directive_Y (String a (String b (String c (String d rest))))
  = [ (String a (String b (String c (String d EmptyString))), rest) ].
Proof.
  intros Ha Hb Hc Hd. unfold candidates, directive_Y, digit. simpl.
  unfold is_digit in *. unfold range. by rewrite Ha, Hb, Hc, Hd.
Qed.

(** The value of digits, read as [int] reads them. *)
Lemma int_digits s : all_digits s -> int s = digits_value 0 s.
Proof.
  destruct s as [|c s]; [done|]. intros H. apply Forall_cons in H as [Hc%is_digit_code _].
  simpl. rewrite bool_decide_eq_false_2 by lia. done.
Qed.

Lemma days_in_month_le y m : (days_in_month y m <= 31)%Z.
Proof.
  unfold days_in_month. repeat case_bool_decide; try lia. destruct (is_leap y); lia.
Qed.

(** Eight digits that are the day, the month and the year of a date of
    the calendar are read as that date. *)
Lemma strptime_eight_digits dd mm yyyy :
  all_digits dd -> all_digits mm -> all_digits yyyy ->
  String.length dd = 2 -> String.length mm = 2 -> String.length yyyy = 4 ->
  valid_date (digits_value 0 yyyy) (digits_value 0 mm) (digits_value 0 dd) = true ->
  strptime (dd +:+ mm +:+ yyyy)
  = Ok (Datetime (digits_value 0 yyyy) (digits_value 0 mm) (digits_value 0 dd)).
Proof.
  intros Hd Hm Hy Ld Lm Ly Hvalid.
  destruct dd as [|d1 [|d2 [|]]]; try done.
  destruct mm as [|m1 [|m2 [|]]]; try done.
  destruct yyyy as [|y1 [|y2 [|y3 [|y4 [|]]]]]; try done.
  pose proof Hvalid as Hv. unfold valid_date in Hv.
  apply andb_true_iff in Hv as [Hv Hday]. apply andb_true_iff in Hv as [Hyear Hmonth].
  apply bool_decide_eq_true in Hday, Hmonth.
  pose proof (days_in_month_le
                (digits_value 0 (String y1 (String y2 (String y3 (String y4 EmptyString)))))
                (digits_value 0 (String m1 (String m2 EmptyString)))) as Hle.
  unfold all_digits in Hd, Hm, Hy. simpl in Hd, Hm, Hy.
  apply Forall_cons in Hd as [Hd1 Hd]. apply Forall_cons in Hd as [Hd2 _].
  apply Forall_cons in Hm as [Hm1 Hm]. apply Forall_cons in Hm as [Hm2 _].
  apply Forall_cons in Hy as [Hy1 Hy]. apply Forall_cons in Hy as [Hy2 Hy].
  apply Forall_cons in Hy as [Hy3 Hy]. apply Forall_cons in Hy as [Hy4 _].
  unfold strptime, regex_match. simpl String.append.
  destruct (candidates_d_two d1 d2
              (String m1 (String m2 (String y1 (String y2 (String y3 (String y4 EmptyString))))))
              Hd1 Hd2) as [taild ->]; [lia|].
  rewrite bind_cons.
  destruct (candidates_m_two m1 m2
              (String y1 (String y2 (String y3 (String y4 EmptyString))))
              Hm1 Hm2) as [tailm ->]; [lia|].
  rewrite bind_cons. rewrite candidates_Y_four by done.
  rewrite bind_cons. cbn [app head].
  rewrite !int_digits
    by (unfold all_digits; simpl; repeat (apply Forall_cons_2; [done|]); apply Forall_nil_2).
  by rewrite Hvalid.
Qed.

(** No character of a text of digits is a dot, so [.pdf] behind the
    digits is the only one to remove. *)
Lemma replace_pdf_after_digits s :
  all_digits s -> PyStr.replace ".pdf" EmptyString (s +:+ ".pdf") = s.
Proof.
  intros Hs.
  assert (H : PyStr.contains ".pdf" (s +:+ ".pd") = false).
  { induction s as [|c s IH]; [reflexivity|].
    apply Forall_cons in Hs as [Hc%is_digit_code Hs].
    change (String c s +:+ ".pd") with (String c (s +:+ ".pd")).
    cbn [PyStr.contains PyStr.startswith].
    case_decide; [subst c; vm_compute in Hc; lia|]. by apply IH. }
  pose proof (replace_first_occurrence ".pd" (Ascii.ascii_of_nat 102) EmptyString
                s EmptyString H) as Hrep.
  etrans; [exact Hrep | apply append_nil_r].
Qed.

End StrptimeDigits.

(** C2 as stated fails: a file name without the suffix [.pdf] is read as
    a date all the same; so is one with a space in the date portion, and
    one with seven digits only. *)
Lemma report_date_counterexample :
  PyStr.endswith ".pdf" "30062022" = false
  /\ report_date "30062022" = Ok (Datetime 2022 6 30)
  /\ report_date " 1062022.pdf" = Ok (Datetime 2022 6 1)
  /\ report_date "1122024.pdf" = Ok (Datetime 2024 2 11).
Proof. repeat split; vm_compute; reflexivity. Qed.

(** C2, amended. The file name 30062022.pdf gives the date 2022-06-30
    and 31122024.pdf gives 2024-12-31; so does every file name made of
    the two digits of the day, the two of the month and the four of the
    year of a calendar date, followed by [.pdf]. Derivation removes
    every [.pdf] from the file name; it gives a date or fails with the
    date-format error, and it gives a date only when what is left is a
    day of one or two characters, a month of one or two and a year of
    four, all digits or spaces, that make a calendar date. So it fails
    whenever what is left holds a character that is neither a digit nor
    a space. *)
Theorem report_date_derivation :
  report_date "30062022.pdf" = Ok (Datetime 2022 6 30)
  /\ report_date "31122024.pdf" = Ok (Datetime 2024 12 31)
  /\ (forall dd mm yyyy,
        all_digits dd -> all_digits mm -> all_digits yyyy ->
        String.length dd = 2 -> String.length mm = 2 -> String.length yyyy = 4 ->
        Strptime.valid_date (digits_value 0 yyyy) (digits_value 0 mm) (digits_value 0 dd)
          = true ->
        report_date (dd +:+ mm +:+ yyyy +:+ ".pdf")
        = Ok (Datetime (digits_value 0 yyyy) (digits_value 0 mm) (digits_value 0 dd)))
  /\ (forall file_name,
        (exists date, report_date file_name = Ok date)
        \/ date_format_error (report_date file_name))
  /\ (forall file_name date,
        report_date file_name = Ok date ->
        exists dd mm yyyy,
          PyStr.replace ".pdf" EmptyString file_name = dd +:+ mm +:+ yyyy
          /\ 1 <= String.length dd <= 2 /\ 1 <= String.length mm <= 2
          /\ String.length yyyy = 4
          /\ date = Datetime (Strptime.int yyyy) (Strptime.int mm) (Strptime.int dd)
          /\ Strptime.valid_date (Strptime.int yyyy) (Strptime.int mm) (Strptime.int dd)
             = true)
  /\ (forall file_name c,
        c ∈ PyStr.chars (PyStr.replace ".pdf" EmptyString file_name) ->
        is_digit c = false -> code c <> 32 ->
        date_format_error (report_date file_name)).
Proof.
  split; [vm_compute; reflexivity|]. split; [vm_compute; reflexivity|].
  split; [|split; [|split]].
  - intros dd mm yyyy Hd Hm Hy Ld Lm Ly Hvalid. unfold report_date.
    replace (dd +:+ mm +:+ yyyy +:+ ".pdf") with ((dd +:+ mm +:+ yyyy) +:+ ".pdf")
      by (by rewrite !append_assoc).
    rewrite replace_pdf_after_digits.
    + by apply strptime_eight_digits.
    + unfold all_digits in *. rewrite !chars_app, !Forall_app. done.
  - intros file_name. apply strptime_cases.
  - intros file_name date H. apply strptime_Ok in H
      as (dd & mm & yyyy & Hs & Ld & Lm & Ly & _ & Hdate & Hvalid).
    by exists dd, mm, yyyy.
  - intros file_name c Hc Hnd Hns.
    destruct (strptime_cases (PyStr.replace ".pdf" EmptyString file_name))
      as [[date H]|H]; [|exact H].
    apply strptime_Ok in H as (_ & _ & _ & _ & _ & _ & _ & Hchars & _).
    rewrite Forall_forall in Hchars. destruct (Hchars c Hc); congruence.
Qed.

Lemma report_date_derivation_witness :
  report_date "29022024.pdf" = Ok (Datetime 2024 2 29)
  /\ date_format_error (report_date "Q2-2022.pdf").
Proof.
  destruct report_date_derivation as (_ & _ & Hdigits & _ & _ & Hchar).
  split.
  - apply (Hdigits "29" "02" "2024"); try reflexivity;
      unfold all_digits; simpl; repeat constructor.
  - apply (Hchar "Q2-2022.pdf" (Ascii.ascii_of_nat 81)).
    + vm_compute. apply elem_of_cons. left. reflexivity.
    + reflexivity.
    + vm_compute. lia.
Defined.

(** ** Dataset Assembler *)

Section AssemblerFacts.

Implicit Types (d : datetime) (row : gmap string PyValue).

#[global] Instance date_le_total : Total date_le.
Proof. intros [y1 m1 d1] [y2 m2 d2]. unfold date_le. simpl. lia. Qed.

#[global] Instance date_le_trans : Transitive date_le.
Proof. intros [y1 m1 d1] [y2 m2 d2] [y3 m3 d3]. unfold date_le. simpl. lia. Qed.

#[global] Instance date_le_antisymm : AntiSymm (=) date_le.
Proof.
  intros [y1 m1 d1] [y2 m2 d2]. unfold date_le. simpl. intros H1 H2.
  f_equal; lia.
Qed.

#[global] Instance row_le_total label : Total (row_le label).
Proof. intros a b. unfold row_le. apply total, _. Qed.

#[global] Instance row_le_trans label : Transitive (row_le label).
Proof. intros a b c. unfold row_le. apply transitivity. Qed.

(** A list without repetition in ascending order is in strictly
    ascending order. *)
Lemma sorted_nodup_strict (dates : list datetime) :
  Sorted date_le dates -> NoDup dates -> StronglySorted date_lt dates.
Proof.
  intros Hs%Sorted_StronglySorted; [|apply _].
  induction Hs as [|d dates _ IH Hall]; intros Hnd; [constructor|].
  apply NoDup_cons in Hnd as [Hd Hnd]. constructor; [by apply IH|].
  rewrite Forall_forall in Hall |- *. intros d' Hd'. split; [by apply Hall|].
  intros ->. done.
Qed.

Lemma mapR_length {A B} (f : A -> Result B) xs ys :
  mapR f xs = Ok ys -> length ys = length xs.
Proof.
  revert ys. induction xs as [|x xs IH]; intros ys H; simpl in H.
  - by injection H as <-.
  - destruct (f x); [|done]. destruct (mapR f xs); [|done].
    injection H as <-. simpl. f_equal. by apply IH.
Qed.

Lemma mapR_app {A B} (f : A -> Result B) xs1 xs2 :
  mapR f (xs1 ++ xs2)
  = rbind (mapR f xs1) (fun ys1 => rbind (mapR f xs2) (fun ys2 => Ok (ys1 ++ ys2))).
Proof.
  induction xs1 as [|x xs1 IH]; simpl.
  - by destruct (mapR f xs2).
  - destruct (f x); simpl; [|done]. rewrite IH.
    destruct (mapR f xs1); simpl; [|done]. by destruct (mapR f xs2).
Qed.

Lemma mapR_ext {A B} (f g : A -> Result B) xs :
  (forall x, f x = g x) -> mapR f xs = mapR g xs.
Proof. intros H. induction xs as [|x xs IH]; simpl; [done|]. by rewrite H, IH. Qed.

Lemma mapR_fmap {A B C} (f : B -> Result C) (g : A -> B) xs :
  mapR f (g <$> xs) = mapR (fun x => f (g x)) xs.
Proof.
  induction xs as [|x xs IH]; [done|]. rewrite fmap_cons. simpl. by rewrite IH.
Qed.

(** A record with a date has a file name. *)
Lemma record_date_file_name row date :
  record_date row = Ok date -> "file_name" ∈ dom row.
Proof.
  unfold record_date, report_date_of_cell. intros H.
  apply elem_of_dom. destruct (row !! "file_name"); [by eexists | done].
Qed.

End AssemblerFacts.

Section MountFacts.

Implicit Types (records : list (gmap string PyValue)).

Lemma record_columns_app records1 records2 :
  record_columns (records1 ++ records2)
  = record_columns records1 ∪ record_columns records2.
Proof.
  unfold record_columns. rewrite fmap_app. apply leibniz_equiv, union_list_app.
Qed.

(** The cells under a key that a row-wise change leaves alone. *)
Lemma fmap_lookup_zip_with {A}
    (h : gmap string PyValue -> gmap string PyValue)
    (g : A -> gmap string PyValue -> gmap string PyValue)
    (k : string) (xs : list A) records :
  (forall x row, h (g x row) !! k = row !! k) ->
  length records <= length xs ->
  (fun row => row !! k) <$> (h <$> zip_with g xs records)
  = (fun row => row !! k) <$> records.
Proof.
  intros Hg. revert xs. induction records as [|row records IH]; intros [|x xs] Hlen;
    simpl in *; try done; try lia.
  rewrite Hg. f_equal. apply IH. lia.
Qed.

Lemma reset_index_Ok df df' :
  reset_index df = Ok df' ->
  exists name,
    (name = "index" /\ "index" ∉ df.(df_columns)
     \/ name = "level_0" /\ "index" ∈ df.(df_columns) /\ "level_0" ∉ df.(df_columns))
    /\ df' = {| df_columns := {[ name ]} ∪ df.(df_columns);
                df_index := range_index (length df.(df_rows));
                df_rows := zip_with (fun i row => <[name := VInt i]> row)
                                    df.(df_index) df.(df_rows) |}.
Proof.
  unfold reset_index. destruct (decide ("index" ∈ df_columns df)) as [Hi|Hi].
  - destruct (decide ("level_0" ∈ df_columns df)); [done|].
    intros [= <-]. exists "level_0". split; [by right | done].
  - destruct (decide ("index" ∈ df_columns df)); [done|].
    intros [= <-]. exists "index". split; [by left | done].
Qed.

Lemma reset_index_free df :
  ("index" ∈ df.(df_columns) /\ "level_0" ∉ df.(df_columns))
  \/ "index" ∉ df.(df_columns) ->
  exists df', reset_index df = Ok df'.
Proof.
  unfold reset_index. destruct (decide ("index" ∈ df_columns df)) as [Hi|Hi].
  - intros [[_ H]|H]; [|done]. rewrite decide_False by done. by eexists.
  - intros _. rewrite decide_False by done. by eexists.
Qed.

Lemma drop_Ok label df df' :
  drop label df = Ok df' ->
  label ∈ df.(df_columns)
  /\ df' = {| df_columns := df.(df_columns) ∖ {[ label ]};
              df_index := df.(df_index);
              df_rows := delete label <$> df.(df_rows) |}.
Proof. unfold drop. destruct (decide _); [|done]. by intros [= <-]. Qed.

Lemma column_Ok label df cells :
  column label df = Ok cells ->
  label ∈ df.(df_columns) /\ cells = (fun row => row !! label) <$> df.(df_rows).
Proof. unfold column. destruct (decide _); [|done]. by intros [= <-]. Qed.

(** The date of a row is read from its cell under the label. *)
Lemma row_date_fmap label (rows1 rows2 : list (gmap string PyValue)) :
  (fun row => row !! label) <$> rows1 = (fun row => row !! label) <$> rows2 ->
  row_date label <$> rows1 = row_date label <$> rows2.
Proof.
  intros H.
  assert (Hc : forall rows : list (gmap string PyValue),
             row_date label <$> rows
             = (fun cell => match cell with Some (VDate d) => d | _ => Datetime 0 0 0 end)
                 <$> ((fun row => row !! label) <$> rows)).
  { intros rows. rewrite <- list_fmap_compose. by apply list_fmap_ext. }
  by rewrite !Hc, H.
Qed.

Lemma length_range_index n : length (range_index n) = n.
Proof. unfold range_index. by rewrite length_fmap, length_seq. Qed.

(** A column that holds a text has the string accessor. *)
Lemma str_accessor_text cells :
  existsb is_text_cell cells = true -> str_accessor cells = Ok tt.
Proof. intros H. unfold str_accessor. by rewrite H. Qed.

(** So has a column, not empty, whose cells all give a date. *)
Lemma str_accessor_dates cells dates :
  cells <> [] -> mapR report_date_of_cell cells = Ok dates -> str_accessor cells = Ok tt.
Proof.
  intros Hne H. apply str_accessor_text.
  destruct cells as [|cell cells]; [done|]. simpl in H.
  destruct cell as [[| | | |value|]|]; simpl in H; done.
Qed.

(** The table before its last sort: the records with their dates. *)
Lemma mount_dataframe_inv records1 records2 df :
  mount_dataframe records1 records2 = Ok df ->
  index_droppable (record_columns (records1 ++ records2))
  /\ exists dates,
       mapR record_date (records1 ++ records2) = Ok dates
       /\ Sorted date_le (report_dates df)
       /\ report_dates df ≡ₚ dates.
Proof.
  unfold mount_dataframe.
  destruct (reset_index _) as [df0|] eqn:H0; simpl; [|done].
  destruct (drop "index" df0) as [df1|] eqn:H1; simpl; [|done].
  destruct (drop "level_0" df1) as [df2|] eqn:H2; simpl; [|done].
  destruct (column "file_name" df2) as [file_names|] eqn:H3; simpl; [|done].
  destruct (str_accessor file_names) as [[]|] eqn:Hacc; simpl; [|done].
  destruct (mapR report_date_of_cell file_names) as [dates|] eqn:H4; simpl; [|done].
  destruct (reset_index (sort_values _ _)) as [df4|] eqn:H5; simpl; [|done].
  intros H6.
  apply reset_index_Ok in H0 as (name & Hname & ->). simpl in Hname.
  apply drop_Ok in H1 as [Hin1 ->]. apply drop_Ok in H2 as [Hin2 ->].
  apply column_Ok in H3 as [Hin3 ->]. simpl in *.
  apply reset_index_Ok in H5 as (name' & Hname' & ->).
  apply drop_Ok in H6 as [Hin6 ->]. simpl in *.
  rewrite record_columns_app. unfold record_columns.
  set (cols := ⋃ (dom <$> records1) ∪ ⋃ (dom <$> records2)) in *. clearbody cols.
  set (records := records1 ++ records2) in *.
  set (idx := range_index (length records1) ++ range_index (length records2)) in *.
  assert (Hlen : length idx = length records).
  { unfold idx, records. by rewrite !length_app, !length_range_index. }
  split.
  { unfold index_droppable. clear -Hname Hin2.
    destruct Hname as [[-> Hn]|(-> & Hi & Hn)]; [right | by left].
    split; [done|]. apply elem_of_difference in Hin2 as [Hin2 _].
    apply elem_of_union in Hin2 as [Hin2|Hin2]; [|done].
    by apply elem_of_singleton in Hin2. }
  set (rows2 := delete "level_0"
                  <$> (delete "index"
                         <$> zip_with (fun i row => <[name := VInt i]> row) idx records))
    in *.
  assert (Hcells : (fun row => row !! "file_name") <$> rows2
                   = (fun row => row !! "file_name") <$> records).
  { unfold rows2.
    rewrite <- (list_fmap_compose (delete "index") (delete "level_0")).
    apply (fmap_lookup_zip_with (delete "level_0" ∘ delete "index")); [|lia].
    intros i row. simpl. rewrite !lookup_delete_ne by done.
    destruct Hname as [[-> _]|(-> & _)]; by rewrite lookup_insert_ne. }
  assert (Hrows2 : length rows2 = length records).
  { unfold rows2. rewrite !length_fmap, length_zip_with. lia. }
  rewrite Hcells, mapR_fmap in H4.
  exists dates. split; [exact H4|].
  pose proof (mapR_length _ _ _ H4) as Hdates.
  set (rows3 := zip_with (fun v row => <["Report Date" := v]> row) (VDate <$> dates) rows2).
  set (sorted := merge_sort (row_le "Report Date")
                   (zip (range_index (length records)) rows3)).
  assert (Hrows3 : row_date "Report Date" <$> rows3 = dates).
  { unfold rows3. rewrite zip_with_fmap_l. apply fmap_zip_with_l; [|lia].
    intros d row. unfold row_date. by rewrite lookup_insert_eq. }
  assert (Hlen3 : length rows3 <= length (range_index (length records))).
  { unfold rows3. rewrite length_range_index, length_zip_with, length_fmap. lia. }
  match goal with
  | |- Sorted _ (report_dates ?table) /\ _ =>
      assert (Hrd : report_dates table
                    = (fun p => row_date "Report Date" p.2) <$> sorted)
  end.
  { unfold report_dates. simpl.
    trans (row_date "Report Date" <$> sorted.*2); [|by rewrite <- list_fmap_compose].
    apply row_date_fmap.
    apply (fmap_lookup_zip_with (delete "index")); [|by rewrite !length_fmap].
    intros i row. rewrite lookup_delete_ne by done.
    destruct Hname' as [[-> _]|(-> & _)]; by rewrite lookup_insert_ne. }
  rewrite Hrd. split.
  - apply (Sorted_fmap _ (row_le "Report Date")); [by intros x y H|].
    apply Sorted_merge_sort, _.
  - unfold sorted. rewrite merge_sort_Permutation.
    trans (row_date "Report Date" <$> (zip (range_index (length records)) rows3).*2);
      [by rewrite <- list_fmap_compose|].
    by rewrite snd_zip, Hrows3.
Qed.

Lemma drop_in label df :
  label ∈ df.(df_columns) ->
  drop label df = Ok {| df_columns := df.(df_columns) ∖ {[ label ]};
                        df_index := df.(df_index);
                        df_rows := delete label <$> df.(df_rows) |}.
Proof. intros H. unfold drop. by rewrite decide_True. Qed.

Lemma elem_of_record_columns label records :
  label ∈ record_columns records <-> exists row, row ∈ records /\ label ∈ dom row.
Proof.
  unfold record_columns. rewrite elem_of_union_list. split.
  - intros (X & HX & Hl). apply list_elem_of_fmap in HX as (row & -> & Hrow). eauto.
  - intros (row & Hrow & Hl). exists (dom row). split; [|done].
    apply list_elem_of_fmap. eauto.
Qed.

(** The records all have a date and carry the index: the table is
    built. *)
Lemma mount_dataframe_total records1 records2 dates :
  index_droppable (record_columns (records1 ++ records2)) ->
  mapR record_date (records1 ++ records2) = Ok dates ->
  exists df, mount_dataframe records1 records2 = Ok df.
Proof.
  intros Hidx Hdates. unfold mount_dataframe.
  set (base := concat (DataFrame_of_records records1) (DataFrame_of_records records2)).
  assert (Hcols : base.(df_columns) = record_columns (records1 ++ records2))
    by (by rewrite record_columns_app).
  assert (Hrows : base.(df_rows) = records1 ++ records2) by done.
  assert (Hbidx : length base.(df_index) = length (records1 ++ records2)).
  { simpl. by rewrite !length_app, !length_range_index. }
  clearbody base.
  assert (Hne : records1 ++ records2 <> []).
  { intros Hrecords. rewrite Hrecords in Hidx.
    unfold index_droppable, record_columns in Hidx. simpl in Hidx.
    destruct Hidx as [[H _]|[_ H]]; by apply not_elem_of_empty in H. }
  assert (Hfile : "file_name" ∈ record_columns (records1 ++ records2)).
  { destruct (records1 ++ records2) as [|row records] eqn:Hrecords; [done|].
    apply elem_of_record_columns. exists row. split; [by left|].
    simpl in Hdates. destruct (record_date row) as [date|] eqn:Hrow; [|done].
    by apply record_date_file_name in Hrow. }
  destruct (reset_index base) as [df0|] eqn:H0; simpl.
  2:{ destruct (reset_index_free base) as [df0 Hdf0]; [|congruence].
      rewrite Hcols. destruct Hidx as [[Hi Hl]|[Hi Hl]]; [by left | by right]. }
  apply reset_index_Ok in H0 as (name & Hname & ->). rewrite Hcols, Hrows in *.
  set (cols := record_columns (records1 ++ records2)) in *.
  set (records := records1 ++ records2) in *.
  assert (Hin1 : "index" ∈ {[name]} ∪ cols).
  { destruct Hname as [[-> _]|(-> & Hi & _)]; [by apply elem_of_union_l, elem_of_singleton
                                              | by apply elem_of_union_r]. }
  rewrite (drop_in "index") by done. simpl.
  assert (Hin2 : "level_0" ∈ ({[name]} ∪ cols) ∖ {["index"]}).
  { apply elem_of_difference. split; [|by rewrite elem_of_singleton].
    destruct Hname as [[-> Hi]|(-> & _ & _)].
    - destruct Hidx as [[Hi' _]|[_ Hl]]; [done | by apply elem_of_union_r].
    - by apply elem_of_union_l, elem_of_singleton. }
  rewrite (drop_in "level_0") by done. simpl.
  unfold column. simpl. rewrite decide_True.
  2:{ apply elem_of_difference. split; [|by rewrite elem_of_singleton].
      apply elem_of_difference. split; [|by rewrite elem_of_singleton].
      by apply elem_of_union_r. }
  simpl.
  rewrite <- (list_fmap_compose (delete "index") (delete "level_0")).
  rewrite (fmap_lookup_zip_with (delete "level_0" ∘ delete "index")).
  2:{ intros i row. simpl. rewrite !lookup_delete_ne by done.
      destruct Hname as [[-> _]|(-> & _)]; by rewrite lookup_insert_ne. }
  2:{ lia. }
  assert (Hcells : mapR report_date_of_cell ((fun row => row !! "file_name") <$> records)
                   = Ok dates).
  { rewrite mapR_fmap. exact Hdates. }
  rewrite (str_accessor_dates _ dates); [|by intros H%fmap_nil_inv|exact Hcells].
  simpl. rewrite Hcells.
  simpl. unfold reset_index, sort_values, assign. simpl.
  assert (Hnot : "index" ∉ {["Report Date"]}
                            ∪ ({[name]} ∪ cols) ∖ {["index"]} ∖ {["level_0"]}).
  { intros H. apply elem_of_union in H as [H|H]; [by apply elem_of_singleton in H|].
    apply elem_of_difference in H as [H _]. apply elem_of_difference in H as [_ H].
    by apply H, elem_of_singleton. }
  destruct (decide ("index" ∈ _)) as [|_]; [done|].
  rewrite decide_False by done. simpl.
  rewrite drop_in by (by apply elem_of_union_l, elem_of_singleton).
  by eexists.
Qed.

Lemma derivable_dates records :
  Forall derivable records -> exists dates, mapR record_date records = Ok dates.
Proof.
  induction records as [|row records IH]; intros Hall; simpl; [by eexists|].
  apply Forall_cons in Hall as [[date Hrow] Hall].
  destruct (IH Hall) as [dates Hdates]. rewrite Hrow, Hdates. simpl. by eexists.
Qed.

End MountFacts.

(** C8. When every parsed record has a file name that gives a date, the
    table the assembler builds from the two lists has its Report Date
    column in ascending order; the column holds the dates derived from
    the file names of the records, and is in strictly ascending order
    when these dates are all different; and the table built with the two
    lists in the other order has the same Report Date column. The table
    is built as soon as the records carry the index column the assembler
    drops. *)
Theorem mounted_dates_ascending
    (parsed_dipd_data parsed_rexp_data : list (gmap string PyValue)) :
  Forall derivable (parsed_dipd_data ++ parsed_rexp_data) ->
  (forall df,
     mount_dataframe parsed_dipd_data parsed_rexp_data = Ok df ->
     Sorted date_le (report_dates df)
     /\ (exists dates,
           mapR record_date (parsed_dipd_data ++ parsed_rexp_data) = Ok dates
           /\ report_dates df ≡ₚ dates
           /\ (NoDup dates -> StronglySorted date_lt (report_dates df)))
     /\ (exists df',
           mount_dataframe parsed_rexp_data parsed_dipd_data = Ok df'
           /\ report_dates df' = report_dates df))
  /\ (index_droppable (record_columns (parsed_dipd_data ++ parsed_rexp_data)) ->
      exists df, mount_dataframe parsed_dipd_data parsed_rexp_data = Ok df).
Proof.
  intros Hall. split.
  - intros df Hdf.
    destruct (mount_dataframe_inv _ _ _ Hdf) as (Hidx & dates & Hdates & Hsorted & Hperm).
    split; [done|]. split.
    { exists dates. split; [done|]. split; [done|].
      intros Hnd. apply sorted_nodup_strict; [done|]. by rewrite Hperm. }
    rewrite mapR_app in Hdates.
    destruct (mapR record_date parsed_dipd_data) as [dates1|] eqn:H1; [|done].
    destruct (mapR record_date parsed_rexp_data) as [dates2|] eqn:H2; [|done].
    simpl in Hdates. injection Hdates as <-.
    destruct (mount_dataframe_total parsed_rexp_data parsed_dipd_data (dates2 ++ dates1))
      as [df' Hdf'].
    + rewrite record_columns_app, (comm_L (∪)), <- record_columns_app. exact Hidx.
    + rewrite mapR_app, H1, H2. done.
    + exists df'. split; [done|].
      destruct (mount_dataframe_inv _ _ _ Hdf') as (_ & dates' & Hdates' & Hsorted' & Hperm').
      rewrite mapR_app, H1, H2 in Hdates'. simpl in Hdates'. injection Hdates' as <-.
      apply (Sorted_unique date_le); [done..|].
      rewrite Hperm, Hperm'. apply Permutation_app_comm.
  - intros Hidx.
    destruct (derivable_dates _ Hall) as [dates Hdates].
    by apply mount_dataframe_total with dates.
Qed.

Lemma mounted_dates_ascending_witness :
  exists df,
    mount_dataframe Samples.dipd_records Samples.rexp_records = Ok df
    /\ Sorted date_le (report_dates df).
Proof.
  destruct (mounted_dates_ascending Samples.dipd_records Samples.rexp_records)
    as [Hsorted Htotal].
  - repeat constructor; eexists; vm_compute; reflexivity.
  - destruct Htotal as [df Hdf].
    + unfold index_droppable. apply (bool_decide_unpack _). vm_compute. exact I.
    + exists df. split; [exact Hdf|]. by destruct (Hsorted df Hdf) as [H _].
Defined.

(** The example of the specification: DIPD records of 2023-03-31 and
    2022-12-31 and a REXP record of 2022-06-30, in either order of the
    two lists. *)
Example mounted_dates_example :
  (exists df, mount_dataframe Samples.dipd_records Samples.rexp_records = Ok df
     /\ report_dates df = [Datetime 2022 6 30; Datetime 2022 12 31; Datetime 2023 3 31])
  /\ (exists df, mount_dataframe Samples.rexp_records Samples.dipd_records = Ok df
     /\ report_dates df = [Datetime 2022 6 30; Datetime 2022 12 31; Datetime 2023 3 31]).
Proof.
  split; eexists; (split; [vm_compute; reflexivity|]); vm_compute; reflexivity.
Qed.

(** ** Dataset Validator *)

Section ValidatorFacts.

Variable read_csv : string -> Result DataFrame.
Variable to_datetime : list (option PyValue) -> bool.

(** The first failure of a list of checks: a check that fails after
    checks that all pass. *)
Lemma first_failure_Some checks df reason :
  first_failure checks df = Some reason <->
  exists before check after,
    checks = before ++ check :: after
    /\ Forall (fun c => c df = None) before
    /\ check df = Some reason.
Proof.
  induction checks as [|c checks IH]; simpl.
  - split; [done|]. intros (before & check & after & H & _). by destruct before.
  - destruct (c df) as [r|] eqn:Hc.
    + split.
      * intros [= ->]. by exists [], c, checks.
      * intros ([|c' before] & check & after & [= <- ->] & Hb & Hcheck).
        -- congruence.
        -- apply Forall_cons in Hb as [Hb _]. congruence.
    + rewrite IH. split.
      * intros (before & check & after & -> & Hb & Hcheck).
        exists (c :: before), check, after. split; [done|]. split; [by constructor | done].
      * intros ([|c' before] & check & after & [= <- ->] & Hb & Hcheck).
        -- congruence.
        -- apply Forall_cons in Hb as [_ Hb]. by exists before, check, after.
Qed.

Lemma first_failure_None checks df :
  first_failure checks df = None <-> Forall (fun c => c df = None) checks.
Proof.
  induction checks as [|c checks IH]; simpl; [by split|].
  destruct (c df) eqn:Hc.
  - split; [done|]. intros [H _]%Forall_cons. congruence.
  - rewrite IH. split; [by constructor | by intros [_ H]%Forall_cons].
Qed.

(** After the file is read, the function gives the first failure of
    its checks in the order it makes them. *)
Lemma validate_table_checks df :
  match validate_table to_datetime df with
  | Ok outcome => outcome
  | Raise e => (false, Some (ErrorReadingDataFile e))
  end
  = outcome_of (first_failure (checks_in_code_order to_datetime) df).
Proof.
  unfold validate_table, checks_in_code_order, first_failure,
    check_nonempty, check_columns, check_companies, check_numeric,
    check_dates, check_min_rows.
  destruct (decide (length (df_rows df) = 0)); [done|].
  destruct (decide (required_columns ∖ df_columns df ≠ ∅)); [done|].
  destruct (column "Simbol" df) as [simbols|]; cbn -[first_not_numeric]; [|done].
  destruct (decide (Forall _ simbols)); [|done].
  destruct (first_not_numeric df numeric_columns) as [[col|]|];
    cbn -[first_not_numeric]; try done.
  destruct (column "Report Date" df) as [dates|]; [|done].
  destruct (to_datetime dates); [|done].
  by destruct (decide (length (df_rows df) < 4)).
Qed.

End ValidatorFacts.

(** C3 as stated fails: for a file that holds a header line only, and a
    header that lacks required columns, the function reports the empty
    file, where the order of the specification reports the missing
    columns. *)
Lemma validator_order_counterexample :
  validate_data_structure (fun _ => Ok Samples.header_only) Samples.any_date "financial_data.csv"
    = (false, Some DataFileEmpty)
  /\ validate_as_specified Samples.any_date Samples.header_only
     = (false, Some (MissingRequiredColumns
                       (required_columns ∖ {[ "Simbol"; "file_name" ]}))).
Proof. split; reflexivity. Qed.

(** C3, amended. The validator makes its checks in this order: the table
    is not empty; the required columns are there, the missing ones given
    by name; the company symbols are among REXP and DIPD, the others
    given as a set; the six monetary columns are numeric, in the order of
    the list; the Report Date column parses; there are at least 4 rows.
    It returns the flag false with the reason of the first check that
    fails, and of no other, or the flag true with no reason when every
    check passes. A file that cannot be read is a failure of its own. *)
Theorem validator_first_failure
    (read_csv : string -> Result DataFrame)
    (to_datetime : list (option PyValue) -> bool) (file_path : string) :
  validate_data_structure read_csv to_datetime file_path
  = match read_csv file_path with
    | Ok df => outcome_of (first_failure (checks_in_code_order to_datetime) df)
    | Raise e => (false, Some (ErrorReadingDataFile e))
    end
  /\ checks_in_code_order to_datetime
     = [ check_nonempty; check_columns; check_companies; check_numeric;
         check_dates to_datetime; check_min_rows ]
  /\ (forall df reason,
        read_csv file_path = Ok df ->
        (validate_data_structure read_csv to_datetime file_path = (false, Some reason)
         <-> exists before check after,
               checks_in_code_order to_datetime = before ++ check :: after
               /\ Forall (fun c => c df = None) before
               /\ check df = Some reason))
  /\ (forall df,
        read_csv file_path = Ok df ->
        (validate_data_structure read_csv to_datetime file_path = (true, None)
         <-> Forall (fun c => c df = None) (checks_in_code_order to_datetime))).
Proof.
  assert (Heq : validate_data_structure read_csv to_datetime file_path
                = match read_csv file_path with
                  | Ok df => outcome_of (first_failure (checks_in_code_order to_datetime) df)
                  | Raise e => (false, Some (ErrorReadingDataFile e))
                  end).
  { unfold validate_data_structure. destruct (read_csv file_path) as [df|e]; simpl; [|done].
    apply validate_table_checks. }
  split; [exact Heq|]. split; [reflexivity|]. split.
  - intros df reason Hread. rewrite Heq, Hread, <- first_failure_Some.
    destruct (first_failure _ df); simpl; split; congruence.
  - intros df Hread. rewrite Heq, Hread, <- first_failure_None.
    destruct (first_failure _ df); simpl; split; congruence.
Qed.

Lemma validator_first_failure_witness :
  validate_data_structure (fun _ => Ok Samples.good_table) Samples.any_date
    "financial_data.csv" = (true, None).
Proof.
  destruct (validator_first_failure (fun _ => Ok Samples.good_table) Samples.any_date
              "financial_data.csv") as (_ & _ & _ & Hpass).
  apply (Hpass Samples.good_table eq_refl).
  repeat constructor; vm_compute; reflexivity.
Defined.

(** The acceptance examples of the specification: the good table with a
    required column removed, with a third symbol, with a monetary column
    that is not numeric, and with three rows only. *)
Example validator_named_failures :
  let validate df :=
    validate_data_structure (fun _ => Ok df) Samples.any_date "financial_data.csv" in
  validate (Samples.table_of (required_columns ∖ {[ "Net Income" ]}) Samples.good_rows)
    = (false, Some (MissingRequiredColumns {[ "Net Income" ]}))
  /\ validate (Samples.table_of required_columns
                 (Samples.saved_row "ACME" "30062022.pdf" "2022-06-30" (VInt 1)
                  :: Samples.good_rows))
     = (false, Some (InvalidCompaniesFound [Some (VStr "ACME")]))
  /\ validate (Samples.table_of required_columns
                 (Samples.saved_row "REXP" "30062022.pdf" "2022-06-30" (VStr "n/a")
                  :: Samples.good_rows))
     = (false, Some (ColumnShouldBeNumeric "Revenue"))
  /\ validate (Samples.table_of required_columns (take 3 Samples.good_rows))
     = (false, Some InsufficientRecords).
Proof. repeat split; vm_compute; reflexivity. Qed.

(** * More properties *)

(** ** Page Locator: failures and file names *)

Section LocatorFailures.

Implicit Types (simbol : string) (target : Target) (files : list Document).

(** Without a marker for the symbol the first page read raises. *)
Lemma scan_pages_unknown simbol path target pages :
  map_page_simbol !! simbol = None ->
  foldM (scan_page simbol path) target pages
  = match pages with
    | [] => Ok target
    | _ :: _ => Raise no_marker_error
    end.
Proof.
  intros Hm. destruct pages as [|text pages]; simpl; [done|].
  unfold scan_page. by rewrite Hm.
Qed.

Lemma scan_documents_unknown simbol files target index :
  map_page_simbol !! simbol = None ->
  (Forall (fun file => file.(doc_pages) = []) files ->
   exists st, foldM (scan_document simbol) (target, index) files = Ok st)
  /\ (Exists (fun file => file.(doc_pages) <> []) files ->
      foldM (scan_document simbol) (target, index) files = Raise no_marker_error).
Proof.
  intros Hm. revert target index.
  induction files as [|file files IH]; intros target index; split.
  - intros _. by eexists.
  - intros H. by apply Exists_nil in H.
  - intros H. apply Forall_cons in H as [Hfile H]. simpl.
    rewrite scan_pages_unknown, Hfile by done. simpl. by apply IH.
  - intros H. simpl. rewrite scan_pages_unknown by done.
    destruct (doc_pages file) as [|text pages] eqn:Hpages; [|done].
    simpl. apply IH. apply Exists_cons in H as [H|H]; [done | exact H].
Qed.

Lemma matched_pages_unknown simbol files :
  map_page_simbol !! simbol = None ->
  matched_pages simbol files = [] /\ matched_file_names simbol files = [].
Proof.
  intros Hm. unfold matched_pages, matched_file_names, matching_pages. rewrite Hm.
  induction files as [|file files [IH1 IH2]]; [done|].
  rewrite !bind_cons, IH1, IH2. done.
Qed.

(** One turn of the loop over the files. *)
Lemma scan_file_passes simbol st (financial_file : File) :
  passes simbol financial_file -> exists st', scan_file simbol st financial_file = Ok st'.
Proof.
  intros (pages & Hpdf & Hpages). unfold scan_file. rewrite Hpdf. simpl.
  destruct st as [target index]. unfold scan_document. cbn [doc_path doc_pages].
  destruct Hpages as [-> | Hm]; [by eexists|].
  destruct (scan_pages_total simbol (file_path financial_file) target pages Hm)
    as [target' ->].
  by eexists.
Qed.

Lemma scan_file_stops simbol st (financial_file : File) e :
  stops_at simbol financial_file e -> scan_file simbol st financial_file = Raise e.
Proof.
  intros [Hpdf|(Hm & -> & page & pages & Hpdf)]; unfold scan_file; rewrite Hpdf; [done|].
  simpl. destruct st as [target index]. unfold scan_document. cbn [doc_path doc_pages].
  by rewrite scan_pages_unknown.
Qed.

Lemma scan_file_Raise simbol st (financial_file : File) e :
  scan_file simbol st financial_file = Raise e -> stops_at simbol financial_file e.
Proof.
  unfold scan_file, stops_at.
  destruct (file_pdf financial_file) as [pages|e'] eqn:Hpdf; simpl; [|intros [= <-]; by left].
  destruct st as [target index]. unfold scan_document. cbn [doc_path doc_pages].
  destruct (map_page_simbol !! simbol) as [marker|] eqn:Hm.
  - destruct (scan_pages_total simbol (file_path financial_file) target pages)
      as [target' Ht]; [by eexists|].
    by rewrite Ht.
  - rewrite scan_pages_unknown by done.
    destruct pages as [|page pages]; [done|]. intros [= <-]. right. eauto.
Qed.

Lemma scan_file_Ok simbol st (financial_file : File) st' :
  scan_file simbol st financial_file = Ok st' -> passes simbol financial_file.
Proof.
  unfold scan_file, passes.
  destruct (file_pdf financial_file) as [pages|e'] eqn:Hpdf; simpl; [|done].
  intros H. exists pages. split; [done|].
  destruct (map_page_simbol !! simbol) as [marker|] eqn:Hm; [by right; eexists|].
  left. destruct st as [target index]. unfold scan_document in H.
  cbn [doc_path doc_pages] in H.
  rewrite scan_pages_unknown in H by done. by destruct pages.
Qed.

(** The loop over the files stops at the first file it does not pass. *)
Lemma scan_files_Raise simbol (financial_files : list File) st e :
  foldM (scan_file simbol) st financial_files = Raise e
  <-> exists before financial_file after,
        financial_files = before ++ financial_file :: after
        /\ Forall (passes simbol) before
        /\ stops_at simbol financial_file e.
Proof.
  revert st. induction financial_files as [|f fs IH]; intros st; simpl.
  - split; [done|]. intros (before & g & after & H & _). by destruct before.
  - destruct (scan_file simbol st f) as [st'|e'] eqn:Hf; simpl.
    + rewrite IH. split.
      * intros (before & g & after & -> & Hbefore & Hstops).
        exists (f :: before), g, after. split; [done|]. split; [|done].
        constructor; [by eapply scan_file_Ok | done].
      * intros (before & g & after & Hsplit & Hbefore & Hstops).
        destruct before as [|f' before]; simpl in Hsplit.
        { injection Hsplit as <- <-.
          by rewrite (scan_file_stops _ st _ _ Hstops) in Hf. }
        injection Hsplit as <- ->. apply Forall_cons in Hbefore as [_ Hbefore].
        by exists before, g, after.
    + split.
      * intros [= <-]. exists [], f, fs. split; [done|]. split; [done|].
        by eapply scan_file_Raise.
      * intros (before & g & after & Hsplit & Hbefore & Hstops).
        destruct before as [|f' before]; simpl in Hsplit.
        { injection Hsplit as <- <-.
          rewrite (scan_file_stops _ st _ _ Hstops) in Hf. congruence. }
        injection Hsplit as <- ->. apply Forall_cons in Hbefore as [Hpass _].
        destruct (scan_file_passes simbol st f Hpass) as [st' Hst']. congruence.
Qed.

(** A loop that ends has opened every file. *)
Lemma scan_files_Ok simbol (financial_files : list File) st st' :
  foldM (scan_file simbol) st financial_files = Ok st' ->
  exists files, financial_files = readable <$> files.
Proof.
  revert st. induction financial_files as [|f fs IH]; intros st H; simpl in H.
  - by exists [].
  - destruct (scan_file simbol st f) as [st1|] eqn:Hf; simpl in H; [|done].
    destruct (IH _ H) as [files ->].
    unfold scan_file in Hf. destruct f as [path [pages|e]]; simpl in Hf; [|done].
    by exists ({| doc_path := path; doc_pages := pages |} :: files).
Qed.

(** [glob.glob(...)[0]] over the names: the first name without a file
    raises. *)
Lemma first_found_Raise (names : list (list File)) e :
  mapR (fun found => getitem found 0) names = Raise e <-> [] ∈ names /\ e = IndexError.
Proof.
  induction names as [|found names IH]; simpl.
  - split; [done|]. intros [H _]. by apply elem_of_nil in H.
  - destruct found as [|f found]; simpl.
    + split; [intros [= <-]; split; [by left | done]|]. by intros [_ ->].
    + destruct (mapR _ names) as [fs|e'] eqn:Hrest; simpl.
      * split; [done|]. intros [H ->].
        apply elem_of_cons in H as [H|H]; [done|].
        destruct IH as [_ IH]. by specialize (IH (conj H eq_refl)).
      * destruct IH as [IH1 IH2]. split.
        -- intros [= <-]. destruct IH1 as [H ->]; [done|]. split; [by right | done].
        -- intros [H ->]. apply elem_of_cons in H as [H|H]; [done|].
           by apply IH2.
Qed.

(** A folder that is not there. *)
Lemma extract_pl_pages_missing raw_data simbol :
  raw_data simbol = Raise FileNotFoundError ->
  extract_pl_pages raw_data simbol = Raise listing_error.
Proof. intros H. unfold extract_pl_pages, list_all_files. by rewrite H. Qed.

(** A batch comes from files that are listed and open. *)
Lemma extract_pl_pages_Ok_readable raw_data simbol target :
  extract_pl_pages raw_data simbol = Ok target ->
  exists files, list_all_files raw_data simbol = Ok (readable <$> files).
Proof.
  unfold extract_pl_pages.
  destruct (list_all_files raw_data simbol) as [financial_files|]; simpl; [|done].
  destruct (foldM _ _ _) as [st|] eqn:H; simpl; [|done]. intros _.
  apply scan_files_Ok in H as [files ->]. by exists files.
Qed.

End LocatorFailures.

(** X1. When [extract_pl_pages] raises, and what. It raises the listing
    error of [list_all_files] when the folder of the symbol is not there,
    whatever the symbol; what [os.listdir] raises otherwise; an
    [IndexError] when [glob] finds no file for a name of the listing;
    and, with the files listed, it stops at the first file that does
    not open, with the exception of the opening, or that has a page
    while the symbol has no marker, with a [TypeError]. It raises in no
    other case. For a symbol without a marker and documents that have no
    page at all it returns a batch that holds one index per document and
    nothing else. *)
Theorem extract_pl_pages_failures
    (raw_data : string -> Result (list (list File))) (simbol : string) :
  (forall e,
     extract_pl_pages raw_data simbol = Raise e <->
     (raw_data simbol = Raise FileNotFoundError /\ e = listing_error)
     \/ (raw_data simbol = Raise e /\ e <> FileNotFoundError)
     \/ (exists names, raw_data simbol = Ok names /\ [] ∈ names /\ e = IndexError)
     \/ (exists before financial_file after,
           list_all_files raw_data simbol = Ok (before ++ financial_file :: after)
           /\ Forall (passes simbol) before
           /\ stops_at simbol financial_file e))
  /\ (forall files,
        list_all_files raw_data simbol = Ok (readable <$> files) ->
        map_page_simbol !! simbol = None ->
        Forall (fun file => file.(doc_pages) = []) files ->
        extract_pl_pages raw_data simbol
        = Ok {| tg_index := range_index (length files);
                tg_simbol := [];
                tg_file_name := [];
                tg_target_page := [] |}).
Proof.
  split.
  - intros e. destruct (raw_data simbol) as [names|e0] eqn:Hraw.
    + pose proof (list_all_files_found raw_data simbol names Hraw) as Hlist.
      unfold extract_pl_pages. rewrite Hlist.
      destruct (mapR (fun found : list File => getitem found 0) names)
        as [financial_files|e'] eqn:Hfound; simpl.
      * destruct (foldM (scan_file simbol) (empty_target, 0%Z) financial_files)
          as [st|e'] eqn:Hscan; simpl.
        -- split; [done|].
           intros [[? _]|[[? _]|[(names' & [= <-] & Hin & _)|H]]]; try done.
           ++ assert (mapR (fun found : list File => getitem found 0) names
                      = Raise IndexError) as Hr by (by apply first_found_Raise).
              congruence.
           ++ destruct H as (before & f & after & [= ->] & Hbefore & Hstops).
              assert (foldM (scan_file simbol) (empty_target, 0%Z) (before ++ f :: after)
                      = Raise e) as Hr by (apply scan_files_Raise; eauto 6).
              congruence.
        -- split.
           ++ intros [= <-]. do 3 right.
              apply scan_files_Raise in Hscan
                as (before & f & after & -> & Hbefore & Hstops).
              by exists before, f, after.
           ++ intros [[? _]|[[? _]|[(names' & [= <-] & Hin & _)|H]]]; try done.
              ** assert (mapR (fun found : list File => getitem found 0) names
                         = Raise IndexError) as Hr by (by apply first_found_Raise).
                 congruence.
              ** destruct H as (before & f & after & [= ->] & Hbefore & Hstops).
                 assert (foldM (scan_file simbol) (empty_target, 0%Z)
                           (before ++ f :: after) = Raise e) as Hr
                   by (apply scan_files_Raise; eauto 6).
                 congruence.
      * apply first_found_Raise in Hfound as [Hin ->]. split.
        -- intros [= <-]. right. right. left. by exists names.
        -- intros [[? _]|[[? _]|[(names' & _ & _ & ->)|H]]]; try done.
           by destruct H as (? & ? & ? & ? & _).
    + assert (list_all_files raw_data simbol
              = Raise (match e0 with FileNotFoundError => listing_error | _ => e0 end))
        as Hlist.
      { unfold list_all_files. rewrite Hraw. by destruct e0. }
      unfold extract_pl_pages. rewrite Hlist. simpl. split.
      * intros [= <-].
        destruct e0; try (right; left; split; [done | discriminate]).
        by left.
      * intros [[[= ->] ->]|[[[= ->] Hne]|[(names' & ? & _)|H]]]; try done.
        -- by destruct e.
        -- by destruct H as (? & ? & ? & ? & _).
  - intros files Hfiles Hm Hall.
    destruct (scan_documents_unknown simbol files empty_target 0%Z Hm) as [Hok _].
    destruct (Hok Hall) as [st Hst].
    assert (extract_pl_pages raw_data simbol = Ok st.1) as Hex.
    { rewrite (extract_pl_pages_readable _ _ _ Hfiles). by rewrite Hst. }
    rewrite Hex. f_equal.
    rewrite (extract_pl_pages_ok raw_data simbol files st.1 Hfiles Hex).
    destruct (matched_pages_unknown simbol files Hm) as [-> ->]. done.
Qed.

Lemma extract_pl_pages_failures_witness :
  extract_pl_pages (Samples.rexp_only [Samples.one_marker_page]) "DIPD" = Raise listing_error
  /\ extract_pl_pages (fun _ => Ok [ []; [readable Samples.one_marker_page] ]) "REXP"
     = Raise IndexError
  /\ extract_pl_pages
       (fun _ => Ok [ [ {| file_path := "x.pdf";
                           file_pdf := Raise (NotModelled "not a PDF") |} ] ]) "REXP"
     = Raise (NotModelled "not a PDF")
  /\ extract_pl_pages (fun _ => Samples.folder_of [Samples.one_marker_page]) "ABCD"
     = Raise no_marker_error
  /\ extract_pl_pages
       (fun _ => Samples.folder_of [ {| doc_path := "x.pdf"; doc_pages := [] |} ]) "ABCD"
     = Ok {| tg_index := [0%Z]; tg_simbol := []; tg_file_name := []; tg_target_page := [] |}.
Proof.
  split; [|split; [|split; [|split]]].
  - apply (extract_pl_pages_failures (Samples.rexp_only [Samples.one_marker_page]) "DIPD").
    left. split; reflexivity.
  - apply (extract_pl_pages_failures
             (fun _ => Ok [ []; [readable Samples.one_marker_page] ]) "REXP").
    right. right. left. eexists. split; [reflexivity|]. split; [|reflexivity].
    apply elem_of_cons. by left.
  - apply (extract_pl_pages_failures
             (fun _ => Ok [ [ {| file_path := "x.pdf";
                                 file_pdf := Raise (NotModelled "not a PDF") |} ] ]) "REXP").
    right. right. right.
    exists [], {| file_path := "x.pdf"; file_pdf := Raise (NotModelled "not a PDF") |}, [].
    split; [reflexivity|]. split; [constructor|]. left. reflexivity.
  - apply (extract_pl_pages_failures
             (fun _ => Samples.folder_of [Samples.one_marker_page]) "ABCD").
    right. right. right. exists [], (readable Samples.one_marker_page), [].
    split; [reflexivity|]. split; [constructor|]. right.
    split; [reflexivity|]. split; [reflexivity|]. eexists _, _. reflexivity.
  - destruct (extract_pl_pages_failures
                (fun _ => Samples.folder_of [ {| doc_path := "x.pdf"; doc_pages := [] |} ])
                "ABCD") as [_ H].
    apply (H [ {| doc_path := "x.pdf"; doc_pages := [] |} ]).
    + reflexivity.
    + reflexivity.
    + repeat constructor.
Defined.

Section FindFacts.

Lemma find_from_absent (sub s : string) (i : Z) :
  PyStr.contains sub s = false -> PyStr.find_from i sub s = (-1)%Z.
Proof.
  revert i. induction s as [|c s IH]; intros i H; simpl in H;
    apply orb_false_iff in H as [Hs H]; simpl; rewrite Hs; [done|]. by apply IH.
Qed.

(** [find] gives the place of the first occurrence. *)
Lemma find_from_first (front : string) (last : Ascii.ascii) (pre post : string) (i : Z) :
  let sub := front +:+ String last EmptyString in
  PyStr.contains sub (pre +:+ front) = false ->
  PyStr.find_from i sub (pre +:+ sub +:+ post) = (i + Z.of_nat (String.length pre))%Z.
Proof.
  intros sub. revert i. induction pre as [|c pre IH]; intros i Hc.
  - change (EmptyString +:+ sub +:+ post) with (sub +:+ post).
    assert (PyStr.startswith sub (sub +:+ post) = true) as Hs by apply startswith_app.
    destruct (sub +:+ post); simpl in *; rewrite Hs; lia.
  - change (PyStr.contains sub (String c (pre +:+ front)) = false) in Hc.
    simpl in Hc. apply orb_false_iff in Hc as [Hs Hc].
    change (String c pre +:+ sub +:+ post) with (String c (pre +:+ sub +:+ post)).
    cbn [PyStr.find_from].
    destruct (PyStr.startswith sub (String c (pre +:+ sub +:+ post))) eqn:Hstart.
    + assert (sub +:+ post = front +:+ String last post) as Heq
        by (unfold sub; by rewrite append_assoc).
      rewrite Heq in Hstart.
      apply (startswith_app_short sub (String c pre) front) in Hstart.
      * simpl in Hstart. congruence.
      * unfold sub. simpl. clear. induction front as [|x front IH]; simpl; lia.
    + rewrite IH by done. simpl. lia.
Qed.

Lemma drop_add (a b : nat) (s : string) :
  PyStr.drop (a + b) s = PyStr.drop b (PyStr.drop a s).
Proof.
  revert s. induction a as [|a IH]; intros s; simpl; [done|].
  destruct s as [|c s]; [by destruct b | apply IH].
Qed.

End FindFacts.

(** X2. The file name the locator stores is what follows, in the path,
    the first occurrence of the symbol and one more character: for a
    symbol of four characters, the separator, so the name is the rest of
    the path behind the folder of the symbol. When the path does not
    contain the symbol, [find] gives -1 and the name is the path without
    its first four characters. *)
Theorem trimmed_file_name_of_path (simbol path : string) :
  (PyStr.contains simbol path = false ->
   trimmed_file_name simbol path = PyStr.drop 4 path)
  /\ (forall front last pre rest,
        simbol = front +:+ String last EmptyString ->
        path = pre +:+ simbol +:+ rest ->
        PyStr.contains simbol (pre +:+ front) = false ->
        trimmed_file_name simbol path = PyStr.drop 5 (simbol +:+ rest)
        /\ (String.length simbol = 4 ->
            forall sep name,
              rest = String sep name -> trimmed_file_name simbol path = name)).
Proof.
  split.
  - intros H. unfold trimmed_file_name, PyStr.find. by rewrite find_from_absent.
  - intros front last pre rest -> -> Hc.
    assert (trimmed_file_name (front +:+ String last EmptyString)
              (pre +:+ (front +:+ String last EmptyString) +:+ rest)
            = PyStr.drop 5 ((front +:+ String last EmptyString) +:+ rest)) as Heq.
    { unfold trimmed_file_name, PyStr.find. rewrite find_from_first by done.
      replace (Z.to_nat (0 + Z.of_nat (String.length pre) + 5))
        with (String.length pre + 5) by lia.
      by rewrite drop_add, drop_app_length. }
    split; [exact Heq|].
    intros Hlen sep name ->. rewrite Heq.
    change 5 with (4 + 1). rewrite drop_add, <- Hlen, drop_app_length. done.
Qed.

Lemma trimmed_file_name_of_path_witness :
  trimmed_file_name "REXP" "C:\reports\data\raw\\REXP\30062022.pdf" = "30062022.pdf"
  /\ trimmed_file_name "REXP" "C:\reports\30062022.pdf" = "eports\30062022.pdf".
Proof.
  split.
  - apply (trimmed_file_name_of_path "REXP" "C:\reports\data\raw\\REXP\30062022.pdf")
      with (front := "REX") (last := Ascii.ascii_of_nat 80)
           (pre := "C:\reports\data\raw\\") (rest := "\30062022.pdf")
           (sep := Ascii.ascii_of_nat 92); reflexivity.
  - apply (trimmed_file_name_of_path "REXP" "C:\reports\30062022.pdf"). reflexivity.
Defined.

(** ** Extraction Client: the requests of a call *)

(** X3. A call of [llm_data_extraction] that returns has built the
    message of every position of the index list, has sent exactly these
    messages, in that order and each with the given model, output limit
    and system prompt, and has printed nothing. The response of a
    position is the first text block of the reply to its request; the
    blocks after the first are dropped. *)
Theorem llm_data_extraction_requests
    (client : list Request -> Request -> Result (list string))
    (pages : Target) (sys_prompt model_name : string) (max_tokens : Z)
    (w w' : World) (responses : list string) :
  llm_data_extraction client pages sys_prompt model_name max_tokens w
    = (Ok responses, w') ->
  exists messages,
    mapR (build_message pages) (seq 0 (length pages.(tg_index))) = Ok messages
    /\ length messages = length pages.(tg_index)
    /\ w'.(sent) = w.(sent) ++ (request_for sys_prompt model_name max_tokens <$> messages)
    /\ w'.(stdout) = w.(stdout)
    /\ forall n message,
         messages !! n = Some message ->
         exists text blocks,
           responses !! n = Some text
           /\ client (w.(sent)
                      ++ (request_for sys_prompt model_name max_tokens <$> take n messages))
                     (request_for sys_prompt model_name max_tokens message)
              = Ok (text :: blocks).
Proof.
  unfold llm_data_extraction. intros H.
  apply mapM_extract_requests in H as (messages & Hm & Hs & Ho & Hreplies).
  exists messages. split; [done|]. split; [|done].
  apply mapR_length in Hm. by rewrite length_seq in Hm.
Qed.

Lemma llm_data_extraction_requests_witness :
  exists messages,
    length messages = 1
    /\ (llm_data_extraction (Samples.constant_client "{}")
          {| tg_index := [0%Z]; tg_simbol := ["REXP"]; tg_file_name := ["30062022.pdf"];
             tg_target_page := ["Consolidated Income Statements"] |}
          "system" default_model_name default_max_tokens initial_world).2.(sent)
       = request_for "system" default_model_name default_max_tokens <$> messages.
Proof.
  destruct (llm_data_extraction_requests (Samples.constant_client "{}")
              {| tg_index := [0%Z]; tg_simbol := ["REXP"]; tg_file_name := ["30062022.pdf"];
                 tg_target_page := ["Consolidated Income Statements"] |}
              "system" default_model_name default_max_tokens initial_world
              (llm_data_extraction (Samples.constant_client "{}")
                 {| tg_index := [0%Z]; tg_simbol := ["REXP"];
                    tg_file_name := ["30062022.pdf"];
                    tg_target_page := ["Consolidated Income Statements"] |}
                 "system" default_model_name default_max_tokens initial_world).2
              ["{}"])
    as (messages & _ & Hlen & Hsent & _).
  - vm_compute. reflexivity.
  - exists messages. split; [exact Hlen | exact Hsent].
Defined.

(** X4. A call of [llm_data_extraction] that raises stopped at the first
    position that failed: the messages of the positions before it were
    built and sent, the request of the failing position is the last one
    sent (or none was sent for it, when its message could not be built),
    and no position after it was looked at. Nothing is sent twice and
    nothing is printed. The turn fails with what [build_message] or the
    client raised, or with [IndexError] on a reply without blocks. *)
Theorem llm_data_extraction_first_failure
    (client : list Request -> Request -> Result (list string))
    (pages : Target) (sys_prompt model_name : string) (max_tokens : Z)
    (w w' : World) (e : PyError) :
  llm_data_extraction client pages sys_prompt model_name max_tokens w = (Raise e, w') ->
  let request := request_for sys_prompt model_name max_tokens in
  w'.(stdout) = w.(stdout)
  /\ exists index messages,
       index < length pages.(tg_index)
       /\ mapR (build_message pages) (seq 0 index) = Ok messages
       /\ ((build_message pages index = Raise e
            /\ w'.(sent) = w.(sent) ++ (request <$> messages))
           \/ exists message,
                build_message pages index = Ok message
                /\ w'.(sent) = w.(sent) ++ (request <$> (messages ++ [message]))
                /\ (client (w.(sent) ++ (request <$> messages)) (request message) = Raise e
                    \/ (client (w.(sent) ++ (request <$> messages)) (request message) = Ok []
                        /\ e = IndexError))).
Proof.
  unfold llm_data_extraction. intros H. cbv zeta.
  apply mapM_extract_failure in H
    as (Ho & before & index & after & messages & Hsplit & Hm & Hcase).
  split; [done|].
  apply seq_split in Hsplit as (Hbefore & Hindex & Hlt). simpl in Hindex. subst index.
  exists (length before), messages. split; [done|]. split; [by rewrite <- Hbefore|].
  exact Hcase.
Qed.

Lemma llm_data_extraction_first_failure_witness :
  (llm_data_extraction (fun _ _ => Ok [])
     {| tg_index := [0%Z; 1%Z]; tg_simbol := ["REXP"; "REXP"];
        tg_file_name := ["30062022.pdf"; "30092022.pdf"];
        tg_target_page := ["Consolidated Income Statements"; "Consolidated Income Statements"] |}
     "system" default_model_name default_max_tokens initial_world).2.(stdout) = [].
Proof.
  apply (llm_data_extraction_first_failure (fun _ _ => Ok [])
     {| tg_index := [0%Z; 1%Z]; tg_simbol := ["REXP"; "REXP"];
        tg_file_name := ["30062022.pdf"; "30092022.pdf"];
        tg_target_page := ["Consolidated Income Statements"; "Consolidated Income Statements"] |}
     "system" default_model_name default_max_tokens initial_world _ IndexError).
  vm_compute. reflexivity.
Defined.

(** ** Response Parser: when it returns, and what stripping changes *)

(** X5. [parse_llm_extraction_response] returns a list exactly when
    every response, once stripped, is a literal; the list then holds the
    objects of the responses, one for each and in their order, and the
    call has printed nothing and sent nothing. *)
Theorem parse_returns_iff (literal_eval : string -> Result PyObject)
    (responses : list string) (objs : list PyObject) (w w' : World) :
  parse_llm_extraction_response literal_eval responses w = (Ok objs, w')
  <-> w' = w
      /\ Forall2 (fun data obj => literal_eval (strip_fences data) = Ok obj) responses objs.
Proof.
  split; [apply parse_ok_inv|].
  intros [-> Hall]. unfold parse_llm_extraction_response.
  induction Hall as [|data obj responses objs Hdata _ IH]; [done|].
  simpl. unfold bind at 1. rewrite (parse_one_ok _ _ _ Hdata).
  unfold bind at 1. by rewrite IH.
Qed.

Lemma parse_returns_iff_witness :
  parse_llm_extraction_response literal_eval_of_flat
    [fenced "{'Simbol': 'REXP'}"; "{'Revenue': 1}"] initial_world
  = (Ok [Dict {["Simbol" := VStr "REXP"]}; Dict {["Revenue" := VInt 1]}], initial_world).
Proof.
  apply (parse_returns_iff literal_eval_of_flat). split; [reflexivity|].
  repeat constructor; vm_compute; reflexivity.
Defined.

Section StripFacts.

(** Removing a text never makes a text longer. *)
Lemma replace_go_length (old : string) (k : nat) (s : string) :
  String.length (PyStr.replace_go old EmptyString k s) <= String.length s - k.
Proof.
  revert k. induction s as [|c s IH]; intros k; simpl; [lia|].
  destruct k as [|k].
  - destruct (PyStr.startswith old (String c s)).
    + simpl. specialize (IH (String.length old - 1)). lia.
    + simpl. specialize (IH 0). lia.
  - specialize (IH k). lia.
Qed.

(** Removing a text that is there makes the text shorter. *)
Lemma replace_go_shorter (old s : string) :
  old <> EmptyString ->
  PyStr.contains old s = true ->
  String.length (PyStr.replace_go old EmptyString 0 s) < String.length s.
Proof.
  intros Hold. induction s as [|c s IH]; intros Hc.
  - simpl in Hc. destruct old; done.
  - rewrite replace_go_cons. simpl in Hc.
    destruct (PyStr.startswith old (String c s)) eqn:Hs.
    + simpl. pose proof (replace_go_length old (String.length old - 1) s). lia.
    + simpl in Hc. specialize (IH Hc). simpl. lia.
Qed.

Lemma replace_length (old s : string) :
  old <> EmptyString ->
  String.length (PyStr.replace old EmptyString s) <= String.length s
  /\ (PyStr.contains old s = true ->
      String.length (PyStr.replace old EmptyString s) < String.length s).
Proof.
  intros Hold. destruct old as [|a old]; [done|]. unfold PyStr.replace. split.
  - pose proof (replace_go_length (String a old) 0 s). lia.
  - by apply replace_go_shorter.
Qed.

End StripFacts.

(** X6. Stripping never makes a response longer, and it leaves a
    response as it is exactly when the response contains neither three
    backticks in a row nor the letters json: any other response loses
    characters, wherever these tokens stand in it. *)
Theorem strip_fences_unchanged_iff (data : string) :
  String.length (strip_fences data) <= String.length data
  /\ (strip_fences data = data
      <-> PyStr.contains backticks data = false /\ PyStr.contains "json" data = false).
Proof.
  unfold strip_fences.
  destruct (replace_length backticks data) as [Hb1 Hb2]; [done|].
  destruct (replace_length "json" (PyStr.replace backticks EmptyString data))
    as [Hj1 Hj2]; [done|].
  split; [lia|]. split.
  - intros Heq. apply (f_equal String.length) in Heq as Hlen.
    destruct (PyStr.contains backticks data) eqn:Hcb.
    { specialize (Hb2 eq_refl). lia. }
    split; [done|].
    rewrite (replace_absent backticks) in Heq, Hj2 by done.
    destruct (PyStr.contains "json" data) eqn:Hcj; [|done].
    specialize (Hj2 eq_refl). rewrite Heq in Hj2. lia.
  - intros [Hcb Hcj]. rewrite (replace_absent backticks) by done.
    by apply replace_absent.
Qed.

Lemma strip_fences_unchanged_iff_witness :
  strip_fences "{'Revenue': 1}" = "{'Revenue': 1}".
Proof.
  apply (strip_fences_unchanged_iff "{'Revenue': 1}"). split; reflexivity.
Defined.

(** ** Dataset Assembler: the rows of the table, and its failures *)

Section MountShape.

Implicit Types (records : list (gmap string PyValue)).

Lemma table_row_lookup date (record : gmap string PyValue) (k : string) :
  table_row date record !! k
  = if decide (k = "Report Date") then Some (VDate date)
    else if decide (k = "index" \/ k = "level_0") then None
    else record !! k.
Proof.
  unfold table_row. destruct (decide (k = "Report Date")) as [->|Hk].
  - by rewrite lookup_insert_eq.
  - rewrite lookup_insert_ne by done.
    destruct (decide (k = "level_0")) as [->|Hl].
    { rewrite lookup_delete_eq. by rewrite decide_True by by right. }
    rewrite lookup_delete_ne by done.
    destruct (decide (k = "index")) as [->|Hi].
    { rewrite lookup_delete_eq. by rewrite decide_True by by left. }
    rewrite lookup_delete_ne by done.
    rewrite decide_False; [done|]. by intros [?|?].
Qed.

(** A change of every row that does not look at what was zipped in. *)
Lemma fmap_zip_with_forget {A B C} (h : B -> C) (h' : B -> C) (g : A -> B -> B)
    (xs : list A) (ys : list B) :
  (forall x y, h (g x y) = h' y) ->
  length ys <= length xs ->
  h <$> zip_with g xs ys = h' <$> ys.
Proof.
  intros Hg. revert xs. induction ys as [|y ys IH]; intros [|x xs] Hlen;
    simpl in *; try done; try lia.
  rewrite Hg. f_equal. apply IH. lia.
Qed.

Lemma strip_index_insert (name : string) (i : Z) (row : gmap string PyValue) :
  name = "index" \/ name = "level_0" ->
  delete "level_0" (delete "index" (<[name := VInt i]> row))
  = delete "level_0" (delete "index" row).
Proof.
  intros Hname. apply map_eq. intros k.
  destruct (decide (k = "level_0")) as [->|Hl]; [by rewrite !lookup_delete_eq|].
  rewrite !(lookup_delete_ne _ "level_0") by done.
  destruct (decide (k = "index")) as [->|Hi]; [by rewrite !lookup_delete_eq|].
  rewrite !(lookup_delete_ne _ "index") by done.
  rewrite lookup_insert_ne; [done|]. destruct Hname as [->| ->]; done.
Qed.

Lemma rows_of_records (dates : list datetime) records :
  delete "index"
    <$> zip_with (fun v row => <["Report Date" := v]> row) (VDate <$> dates)
          ((fun row => delete "level_0" (delete "index" row)) <$> records)
  = zip_with table_row dates records.
Proof.
  revert records. induction dates as [|date dates IH]; intros [|record records];
    simpl; try done.
  rewrite IH. f_equal. apply map_eq. intros k. rewrite table_row_lookup.
  destruct (decide (k = "index")) as [->|Hi].
  { rewrite lookup_delete_eq. rewrite decide_False by done.
    by rewrite decide_True by by left. }
  rewrite lookup_delete_ne by done.
  destruct (decide (k = "Report Date")) as [->|Hk]; [by rewrite lookup_insert_eq|].
  rewrite lookup_insert_ne by done.
  destruct (decide (k = "level_0")) as [->|Hl].
  { rewrite lookup_delete_eq. by rewrite decide_True by by right. }
  rewrite !lookup_delete_ne by done.
  rewrite decide_False; [done|]. by intros [?|?].
Qed.

(** The table the assembler returns, when it returns one. *)
Lemma mount_dataframe_shape records1 records2 df :
  mount_dataframe records1 records2 = Ok df ->
  exists dates,
    mapR record_date (records1 ++ records2) = Ok dates
    /\ df.(df_rows) ≡ₚ zip_with table_row dates (records1 ++ records2)
    /\ df.(df_index) = range_index (length records1 + length records2)
    /\ df.(df_columns)
       = {["Report Date"]}
         ∪ ((record_columns (records1 ++ records2) ∖ {["index"]}) ∖ {["level_0"]}).
Proof.
  unfold mount_dataframe.
  destruct (reset_index _) as [df0|] eqn:H0; simpl; [|done].
  destruct (drop "index" df0) as [df1|] eqn:H1; simpl; [|done].
  destruct (drop "level_0" df1) as [df2|] eqn:H2; simpl; [|done].
  destruct (column "file_name" df2) as [file_names|] eqn:H3; simpl; [|done].
  destruct (str_accessor file_names) as [[]|] eqn:Hacc; simpl; [|done].
  destruct (mapR report_date_of_cell file_names) as [dates|] eqn:H4; simpl; [|done].
  destruct (reset_index (sort_values _ _)) as [df4|] eqn:H5; simpl; [|done].
  intros H6.
  apply reset_index_Ok in H0 as (name & Hname & ->). simpl in Hname.
  apply drop_Ok in H1 as [Hin1 ->]. apply drop_Ok in H2 as [Hin2 ->].
  apply column_Ok in H3 as [Hin3 ->]. simpl in *.
  apply reset_index_Ok in H5 as (name' & Hname' & ->).
  apply drop_Ok in H6 as [Hin6 ->]. simpl in *.
  rewrite record_columns_app. unfold record_columns.
  set (cols := ⋃ (dom <$> records1) ∪ ⋃ (dom <$> records2)) in *. clearbody cols.
  rewrite <- length_app.
  set (records := records1 ++ records2) in *.
  set (idx := range_index (length records1) ++ range_index (length records2)) in *.
  assert (Hlen : length idx = length records).
  { unfold idx, records. by rewrite !length_app, !length_range_index. }
  clearbody idx. clearbody records.
  assert (Hname1 : name = "index" \/ name = "level_0").
  { destruct Hname as [[-> _]|[-> _]]; [by left | by right]. }
  assert (Hname2 : name' = "index").
  { destruct Hname' as [[-> _]|(_ & Hi & _)]; [done|]. exfalso.
    apply elem_of_union in Hi as [Hi|Hi]; [by apply elem_of_singleton in Hi|].
    apply elem_of_difference in Hi as [Hi _]. apply elem_of_difference in Hi as [_ Hi].
    by apply Hi, elem_of_singleton. }
  subst name'. clear Hacc.
  rewrite <- (list_fmap_compose (delete "index") (delete "level_0")) in *.
  rewrite (fmap_zip_with_forget (delete "level_0" ∘ delete "index")
             (fun row => delete "level_0" (delete "index" row))) in *;
    [|by intros; apply strip_index_insert|lia|by intros; apply strip_index_insert|lia].
  rewrite <- list_fmap_compose, mapR_fmap in H4.
  rewrite (mapR_ext _ record_date) in H4.
  2:{ intros row. unfold record_date. simpl. by rewrite !lookup_delete_ne. }
  pose proof (mapR_length _ _ _ H4) as Hdates.
  exists dates. split; [exact H4|].
  set (rows3 := zip_with (fun v row => <["Report Date" := v]> row) (VDate <$> dates)
                  ((fun row => delete "level_0" (delete "index" row)) <$> records)).
  assert (Hrows3 : length rows3 = length records).
  { unfold rows3. rewrite length_zip_with, !length_fmap. lia. }
  set (sorted := merge_sort (row_le "Report Date")
                   (zip (range_index (length records)) rows3)).
  assert (Hsorted : sorted ≡ₚ zip (range_index (length records)) rows3)
    by apply merge_sort_Permutation.
  assert (Hsorted2 : sorted.*2 ≡ₚ rows3).
  { rewrite Hsorted, snd_zip; [done|]. rewrite length_range_index. lia. }
  split; [|split].
  - rewrite zip_with_fst_snd.
    assert (Heq : forall l : list (Z * gmap string PyValue),
               delete "index"
                 <$> (uncurry (fun (i : Z) (row : gmap string PyValue) =>
                                 <["index" := VInt i]> row) <$> l)
               = delete "index" <$> l.*2).
    { intros l. rewrite <- !list_fmap_compose. apply list_fmap_ext.
      intros _ [i row] _. simpl. apply delete_insert_eq. }
    rewrite Heq, Hsorted2. unfold rows3.
    by rewrite rows_of_records.
  - f_equal. rewrite length_fmap. apply Permutation_length in Hsorted2.
    rewrite length_fmap in Hsorted2. lia.
  - apply set_eq. intros k.
    rewrite !elem_of_difference, !elem_of_union, !elem_of_difference, !elem_of_union,
      !elem_of_singleton.
    clear -Hname1. destruct Hname1 as [-> | ->]; intuition congruence.
Qed.

End MountShape.

(** The date and the texts of the row made of a record. *)
Lemma held_table_row date (record : gmap string PyValue) :
  held (table_row date record)
  = (Some (VDate date),
     texts (delete "Report Date" (delete "level_0" (delete "index" record)))).
Proof.
  unfold held, table_row, texts. rewrite lookup_insert_eq. f_equal.
  apply map_eq. intros k. rewrite !lookup_omap.
  destruct (decide (k = "Report Date")) as [->|Hk].
  - by rewrite lookup_insert_eq, lookup_delete_eq.
  - by rewrite lookup_insert_ne, (lookup_delete_ne _ "Report Date") by done.
Qed.

Lemma fmap_zip_with_compose {A B C D} (h : C -> D) (g : A -> B -> C)
    (xs : list A) (ys : list B) :
  h <$> zip_with g xs ys = zip_with (fun x y => h (g x y)) xs ys.
Proof.
  revert ys. induction xs as [|x xs IH]; intros [|y ys]; simpl; try done.
  by rewrite IH.
Qed.

(** A column the accessor refuses. *)
Lemma str_accessor_refused cells :
  refused cells ->
  str_accessor cells = Raise (AttributeError "Can only use .str accessor with string values!").
Proof.
  intros (kind & Hkind & Hex & Hall). unfold str_accessor. cbv zeta.
  set (present := filter (fun c => is_null_cell c = false) cells).
  rewrite Forall_forall in Hall.
  assert (Hkinds : forall c, kind c = true ->
                             is_text_cell c = false /\ is_null_cell c = false).
  { intros c Hc.
    repeat (apply elem_of_cons in Hkind as [->|Hkind]);
      [..|by apply elem_of_nil in Hkind]; by destruct c as [[]|]. }
  assert (Htext : existsb is_text_cell cells = false).
  { apply not_true_is_false. intros H. apply existsb_exists in H as (c & Hin & Hc).
    apply list_elem_of_In in Hin. destruct (Hall c Hin) as [Hk|Hn].
    - destruct (Hkinds c Hk). congruence.
    - by destruct c as [[]|]. }
  assert (Hne : present <> []).
  { apply Exists_exists in Hex as (c & Hin & Hc). intros Hnil.
    assert (c ∈ present) as Hp.
    { apply list_elem_of_filter. split; [by apply Hkinds | done]. }
    rewrite Hnil in Hp. by apply elem_of_nil in Hp. }
  assert (Hpresent : forallb kind present = true).
  { apply forallb_forall. intros c Hin. apply list_elem_of_In in Hin.
    apply list_elem_of_filter in Hin as [Hnn Hin].
    destruct (Hall c Hin) as [Hk|Hn]; [done | congruence]. }
  rewrite Htext. rewrite bool_decide_eq_false_2 by done. simpl.
  repeat (apply elem_of_cons in Hkind as [->|Hkind]);
    [..|by apply elem_of_nil in Hkind]; by rewrite Hpresent, ?orb_true_r.
Qed.

(** X7. The table the assembler returns follows the parsed records, all
    of them and nothing else: its rows are, up to their order, one for
    each record of the two lists, with the report date of the record
    under Report Date and the texts of the record, those under index,
    level_0 and Report Date apart, as they are. So it has one row per
    record, duplicates included, a fresh index 0, 1, ..., and the
    columns of the records without index and level_0, with Report
    Date. *)
Theorem mounted_rows_follow_the_records
    (parsed_dipd_data parsed_rexp_data : list (gmap string PyValue)) (df : DataFrame) :
  mount_dataframe parsed_dipd_data parsed_rexp_data = Ok df ->
  exists dates,
    mapR record_date (parsed_dipd_data ++ parsed_rexp_data) = Ok dates
    /\ held <$> df.(df_rows)
       ≡ₚ zip_with
            (fun date record =>
               (Some (VDate date),
                texts (delete "Report Date" (delete "level_0" (delete "index" record)))))
            dates (parsed_dipd_data ++ parsed_rexp_data)
    /\ length df.(df_rows) = length parsed_dipd_data + length parsed_rexp_data
    /\ df.(df_index) = range_index (length parsed_dipd_data + length parsed_rexp_data)
    /\ df.(df_columns)
       = {["Report Date"]}
         ∪ ((record_columns (parsed_dipd_data ++ parsed_rexp_data) ∖ {["index"]})
            ∖ {["level_0"]})
    /\ forall row,
         row ∈ df.(df_rows) ->
         row !! "index" = None /\ row !! "level_0" = None
         /\ exists date, row !! "Report Date" = Some (VDate date).
Proof.
  intros H. apply mount_dataframe_shape in H as (dates & Hdates & Hrows & Hindex & Hcols).
  exists dates. split; [exact Hdates|]. split.
  { rewrite Hrows, fmap_zip_with_compose.
    erewrite zip_with_ext; [reflexivity| |done|done].
    intros date record. apply held_table_row. }
  pose proof (mapR_length _ _ _ Hdates) as Hlen.
  split.
  { rewrite Hrows, length_zip_with, Hlen, length_app. lia. }
  split; [exact Hindex|]. split; [exact Hcols|].
  intros row Hrow. rewrite Hrows in Hrow.
  apply elem_of_lookup_zip_with in Hrow as (i & date & record & -> & _ & _).
  rewrite !table_row_lookup. split; [|split].
  - rewrite decide_False by done. by rewrite decide_True by by left.
  - rewrite decide_False by done. by rewrite decide_True by by right.
  - exists date. by rewrite decide_True.
Qed.

Lemma mounted_rows_follow_the_records_witness :
  exists df,
    mount_dataframe Samples.dipd_records Samples.rexp_records = Ok df
    /\ length df.(df_rows) = 3.
Proof.
  exists (match mount_dataframe Samples.dipd_records Samples.rexp_records with
          | Ok df => df
          | Raise _ => DataFrame_of_records []
          end).
  split; [vm_compute; reflexivity|].
  destruct (mounted_rows_follow_the_records Samples.dipd_records Samples.rexp_records
              (match mount_dataframe Samples.dipd_records Samples.rexp_records with
               | Ok df => df
               | Raise _ => DataFrame_of_records []
               end))
    as (dates & _ & _ & Hlen & _).
  - vm_compute. reflexivity.
  - exact Hlen.
Defined.

(** X8. When the assembler builds no table. Records that carry neither
    a key index nor a key level_0 (so also two empty lists) end in
    [KeyError] for level_0, at the second [drop]; records that carry
    both end in the [ValueError] of [reset_index]. With exactly one of
    the two keys, records without any file_name end in [KeyError] for
    file_name; file names that are, as far as they are there, all
    numbers, all booleans or all dates end in the [AttributeError] of
    the string accessor, before any of them is read; and when some file
    name is a text, the first record, DIPD records first, whose file
    name gives no date decides the exception, a [TypeError] if it is
    not a text and the error of [strptime] if it is. *)
Theorem mount_dataframe_failures
    (parsed_dipd_data parsed_rexp_data : list (gmap string PyValue)) :
  let records := parsed_dipd_data ++ parsed_rexp_data in
  let columns := record_columns records in
  let file_names := (fun record => record !! "file_name") <$> records in
  let result := mount_dataframe parsed_dipd_data parsed_rexp_data in
  ("index" ∉ columns -> "level_0" ∉ columns -> result = Raise (KeyError "level_0"))
  /\ ("index" ∈ columns -> "level_0" ∈ columns ->
      result = Raise (ValueError "cannot insert level_0, already exists"))
  /\ (index_droppable columns -> "file_name" ∉ columns ->
      result = Raise (KeyError "file_name"))
  /\ (index_droppable columns -> refused file_names ->
      result
      = Raise (AttributeError "Can only use .str accessor with string values!"))
  /\ (index_droppable columns ->
      Exists (fun cell => is_text_cell cell = true) file_names ->
      forall e,
        mapR record_date records = Raise e ->
        result = Raise e
        /\ exists before record after,
             records = before ++ record :: after
             /\ Forall derivable before
             /\ record_date record = Raise e).
Proof.
  intros records columns file_names result. unfold result, mount_dataframe.
  set (base := concat (DataFrame_of_records parsed_dipd_data)
                      (DataFrame_of_records parsed_rexp_data)).
  assert (Hcols : base.(df_columns) = columns)
    by (unfold columns, records; by rewrite record_columns_app).
  assert (Hrows : base.(df_rows) = records) by done.
  assert (Hbidx : length base.(df_index) = length records).
  { simpl. unfold records. by rewrite !length_app, !length_range_index. }
  clearbody base.
  assert (Hfile_in : Exists (fun cell => is_null_cell cell = false) file_names ->
                     "file_name" ∈ columns).
  { intros H. apply Exists_exists in H as (cell & Hin & Hcell).
    unfold file_names in Hin. apply list_elem_of_fmap in Hin as (record & -> & Hin).
    apply elem_of_record_columns. exists record. split; [done|].
    apply elem_of_dom. by destruct (record !! "file_name"). }
  clearbody columns.
  assert (Hdroppable : index_droppable columns ->
            exists name,
              (name = "index" \/ name = "level_0")
              /\ "index" ∈ ({[name]} ∪ columns : gset string)
              /\ "level_0" ∈ (({[name]} ∪ columns) ∖ {["index"]} : gset string)
              /\ reset_index base
                 = Ok {| df_columns := {[ name ]} ∪ columns;
                         df_index := range_index (length base.(df_rows));
                         df_rows := zip_with (fun i row => <[name := VInt i]> row)
                                             base.(df_index) base.(df_rows) |}).
  { intros Hidx. unfold reset_index. cbv zeta. rewrite Hcols.
    destruct Hidx as [[Hi Hl]|[Hi Hl]].
    - exists "level_0".
      destruct (decide ("index" ∈ columns)) as [_|?]; [|done].
      destruct (decide ("level_0" ∈ columns)) as [?|_]; [done|].
      split; [by right|]. split; [by apply elem_of_union_r|]. split; [|done].
      apply elem_of_difference. split; [|by rewrite elem_of_singleton].
      by apply elem_of_union_l, elem_of_singleton.
    - exists "index".
      destruct (decide ("index" ∈ columns)) as [?|_]; [done|].
      destruct (decide ("index" ∈ columns)) as [?|_]; [done|].
      split; [by left|]. split; [by apply elem_of_union_l, elem_of_singleton|].
      split; [|done].
      apply elem_of_difference. split; [|by rewrite elem_of_singleton].
      by apply elem_of_union_r. }
  split; [|split; [|split; [|split]]].
  - intros Hi Hl. unfold reset_index. cbv zeta. rewrite Hcols.
    destruct (decide ("index" ∈ columns)) as [?|_]; [done|].
    destruct (decide ("index" ∈ columns)) as [?|_]; [done|]. simpl.
    rewrite drop_in by (by apply elem_of_union_l, elem_of_singleton). simpl.
    unfold drop. simpl. rewrite decide_False; [done|].
    intros H. apply elem_of_difference in H as [H _].
    apply elem_of_union in H as [H|H]; [by apply elem_of_singleton in H | done].
  - intros Hi Hl. unfold reset_index. cbv zeta. rewrite Hcols.
    destruct (decide ("index" ∈ columns)) as [_|?]; [|done].
    by destruct (decide ("level_0" ∈ columns)) as [_|?].
  - intros Hidx Hfile. destruct (Hdroppable Hidx) as (name & Hname & Hin1 & Hin2 & ->).
    simpl. rewrite drop_in by done. simpl. rewrite drop_in by done. simpl.
    unfold column. simpl. rewrite decide_False; [done|].
    intros H. apply elem_of_difference in H as [H _].
    apply elem_of_difference in H as [H _].
    apply elem_of_union in H as [H|H]; [|done].
    apply elem_of_singleton in H. destruct Hname as [-> | ->]; done.
  - intros Hidx Hrefused.
    assert (Hfile : "file_name" ∈ columns).
    { apply Hfile_in. destruct Hrefused as (kind & Hkind & Hex & _).
      eapply Exists_impl; [exact Hex|]. intros cell Hcell. simpl in Hcell.
      repeat (apply elem_of_cons in Hkind as [->|Hkind]);
        [..|by apply elem_of_nil in Hkind]; by destruct cell as [[]|]. }
    destruct (Hdroppable Hidx) as (name & Hname & Hin1 & Hin2 & ->).
    simpl. rewrite drop_in by done. simpl. rewrite drop_in by done. simpl.
    unfold column. simpl. rewrite decide_True.
    2:{ apply elem_of_difference. split; [|by rewrite elem_of_singleton].
        apply elem_of_difference. split; [|by rewrite elem_of_singleton].
        by apply elem_of_union_r. }
    simpl. rewrite Hrows.
    rewrite <- (list_fmap_compose (delete "index") (delete "level_0")).
    rewrite (fmap_lookup_zip_with (delete "level_0" ∘ delete "index")).
    2:{ intros i row. simpl. rewrite !lookup_delete_ne by done.
        destruct Hname as [-> | ->]; by rewrite lookup_insert_ne. }
    2:{ lia. }
    by rewrite str_accessor_refused.
  - intros Hidx Htext e He. split.
    + assert (Hfile : "file_name" ∈ columns).
      { apply Hfile_in. eapply Exists_impl; [exact Htext|].
        intros cell Hcell. simpl in Hcell. by destruct cell as [[]|]. }
      destruct (Hdroppable Hidx) as (name & Hname & Hin1 & Hin2 & ->).
      simpl. rewrite drop_in by done. simpl. rewrite drop_in by done. simpl.
      unfold column. simpl. rewrite decide_True.
      2:{ apply elem_of_difference. split; [|by rewrite elem_of_singleton].
          apply elem_of_difference. split; [|by rewrite elem_of_singleton].
          by apply elem_of_union_r. }
      simpl. rewrite Hrows.
      rewrite <- (list_fmap_compose (delete "index") (delete "level_0")).
      rewrite (fmap_lookup_zip_with (delete "level_0" ∘ delete "index")).
      2:{ intros i row. simpl. rewrite !lookup_delete_ne by done.
          destruct Hname as [-> | ->]; by rewrite lookup_insert_ne. }
      2:{ lia. }
      rewrite str_accessor_text.
      2:{ apply existsb_exists. apply Exists_exists in Htext as (cell & Hin & Hcell).
          exists cell. split; [by apply list_elem_of_In | done]. }
      simpl. rewrite mapR_fmap. fold record_date. by rewrite He.
    + clear -He. induction records as [|record records' IH]; simpl in He; [done|].
      destruct (record_date record) as [date|e'] eqn:Hrecord; simpl in He.
      * destruct (mapR record_date records') as [dates|e'] eqn:Hrest; [done|].
        simpl in He. injection He as <-.
        destruct IH as (before & r & after & -> & Hbefore & Hr); [done|].
        exists (record :: before), r, after. split; [done|]. split; [|done].
        constructor; [by exists date | done].
      * injection He as <-. exists [], record, records'. by split; [|split].
Qed.

Lemma mount_dataframe_failures_witness :
  mount_dataframe [] [] = Raise (KeyError "level_0")
  /\ mount_dataframe [ {["index" := VInt 0]} ] [] = Raise (KeyError "file_name")
  /\ mount_dataframe [ <["file_name" := VInt 30062022]> {["index" := VInt 0]} ] []
     = Raise (AttributeError "Can only use .str accessor with string values!")
  /\ exists e,
       mount_dataframe [ Samples.financial_record 0 "DIPD" "31032023.pdf" 1 ]
         [ Samples.financial_record 0 "REXP" "2022-06-30.pdf" 2 ] = Raise e.
Proof.
  split; [|split; [|split]].
  - destruct (mount_dataframe_failures [] []) as (H & _).
    apply H; apply (bool_decide_unpack _); vm_compute; exact I.
  - destruct (mount_dataframe_failures [ {["index" := VInt 0]} ] []) as (_ & _ & H & _).
    apply H; apply (bool_decide_unpack _); vm_compute; exact I.
  - destruct (mount_dataframe_failures
                [ <["file_name" := VInt 30062022]> {["index" := VInt 0]} ] [])
      as (_ & _ & _ & H & _).
    apply H.
    + apply (bool_decide_unpack _). vm_compute. exact I.
    + exists is_number_cell. split; [by left|]. split; [by left|].
      repeat constructor.
  - destruct (mount_dataframe_failures
                [ Samples.financial_record 0 "DIPD" "31032023.pdf" 1 ]
                [ Samples.financial_record 0 "REXP" "2022-06-30.pdf" 2 ])
      as (_ & _ & _ & _ & H).
    eexists. eapply H.
    + apply (bool_decide_unpack _). vm_compute. exact I.
    + by left.
    + vm_compute. reflexivity.
Defined.

(** ** The run as a whole: folders, requests and rows *)

(** A run with a missing folder raises the listing error after its
    first line. *)
Lemma run_listing_error
    (raw_data : string -> Result (list (list File)))
    (client : list Request -> Request -> Result (list string))
    (literal_eval : string -> Result PyObject) (SYS_EXTRACTION_PROMPT : string)
    (w : World) :
  missing_folder raw_data ->
  run raw_data client literal_eval SYS_EXTRACTION_PROMPT w
  = (Raise listing_error,
     {| sent := w.(sent);
        stdout := w.(stdout) ++ [Stamped "Extracting statement pages from pdf files..."] |}).
Proof.
  intros Hmissing. unfold run, bind, lift, print. simpl.
  destruct Hmissing as [Hrexp|[[files_rexp Hrexp] Hdipd]].
  - by rewrite (extract_pl_pages_missing _ _ Hrexp).
  - destruct (extract_pl_pages_total raw_data "REXP" files_rexp Hrexp) as [target ->];
      [by eexists|].
    by rewrite (extract_pl_pages_missing _ _ Hdipd).
Qed.

(** X9. A run that comes to a missing folder, that of REXP, or that of
    DIPD once the reports of REXP are listed and read, stops with the
    listing error before anything is sent: it has printed its first
    line only, and made no request, even when the other folder is
    there with its reports. *)
Theorem run_missing_folder
    (raw_data : string -> Result (list (list File)))
    (client : list Request -> Request -> Result (list string))
    (literal_eval : string -> Result PyObject) (SYS_EXTRACTION_PROMPT : string)
    (w : World) :
  missing_folder raw_data ->
  exists w',
    run raw_data client literal_eval SYS_EXTRACTION_PROMPT w = (Raise listing_error, w')
    /\ w'.(sent) = w.(sent)
    /\ w'.(stdout)
       = w.(stdout) ++ [Stamped "Extracting statement pages from pdf files..."].
Proof.
  intros Hmissing. eexists. split; [by apply run_listing_error|]. by split.
Qed.

Lemma run_missing_folder_witness :
  exists w',
    run (Samples.rexp_only [Samples.one_marker_page]) (Samples.constant_client "{}")
      literal_eval_of_flat "system" initial_world = (Raise listing_error, w')
    /\ w'.(sent) = [].
Proof.
  destruct (run_missing_folder (Samples.rexp_only [Samples.one_marker_page])
              (Samples.constant_client "{}") literal_eval_of_flat "system" initial_world)
    as (w' & Hrun & Hsent & _).
  - right. split; [|reflexivity]. by exists [Samples.one_marker_page].
  - exists w'. split; [exact Hrun | exact Hsent].
Defined.

(** X10. A run that builds its table has listed both folders and opened
    every report, has sent
    one request per report, those of DIPD first and then those of REXP,
    all with the system prompt, the default model and the default output
    limit, and has built a table with one row per report, however many
    pages of a report carry the marker. It has printed its four
    progress lines and nothing else. *)
Theorem run_one_row_per_report
    (raw_data : string -> Result (list (list File)))
    (client : list Request -> Request -> Result (list string))
    (literal_eval : string -> Result PyObject) (SYS_EXTRACTION_PROMPT : string)
    (w w' : World) (df : DataFrame) :
  run raw_data client literal_eval SYS_EXTRACTION_PROMPT w = (Ok df, w') ->
  exists files_rexp files_dipd messages_dipd messages_rexp,
    list_all_files raw_data "REXP" = Ok (readable <$> files_rexp)
    /\ list_all_files raw_data "DIPD" = Ok (readable <$> files_dipd)
    /\ length messages_dipd = length files_dipd
    /\ length messages_rexp = length files_rexp
    /\ w'.(sent)
       = w.(sent)
         ++ (request_for SYS_EXTRACTION_PROMPT default_model_name default_max_tokens
               <$> (messages_dipd ++ messages_rexp))
    /\ length df.(df_rows) = length files_dipd + length files_rexp
    /\ w'.(stdout)
       = w.(stdout)
         ++ [ Stamped "Extracting statement pages from pdf files...";
              Stamped "Extracting data from statement pages...";
              Stamped "Ensure correct data format...";
              Stamped "Mounting Dataframe..." ].
Proof.
  unfold run, bind, lift, print. simpl.
  destruct (extract_pl_pages raw_data "REXP") as [pl_pages_rexp|] eqn:Hpr; [|done].
  destruct (extract_pl_pages raw_data "DIPD") as [pl_pages_dipd|] eqn:Hpd; [|done].
  simpl.
  destruct (llm_data_extraction client pl_pages_dipd _ _ _ _)
    as [[responses_dipd|] w1] eqn:Hd; [|done].
  destruct (llm_data_extraction client pl_pages_rexp _ _ _ w1)
    as [[responses_rexp|] w2] eqn:Hr; [|done].
  destruct (parse_llm_extraction_response literal_eval responses_dipd _)
    as [[parsed_dipd|] w3] eqn:Hqd; [|done].
  destruct (parse_llm_extraction_response literal_eval responses_rexp _)
    as [[parsed_rexp|] w4] eqn:Hqr; [|done].
  apply parse_ok_inv in Hqd as [-> Hqd]. apply parse_ok_inv in Hqr as [-> Hqr].
  apply Forall2_length in Hqd, Hqr.
  pose proof (llm_data_extraction_ok _ _ _ _ _ _ _ _ Hd) as [Hld _].
  pose proof (llm_data_extraction_ok _ _ _ _ _ _ _ _ Hr) as [Hlr _].
  unfold llm_data_extraction in Hd, Hr.
  apply mapM_extract_requests in Hd as (messages_dipd & Hmd & Hsd & Hod & _).
  apply mapM_extract_requests in Hr as (messages_rexp & Hmr & Hsr & Hor & _).
  apply mapR_length in Hmd, Hmr. rewrite length_seq in Hmd, Hmr.
  simpl in *.
  destruct (mapR as_record parsed_dipd) as [dipd|] eqn:Had; [|done].
  destruct (mapR as_record parsed_rexp) as [rexp|] eqn:Har; [|done].
  apply mapR_length in Had, Har.
  destruct (mount_dataframe dipd rexp) as [table|] eqn:Hmount; [|done].
  intros [= <- <-]. simpl.
  destruct (extract_pl_pages_Ok_readable _ _ _ Hpr) as [files_rexp Hfr].
  destruct (extract_pl_pages_Ok_readable _ _ _ Hpd) as [files_dipd Hfd].
  pose proof (extract_pl_pages_ok raw_data "REXP" files_rexp _ Hfr Hpr) as ->.
  pose proof (extract_pl_pages_ok raw_data "DIPD" files_dipd _ Hfd Hpd) as ->.
  simpl in *. rewrite length_range_index in *.
  exists files_rexp, files_dipd, messages_dipd, messages_rexp.
  split; [done|]. split; [done|]. split; [done|]. split; [done|].
  split; [by rewrite Hsr, Hsd, fmap_app, app_assoc|].
  split.
  - apply mount_dataframe_shape in Hmount as (dates & Hdates & Hrows & _).
    apply mapR_length in Hdates.
    rewrite Hrows, length_zip_with, Hdates, length_app. lia.
  - rewrite Hor, Hod, <- !app_assoc. done.
Qed.

Lemma run_one_row_per_report_witness :
  exists df w',
    run one_report_each
        (Samples.constant_client "{'index': 0, 'file_name': '30062022.pdf'}")
        literal_eval_of_flat "system" initial_world = (Ok df, w')
    /\ length df.(df_rows) = 2 /\ length w'.(sent) = 2.
Proof.
  destruct (run one_report_each
              (Samples.constant_client "{'index': 0, 'file_name': '30062022.pdf'}")
              literal_eval_of_flat "system" initial_world) as [[df|e] w'] eqn:Hrun.
  - exists df, w'. split; [reflexivity|].
    destruct (run_one_row_per_report _ _ _ _ _ _ _ Hrun)
      as (files_rexp & files_dipd & messages_dipd & messages_rexp
          & Hfr & Hfd & Hmd & Hmr & Hsent & Hrows & _).
    assert (Hn : length files_rexp = 1 /\ length files_dipd = 1).
    { apply (f_equal (fun r => match r with Ok fs => length fs | Raise _ => 0 end))
        in Hfr, Hfd.
      cbv beta iota in Hfr, Hfd. rewrite length_fmap in Hfr, Hfd.
      split; [rewrite <- Hfr | rewrite <- Hfd]; vm_compute; reflexivity. }
    destruct Hn as [Hn1 Hn2]. rewrite Hn1, Hn2 in *.
    split; [exact Hrows|].
    rewrite Hsent, length_app, length_fmap, length_app, Hmd, Hmr. reflexivity.
  - exfalso. vm_compute in Hrun. discriminate Hrun.
Defined.

(** ** Dataset Validator: one company is enough *)

Section ValidatorCompanies.

Lemma column_with_simbol simbol label df :
  label <> "Simbol" -> column label (with_simbol simbol df) = column label df.
Proof.
  intros Hne. unfold column, with_simbol. simpl.
  destruct (decide (label ∈ df_columns df)); [|done]. f_equal.
  rewrite <- list_fmap_compose. apply list_fmap_ext. intros _ row _. simpl.
  by rewrite lookup_insert_ne.
Qed.

Lemma first_not_numeric_with_simbol simbol df cols :
  "Simbol" ∉ cols ->
  first_not_numeric (with_simbol simbol df) cols = first_not_numeric df cols.
Proof.
  induction cols as [|col cols IH]; intros Hnot; simpl; [done|].
  apply not_elem_of_cons in Hnot as [Hne Hnot].
  rewrite column_with_simbol by done. destruct (column col df); simpl; [|done].
  destruct (is_numeric_dtype a) as [[]|]; simpl; [by apply IH | done | done].
Qed.

End ValidatorCompanies.

(** X11. The validator does not ask for both companies. It checks that
    no symbol other than REXP and DIPD occurs, not that each of them
    does: a table that passes still passes when every row is put under
    one and the same of the two symbols. *)
Theorem validator_accepts_one_company
    (to_datetime : list (option PyValue) -> bool) (df : DataFrame) (simbol : string) :
  simbol ∈ ["REXP"; "DIPD"] ->
  validate_table to_datetime df = Ok (true, None) ->
  validate_table to_datetime (with_simbol simbol df) = Ok (true, None).
Proof.
  intros Hsimbol H. unfold validate_table in *.
  assert (Hlen : length (df_rows (with_simbol simbol df)) = length (df_rows df))
    by (simpl; by rewrite length_fmap).
  rewrite Hlen. change (df_columns (with_simbol simbol df)) with (df_columns df).
  destruct (decide (length (df_rows df) = 0)); [done|].
  destruct (decide (required_columns ∖ df_columns df ≠ ∅)); [done|].
  destruct (column "Simbol" df) as [simbols|] eqn:Hcol; [|done].
  apply column_Ok in Hcol as [Hin _].
  assert (column "Simbol" (with_simbol simbol df)
          = Ok (replicate (length (df_rows df)) (Some (VStr simbol)))) as ->.
  { unfold column, with_simbol. simpl. rewrite decide_True by done. f_equal.
    generalize (df_rows df). intros rows. induction rows as [|row rows IH]; [done|].
    rewrite !fmap_cons, IH, lookup_insert_eq. done. }
  cbn -[first_not_numeric] in *.
  destruct (decide (Forall _ simbols)); [|done].
  rewrite decide_True.
  2:{ apply Forall_replicate. unfold valid_companies.
      apply elem_of_cons in Hsimbol as [->|Hsimbol]; [by left|].
      apply elem_of_cons in Hsimbol as [->|Hsimbol]; [by right; left|].
      by apply elem_of_nil in Hsimbol. }
  rewrite first_not_numeric_with_simbol.
  2:{ unfold numeric_columns. intros Hin'.
      repeat (apply elem_of_cons in Hin' as [?|Hin']; [done|]).
      by apply elem_of_nil in Hin'. }
  destruct (first_not_numeric df numeric_columns) as [[col|]|];
    cbn -[first_not_numeric] in *; try done.
  rewrite column_with_simbol by done. exact H.
Qed.

Lemma validator_accepts_one_company_witness :
  validate_table Samples.any_date (with_simbol "REXP" Samples.good_table) = Ok (true, None).
Proof.
  apply (validator_accepts_one_company Samples.any_date Samples.good_table "REXP").
  - by left.
  - vm_compute. reflexivity.
Defined.

(** ** The application *)

Section CaseFacts.

Lemma upper_char_cases (c : Ascii.ascii) (u : string) :
  upper_char c = Some u ->
  u = "SS" \/ exists d, u = String d EmptyString.
Proof.
  unfold upper_char. repeat case_bool_decide; intros [= <-]; eauto.
Qed.

(** Only a capital letter and its small letter have that capital. *)
Lemma upper_char_letter (c d : Ascii.ascii) :
  upper_char c = Some (String d EmptyString) ->
  (65 <= Ascii.nat_of_ascii d <= 90)%nat ->
  c = d \/ c = Ascii.ascii_of_nat (Ascii.nat_of_ascii d + 32).
Proof.
  unfold upper_char. intros H Hd.
  repeat case_bool_decide; try discriminate; injection H as <-.
  - right. rewrite Ascii.nat_ascii_embedding by lia.
    replace (Ascii.nat_of_ascii c - 32 + 32) with (Ascii.nat_of_ascii c) by lia.
    by rewrite Ascii.ascii_nat_embedding.
  - rewrite Ascii.nat_ascii_embedding in Hd by lia. lia.
  - by left.
Qed.

Lemma upper_nil (s : string) : upper s = Some EmptyString -> s = EmptyString.
Proof.
  destruct s as [|c s]; [done|]. simpl.
  destruct (upper_char c) as [u|] eqn:Hc; [|done].
  destruct (upper s) as [rest|]; [|done].
  apply upper_char_cases in Hc as [->|[d ->]]; done.
Qed.

Lemma upper_cons (s : string) (d : Ascii.ascii) (t : string) :
  upper s = Some (String d t) ->
  (65 <= Ascii.nat_of_ascii d <= 90)%nat ->
  (forall t', String d t <> "SS" +:+ t') ->
  exists c s',
    s = String c s'
    /\ (c = d \/ c = Ascii.ascii_of_nat (Ascii.nat_of_ascii d + 32))
    /\ upper s' = Some t.
Proof.
  destruct s as [|c s]; [done|]. simpl. intros H Hd Hss.
  destruct (upper_char c) as [u|] eqn:Hc; [|done].
  destruct (upper s) as [rest|] eqn:Hs; [|done].
  injection H as H.
  destruct (upper_char_cases _ _ Hc) as [->|[d' ->]].
  - exfalso. exact (Hss rest (eq_sym H)).
  - simpl in H. injection H as -> ->. exists c, s. split; [done|]. split; [|done].
    by apply upper_char_letter.
Qed.

(** The texts that [upper] makes Y or YES, and those it makes N or NO. *)
Lemma upper_yes (s : string) :
  upper s ∈ [Some "Y"; Some "YES"]
  <-> s ∈ ["Y"; "y"; "YES"; "YEs"; "YeS"; "Yes"; "yES"; "yEs"; "yeS"; "yes"].
Proof.
  split.
  - intros H. apply elem_of_cons in H as [H|H];
      [|apply elem_of_cons in H as [H|H]; [|by apply elem_of_nil in H]].
    + apply upper_cons in H as (c1 & s1 & -> & Hc1 & H); [|by split; apply Nat.leb_le|done].
      apply upper_nil in H as ->.
      destruct Hc1 as [-> | ->]; apply (bool_decide_unpack _); vm_compute; exact I.
    + apply upper_cons in H as (c1 & s1 & -> & Hc1 & H); [|by split; apply Nat.leb_le|done].
      apply upper_cons in H as (c2 & s2 & -> & Hc2 & H); [|by split; apply Nat.leb_le|done].
      apply upper_cons in H as (c3 & s3 & -> & Hc3 & H); [|by split; apply Nat.leb_le|done].
      apply upper_nil in H as ->.
      destruct Hc1 as [-> | ->], Hc2 as [-> | ->], Hc3 as [-> | ->];
        apply (bool_decide_unpack _); vm_compute; exact I.
  - intros H.
    repeat (apply elem_of_cons in H as [->|H];
            [apply (bool_decide_unpack _); vm_compute; exact I|]).
    by apply elem_of_nil in H.
Qed.

Lemma upper_no (s : string) :
  upper s ∈ [Some "N"; Some "NO"] <-> s ∈ ["N"; "n"; "NO"; "No"; "nO"; "no"].
Proof.
  split.
  - intros H. apply elem_of_cons in H as [H|H];
      [|apply elem_of_cons in H as [H|H]; [|by apply elem_of_nil in H]].
    + apply upper_cons in H as (c1 & s1 & -> & Hc1 & H); [|by split; apply Nat.leb_le|done].
      apply upper_nil in H as ->.
      destruct Hc1 as [-> | ->]; apply (bool_decide_unpack _); vm_compute; exact I.
    + apply upper_cons in H as (c1 & s1 & -> & Hc1 & H); [|by split; apply Nat.leb_le|done].
      apply upper_cons in H as (c2 & s2 & -> & Hc2 & H); [|by split; apply Nat.leb_le|done].
      apply upper_nil in H as ->.
      destruct Hc1 as [-> | ->], Hc2 as [-> | ->];
        apply (bool_decide_unpack _); vm_compute; exact I.
  - intros H.
    repeat (apply elem_of_cons in H as [->|H];
            [apply (bool_decide_unpack _); vm_compute; exact I|]).
    by apply elem_of_nil in H.
Qed.

(** One turn of the loop on a typed line, by what the line says. *)
Lemma get_user_confirmation_typed message line keys shown :
  get_user_confirmation message (Typed line :: keys) shown
  = match answer line with
    | Some b =>
        (Returns b, {| pending := keys;
                       screen := shown ++ [Asked (message +:+ " (Y/N): ")] |})
    | None =>
        get_user_confirmation message keys
          (shown ++ [Asked (message +:+ " (Y/N): "); Printed "Please enter Y or N"])
    end.
Proof.
  cbn [get_user_confirmation]. unfold answer.
  rewrite (bool_decide_ext _ _ (upper_yes (strip line))).
  rewrite (bool_decide_ext _ _ (upper_no (strip line))).
  destruct (bool_decide (strip line ∈ _)); [done|].
  destruct (bool_decide (strip line ∈ _)); [done|].
  by rewrite <- app_assoc.
Qed.

End CaseFacts.

(** X12. [get_user_confirmation] goes by the first line it understands:
    y or yes for [True] and n or no for [False], in small or capital
    letters and with blanks around, and nothing else. Every line before
    that one is answered with the reminder and the prompt again; the
    lines after it are left unread. An interrupt instead of an answer
    ends the program with status 0, and the end of the input raises
    [EOFError], which the function does not catch. *)
Theorem get_user_confirmation_first_answer
    (message : string) (lines : list string) (rest : list Key) (shown : list Shown) :
  Forall (fun line => answer line = None) lines ->
  let prompt := Asked (message +:+ " (Y/N): ") in
  let shown' := shown ++ reminders message lines ++ [prompt] in
  (forall line b,
     answer line = Some b ->
     get_user_confirmation message ((Typed <$> lines) ++ Typed line :: rest) shown
     = (Returns b, {| pending := rest; screen := shown' |}))
  /\ get_user_confirmation message ((Typed <$> lines) ++ CtrlC :: rest) shown
     = (Stops (SystemExit 0),
        {| pending := rest;
           screen := shown' ++ [Printed (newline +:+ newline
                                         +:+ "Operation cancelled by user.")] |})
  /\ get_user_confirmation message (Typed <$> lines) shown
     = (Stops EOFError, {| pending := []; screen := shown' |}).
Proof.
  intros Hlines. cbv zeta. revert shown.
  induction Hlines as [|line0 lines Hline0 _ IH]; intros shown.
  - unfold reminders. rewrite fmap_nil.
    change ([] ≫= _) with (@nil Shown). cbn [app].
    split; [|by split].
    intros line b Hb. by rewrite get_user_confirmation_typed, Hb.
  - destruct (IH (shown ++ [Asked (message +:+ " (Y/N): ");
                            Printed "Please enter Y or N"])) as (IH1 & IH2 & IH3).
    unfold reminders in *. rewrite fmap_cons, bind_cons.
    rewrite <- !app_assoc in *. cbn [app] in *.
    split; [|split].
    + intros line b Hb. rewrite get_user_confirmation_typed, Hline0.
      by apply IH1.
    + rewrite get_user_confirmation_typed, Hline0. exact IH2.
    + rewrite get_user_confirmation_typed, Hline0. exact IH3.
Qed.

Lemma get_user_confirmation_first_answer_witness :
  get_user_confirmation "Delete invalid data and re-extract?"
    [Typed "maybe"; Typed ""; Typed "  Yes "; Typed "no"] []
  = (Returns true,
     {| pending := [Typed "no"];
        screen := reminders "Delete invalid data and re-extract?" ["maybe"; ""]
                  ++ [Asked "Delete invalid data and re-extract? (Y/N): "] |}).
Proof.
  apply (get_user_confirmation_first_answer "Delete invalid data and re-extract?"
           ["maybe"; ""] [Typed "no"] []).
  - repeat constructor.
  - reflexivity.
Defined.

(** With a report folder missing, the listing error passes the [except]
    clauses of [run_extraction_pipeline]. *)
Lemma run_extraction_pipeline_listing_error
    (raw_data : string -> Result (list (list File)))
    (client : list Request -> Request -> Result (list string))
    (literal_eval : string -> Result PyObject) (SYS_EXTRACTION_PROMPT : string)
    (save : DataFrame -> Py unit) (pipeline_path : string) (a : AppWorld) :
  missing_folder raw_data ->
  run_extraction_pipeline pipeline_path true
    (import_and_run true
       (pipeline_script raw_data client literal_eval SYS_EXTRACTION_PROMPT (Ok tt) save)) a
  = (Stops (Error listing_error),
     {| app_world :=
          {| sent := a.(app_world).(sent);
             stdout := a.(app_world).(stdout)
                       ++ [ Stamped "Pipeline started";
                            Stamped "Extracting statement pages from pdf files..." ] |};
        app_notices := a.(app_notices) ++ [RunningExtractionPipeline pipeline_path] |}).
Proof.
  intros Hmissing. unfold run_extraction_pipeline, import_and_run, of_py. simpl.
  unfold pipeline_script, LLMExtractionPipeline, run_and_save, bind, lift, print.
  simpl. rewrite run_listing_error by done. simpl. by rewrite <- app_assoc.
Qed.

(** X13. [run_extraction_pipeline] gives its flag for the failures that
    are an [Exception]: it returns [False] when the script is not
    found (and then runs nothing), when the import fails, and when the
    client, the parser or the assembler raises; it returns [True] exactly
    when the script is found and runs to its end. But the error of a
    missing report folder (that of REXP, or that of DIPD once the
    reports of REXP are listed and read), which [list_all_files] raises
    as a [BaseException], passes both [except] clauses: the function then
    returns no flag at all, and has sent no request. *)
Theorem run_extraction_pipeline_flag
    (raw_data : string -> Result (list (list File)))
    (client : list Request -> Request -> Result (list string))
    (literal_eval : string -> Result PyObject) (SYS_EXTRACTION_PROMPT : string)
    (Anthropic : Result unit) (save : DataFrame -> Py unit)
    (pipeline_path : string) (found imported : bool) (a : AppWorld) :
  let script := pipeline_script raw_data client literal_eval SYS_EXTRACTION_PROMPT
                  Anthropic save in
  let result := run_extraction_pipeline pipeline_path found
                  (import_and_run imported script) a in
  (result.1 = Returns true
   <-> found = true /\ imported = true /\ exists w, script a.(app_world) = (Ok tt, w))
  /\ (found = false -> result = (Returns false,
                                 notice (PipelineScriptNotFound pipeline_path) a))
  /\ (imported = false -> result.1 = Returns false)
  /\ (forall e w,
        found = true -> imported = true ->
        script a.(app_world) = (Raise e, w) ->
        result.1 = if is_Exception (Error e) then Returns false else Stops (Error e))
  /\ (found = true -> imported = true -> Anthropic = Ok tt ->
      missing_folder raw_data ->
      result.1 = Stops (Error listing_error)
      /\ result.2.(app_world).(sent) = a.(app_world).(sent)).
Proof.
  cbv zeta. split; [|split; [|split; [|split]]].
  5:{ intros -> -> -> Hmissing.
      by rewrite run_extraction_pipeline_listing_error. }
  all: unfold run_extraction_pipeline, import_and_run, of_py.
  - destruct found; simpl; [|by split; [|intros [? _]]].
    destruct imported; simpl; [|by split; [|intros (_ & ? & _)]].
    destruct (pipeline_script _ _ _ _ _ _ _) as [[[]|e] w]; simpl.
    + split; [by eauto|done].
    + split; [|by intros (_ & _ & ? & ?)].
      destruct e; simpl; done.
  - by intros ->.
  - intros ->. by destruct found.
  - intros e w -> -> H. simpl. rewrite H. by destruct e.
Qed.

Lemma run_extraction_pipeline_flag_witness :
  (run_extraction_pipeline "pipeline.py" true
     (import_and_run true
        (pipeline_script (Samples.rexp_only [Samples.one_marker_page])
           (Samples.constant_client "{}") literal_eval_of_flat "system" (Ok tt)
           (save_ok "financial_data.csv")))
     {| app_world := initial_world; app_notices := [] |}).1
  = Stops (Error listing_error).
Proof.
  apply (run_extraction_pipeline_flag (Samples.rexp_only [Samples.one_marker_page])
           (Samples.constant_client "{}") literal_eval_of_flat "system" (Ok tt)
           (save_ok "financial_data.csv") "pipeline.py" true true
           {| app_world := initial_world; app_notices := [] |});
    try reflexivity.
  right. split; [|reflexivity]. by exists [Samples.one_marker_page].
Defined.

(** ** [main]: what it does, and in which order *)

Section MainFacts.

Import Bootstrap.

Variable S : Type.
Variable makedirs : Callee S unit.
Variable check_data_exists : Callee S bool.
Variable exists_ : Path -> Callee S bool.
Variable get_user_confirmation : string -> Callee S bool.
Variable run_extraction_pipeline : Callee S bool.
Variable validate_data_structure : Callee S (bool * option Reason).
Variable remove : Callee S unit.
Variable launch_cli_app : Callee S unit.
Variable launch_web_app : Callee S unit.

(** The runs of [main], call by call. *)
Ltac callee_cases H :=
  repeat (cbn [fst snd negb app] in H;
          match type of H with
          | context [match ?f ?s with _ => _ end] =>
              lazymatch type of (f s) with
              | (Outcome (bool * option Reason) * _)%type =>
                  destruct (f s) as [[[[] ?]|?] ?] eqn:?
              | (Outcome bool * _)%type => destruct (f s) as [[[]|?] ?] eqn:?
              | (Outcome unit * _)%type => destruct (f s) as [[[]|?] ?] eqn:?
              end
          end).

Ltac main_runs args H :=
  destruct args as [web cli force];
  unfold main, extract_if_needed, validate_or_reextract, bind, call, launch, ret,
    sys_exit in H;
  cbn [args_force args_cli] in H;
  destruct force, cli; callee_cases H.

(** Where a step stands in a record of steps. *)
Ltac at_index i H :=
  do 14 (try (destruct i as [|i]; simpl in H; try discriminate H)).

Ltac in_log H :=
  repeat (apply elem_of_cons in H as [H|H]; [try discriminate H|]);
  try (by apply elem_of_nil in H).

Ltac is_in_log :=
  solve [repeat first [apply list_elem_of_here | apply list_elem_of_further]].

(** X14. [main] launches the application only on data the validator
    has just accepted: in every run, whatever the calls return, a launch
    is the last step, it comes directly after a validation that passed,
    and there is no other launch. The mode is the command-line one when
    the flag cli is given, whatever the flag web says, and the web one
    otherwise. With the flag force, the launch comes after an extraction
    that succeeded in this very run. *)
Theorem main_launches_on_valid_data args s outcome s' log mode :
  main S makedirs check_data_exists exists_ get_user_confirmation
    run_extraction_pipeline validate_data_structure remove
    launch_cli_app launch_web_app args (s, []) = (outcome, (s', log)) ->
  Launching mode ∈ log ->
  mode = (if args.(args_cli) then Cli else Web)
  /\ exists before error_message,
       log = before ++ [Validated true error_message; Launching mode]
       /\ (forall step, step ∈ before -> forall mode', step <> Launching mode')
       /\ (args.(args_force) = true -> Extracted true ∈ before).
Proof.
  intros H Hin. main_runs args H; injection H as <- <- <-; in_log Hin;
    injection Hin as ->; (split; [reflexivity|]);
    match goal with
    | |- exists before error_message, ?l = _ /\ _ =>
        exists (take (length l - 2) l); simpl; eexists; split; [reflexivity|]
    end;
    (split; [intros step Hstep mode'; in_log Hstep; by subst step|]);
    first [intros _; is_in_log | intros Hforce; discriminate Hforce].
Qed.

(** X15. [main] extracts and deletes on the operator's word only: in
    every run, each run of the pipeline comes after a confirmation that
    was answered with yes, and the data file is removed at most once,
    directly after a validation that failed, the yes to the question
    about deleting, and the test that the file is there. *)
Theorem main_acts_on_consent args s outcome s' log :
  main S makedirs check_data_exists exists_ get_user_confirmation
    run_extraction_pipeline validate_data_structure remove
    launch_cli_app launch_web_app args (s, []) = (outcome, (s', log)) ->
  (forall i success,
     log !! i = Some (Extracted success) ->
     exists j message, j < i /\ log !! j = Some (Confirmed message true))
  /\ (forall i,
        log !! i = Some Removed ->
        exists error_message,
          3 <= i
          /\ log !! (i - 3) = Some (Validated false error_message)
          /\ log !! (i - 2) = Some (Confirmed deletion_question true)
          /\ log !! (i - 1) = Some (Existed financial_data true))
  /\ (forall i j, log !! i = Some Removed -> log !! j = Some Removed -> i = j).
Proof.
  intros H. main_runs args H; injection H as <- <- <-.
  all: (split; [|split]);
    [ intros i success Hi; at_index i Hi;
      first [ by (exists 4, extraction_question; split; [lia|])
            | by (exists 2, deletion_question; split; [lia|])
            | by (exists 3, deletion_question; split; [lia|])
            | by (exists 7, deletion_question; split; [lia|])
            | by (exists 8, deletion_question; split; [lia|]) ]
    | intros i Hi; at_index i Hi; eexists; (split; [lia|]); simpl; done
    | intros i j Hi Hj; at_index i Hi; at_index j Hj; reflexivity ].
Qed.

(** X16. How [main] ends. When it returns, the launch was its last
    step. When it stops, either a call it made stopped and [main] passes
    that on, or the launched application stopped, or [main] itself left:
    with status 0 only when the operator declined the extraction, and
    with status 1 when the pipeline script or the raw folder is not
    there, when an extraction failed, when the operator declined the
    deletion, or when the data are still invalid after an extraction
    that succeeded. *)
Theorem main_ends args s outcome s' log :
  main S makedirs check_data_exists exists_ get_user_confirmation
    run_extraction_pipeline validate_data_structure remove
    launch_cli_app launch_web_app args (s, []) = (outcome, (s', log)) ->
  match outcome with
  | Returns _ => exists mode, last log = Some (Launching mode)
  | Stops x =>
      last log = Some (Stopped x)
      \/ (exists mode, last log = Some (Launching mode))
      \/ (x = SystemExit 0 /\ last log = Some (Confirmed extraction_question false))
      \/ (x = SystemExit 1
          /\ (last log = Some (Existed pipeline_script false)
              \/ last log = Some (Existed raw_dir false)
              \/ last log = Some (Extracted false)
              \/ last log = Some (Confirmed deletion_question false)
              \/ exists error_message,
                   last log = Some (Validated false error_message)
                   /\ Extracted true ∈ log))
  end.
Proof.
  intros H. main_runs args H; injection H as <- <- <-; simpl.
  all: first
    [ by eexists
    | by left
    | by right; left; eexists
    | by right; right; left
    | by right; right; right; split; [|left]
    | by right; right; right; split; [|right; left]
    | by right; right; right; split; [|right; right; left]
    | by right; right; right; split; [|right; right; right; left]
    | right; right; right; split; [done|]; right; right; right; right;
      eexists; split; [done|]; is_in_log ].
Qed.

End MainFacts.

Lemma main_launches_on_valid_data_witness :
  Bootstrap.Cli = Bootstrap.Cli
  /\ exists before error_message,
       [ Bootstrap.MadeDirs; Bootstrap.DataChecked true;
         Bootstrap.Validated true None; Bootstrap.Launching Bootstrap.Cli ]
       = before ++ [Bootstrap.Validated true error_message;
                    Bootstrap.Launching Bootstrap.Cli]
       /\ (forall step, step ∈ before -> forall mode', step <> Bootstrap.Launching mode')
       /\ (false = true -> Bootstrap.Extracted true ∈ before).
Proof.
  apply (main_launches_on_valid_data unit (always tt) (always true) (fun _ => always true)
           (fun _ => always true) (always true) (always (true, None))
           (always tt) (always tt) (always tt)
           {| Bootstrap.args_web := true; Bootstrap.args_cli := true;
              Bootstrap.args_force := false |}
           tt (Returns tt) tt).
  - reflexivity.
  - repeat first [apply list_elem_of_here | apply list_elem_of_further].
Defined.

Lemma main_acts_on_consent_witness :
  exists log,
    (main_with true false
       {| Bootstrap.args_web := false; Bootstrap.args_cli := false;
          Bootstrap.args_force := false |} (tt, [])).2.2 = log
    /\ forall i j,
         log !! i = Some Bootstrap.Removed -> log !! j = Some Bootstrap.Removed -> i = j.
Proof.
  eexists. split; [reflexivity|].
  apply (main_acts_on_consent unit (always tt) (always true) (fun _ => always true)
           (fun _ => always true) (always true) (always (false, Some DataFileEmpty))
           (always tt) (always tt) (always tt)
           {| Bootstrap.args_web := false; Bootstrap.args_cli := false;
              Bootstrap.args_force := false |}
           tt (Stops (SystemExit 1)) tt).
  reflexivity.
Defined.

Lemma main_ends_witness :
  exists mode,
    last (main_with false true
            {| Bootstrap.args_web := false; Bootstrap.args_cli := false;
               Bootstrap.args_force := false |} (tt, [])).2.2
    = Some (Bootstrap.Launching mode).
Proof.
  apply (main_ends unit (always tt) (always false) (fun _ => always true)
           (fun _ => always true) (always true) (always (true, None))
           (always tt) (always tt) (always tt)
           {| Bootstrap.args_web := false; Bootstrap.args_cli := false;
              Bootstrap.args_force := false |}
           tt (Returns tt) tt).
  reflexivity.
Defined.

(** X17. A missing report folder ends the whole program with the
    listing error itself. When [main] comes to the extraction (the data
    are not there, or the flag force is given; the script and the raw
    folder are found; the operator says yes) and the folder of REXP is
    missing, or that of DIPD once the reports of REXP are listed and
    read, [run_extraction_pipeline] returns no flag, [main]
    does not reach its own exit, and the guard at the bottom of the file,
    which turns an [Exception] into status 1, lets the [BaseException]
    pass: the program does not end by [sys.exit], and it has sent no
    request. *)
Theorem missing_folder_ends_program
    (raw_data : string -> Result (list (list File)))
    (client : list Request -> Request -> Result (list string))
    (literal_eval : string -> Result PyObject) (SYS_EXTRACTION_PROMPT : string)
    (save : DataFrame -> Py unit) (pipeline_path : string)
    (makedirs : Bootstrap.Callee AppWorld unit)
    (check_data_exists : Bootstrap.Callee AppWorld bool)
    (exists_ : Bootstrap.Path -> Bootstrap.Callee AppWorld bool)
    (get_user_confirmation : string -> Bootstrap.Callee AppWorld bool)
    (validate_data_structure : Bootstrap.Callee AppWorld (bool * option Reason))
    (remove launch_cli_app launch_web_app : Bootstrap.Callee AppWorld unit)
    (args : Bootstrap.Args) (a : AppWorld) :
  (forall a, exists a', makedirs a = (Returns tt, a')
                        /\ a'.(app_world).(sent) = a.(app_world).(sent)) ->
  (forall a, exists data_exists a',
     check_data_exists a = (Returns data_exists, a')
     /\ a'.(app_world).(sent) = a.(app_world).(sent)
     /\ (args.(Bootstrap.args_force) = true \/ data_exists = false)) ->
  (forall path a, exists a', exists_ path a = (Returns true, a')
                             /\ a'.(app_world).(sent) = a.(app_world).(sent)) ->
  (forall a, exists a',
     get_user_confirmation Bootstrap.extraction_question a = (Returns true, a')
     /\ a'.(app_world).(sent) = a.(app_world).(sent)) ->
  missing_folder raw_data ->
  exists a' log,
    Bootstrap.guarded_main AppWorld makedirs check_data_exists exists_
      get_user_confirmation
      (run_extraction_pipeline pipeline_path true
         (import_and_run true
            (pipeline_script raw_data client literal_eval SYS_EXTRACTION_PROMPT
               (Ok tt) save)))
      validate_data_structure remove launch_cli_app launch_web_app args (a, [])
    = (Stops (Error listing_error), (a', log))
    /\ last log = Some (Bootstrap.Stopped (Error listing_error))
    /\ a'.(app_world).(sent) = a.(app_world).(sent).
Proof.
  intros Hmk Hcheck Hexists Hask Hmissing.
  destruct (Hmk a) as (a1 & H1 & Hs1).
  destruct (Hcheck a1) as (data_exists & a2 & H2 & Hs2 & Hneed).
  destruct (Hexists Bootstrap.pipeline_script a2) as (a3 & H3 & Hs3).
  destruct (Hexists Bootstrap.raw_dir a3) as (a4 & H4 & Hs4).
  destruct (Hask a4) as (a5 & H5 & Hs5).
  pose proof (run_extraction_pipeline_listing_error raw_data client literal_eval
                SYS_EXTRACTION_PROMPT save pipeline_path a5 Hmissing) as H6.
  assert ((if Bootstrap.args_force args then false else data_exists) = false) as Hdata.
  { destruct Hneed as [-> | ->]; [done | by destruct (Bootstrap.args_force args)]. }
  set (extract := run_extraction_pipeline pipeline_path true _) in *.
  unfold Bootstrap.guarded_main, Bootstrap.main, Bootstrap.extract_if_needed,
    Bootstrap.bind, Bootstrap.call.
  simpl. rewrite H1. simpl. rewrite H2. simpl. rewrite Hdata. simpl.
  rewrite H3. simpl. rewrite H4. simpl. rewrite H5. simpl. rewrite H6. simpl.
  eexists _, _. split; [reflexivity|]. split; [reflexivity|].
  simpl. congruence.
Qed.

Lemma missing_folder_ends_program_witness :
  exists a' log,
    Bootstrap.guarded_main AppWorld (always tt) (always false) (fun _ => always true)
      (fun _ => always true)
      (run_extraction_pipeline "pipeline.py" true
         (import_and_run true
            (pipeline_script (Samples.rexp_only [Samples.one_marker_page])
               (Samples.constant_client "{}") literal_eval_of_flat "system"
               (Ok tt) (save_ok "financial_data.csv"))))
      (always (true, None)) (always tt) (always tt) (always tt)
      {| Bootstrap.args_web := false; Bootstrap.args_cli := false;
         Bootstrap.args_force := false |}
      ({| app_world := initial_world; app_notices := [] |}, [])
    = (Stops (Error listing_error), (a', log))
    /\ last log = Some (Bootstrap.Stopped (Error listing_error))
    /\ a'.(app_world).(sent) = [].
Proof.
  apply (missing_folder_ends_program (Samples.rexp_only [Samples.one_marker_page])
           (Samples.constant_client "{}") literal_eval_of_flat "system"
           (save_ok "financial_data.csv") "pipeline.py"
           (always tt) (always false) (fun _ => always true) (fun _ => always true)
           (always (true, None)) (always tt) (always tt) (always tt)
           {| Bootstrap.args_web := false; Bootstrap.args_cli := false;
              Bootstrap.args_force := false |}
           {| app_world := initial_world; app_notices := [] |}).
  - intros a. exists a. by split.
  - intros a. exists false, a. split; [done|]. split; [done|]. by right.
  - intros path a. exists a. by split.
  - intros a. exists a. by split.
  - right. split; [|reflexivity]. by exists [Samples.one_marker_page].
Defined.

(** ** The assistant *)

Section RowsFacts.

Context {A : Type} `{EqDecision A}.

Implicit Types (df seen : list A).

Lemma drop_duplicates_after_spec seen df :
  (forall row, row ∈ Rows.drop_duplicates_after seen df <-> row ∈ df /\ row ∉ seen)
  /\ NoDup (Rows.drop_duplicates_after seen df)
  /\ Rows.drop_duplicates_after seen df `sublist_of` df.
Proof.
  revert seen. induction df as [|row0 df IH]; intros seen; simpl.
  - split; [|split; [constructor | done]].
    intros row. rewrite elem_of_nil. tauto.
  - destruct (decide (row0 ∈ seen)) as [Hin|Hin].
    + destruct (IH seen) as (IH1 & IH2 & IH3). split; [|split; [done|]].
      * intros row. rewrite IH1, elem_of_cons. split; [tauto|].
        intros [[->|?] ?]; tauto.
      * by apply sublist_cons.
    + destruct (IH (row0 :: seen)) as (IH1 & IH2 & IH3). split; [|split].
      * intros row. rewrite !elem_of_cons, IH1, elem_of_cons.
        destruct (decide (row = row0)) as [->|Hne]; [tauto|]. tauto.
      * constructor; [|done]. rewrite IH1, elem_of_cons. tauto.
      * by apply sublist_skip.
Qed.

Lemma drop_duplicates_after_NoDup seen df :
  NoDup df -> (forall row, row ∈ df -> row ∉ seen) ->
  Rows.drop_duplicates_after seen df = df.
Proof.
  revert seen. induction df as [|row0 df IH]; intros seen Hnd Hseen; simpl; [done|].
  apply NoDup_cons in Hnd as [Hrow0 Hnd].
  rewrite decide_False by (apply Hseen; by left). f_equal. apply IH; [done|].
  intros row Hrow. rewrite elem_of_cons. intros [->|Hin]; [done|].
  by apply (Hseen row); [right|].
Qed.

End RowsFacts.

(** X18. The rows [prepare_context_data] shows. A table of at most
    [max_context_rows] rows is shown whole, repeated rows included. A
    longer table is cut down to its first and its last
    [max_context_rows // 2] rows, and rows that repeat an earlier one
    are then dropped: every row shown is a row of the table, no row is
    shown twice, and at most [max_context_rows] rows are shown. When the
    table has no repeated rows, the rows shown are exactly its first and
    last [max_context_rows // 2] rows, in the order of the table; so for
    an odd limit one row fewer than the limit is shown. *)
Theorem context_rows_selection {A : Type} `{EqDecision A}
    (max_context_rows : Z) (df : list A) :
  let shown := Rows.context_rows max_context_rows df in
  let half := Z.to_nat (max_context_rows / 2) in
  ((Z.of_nat (length df) <= max_context_rows)%Z -> shown = df)
  /\ ((max_context_rows < Z.of_nat (length df))%Z ->
      (forall row, row ∈ shown -> row ∈ df)
      /\ NoDup shown
      /\ ((0 <= max_context_rows)%Z ->
          (Z.of_nat (length shown) <= max_context_rows)%Z
          /\ (NoDup df ->
              shown = take half df ++ list.drop (length df - half) df
              /\ length shown = 2 * half))).
Proof.
  cbv zeta. unfold Rows.context_rows. split.
  - intros Hle. apply Z.leb_le in Hle. by rewrite Hle.
  - intros Hlt. apply Z.leb_gt in Hlt as Hlt'. rewrite Hlt'. clear Hlt'.
    unfold Rows.drop_duplicates.
    set (historical_data := Rows.head (max_context_rows / 2) df).
    set (recent_data := Rows.tail (max_context_rows / 2) df).
    destruct (drop_duplicates_after_spec [] (historical_data ++ recent_data))
      as (Hin & Hnd & Hsub).
    assert (Hh : historical_data `sublist_of` df).
    { unfold historical_data, Rows.head. destruct (_ <? 0)%Z; apply sublist_take. }
    assert (Hr : recent_data `sublist_of` df).
    { unfold recent_data, Rows.tail. destruct (_ <? 0)%Z; apply sublist_drop. }
    split; [|split; [done|]].
    { intros row Hrow. apply Hin in Hrow as [Hrow _].
      apply elem_of_app in Hrow as [Hrow|Hrow]; by eapply elem_of_sublist. }
    intros Hmax.
    assert (Hdiv : (0 <= max_context_rows / 2)%Z) by (apply Z.div_pos; lia).
    assert (Hhalf : (2 * (max_context_rows / 2) <= max_context_rows)%Z)
      by (apply Z.mul_div_le; lia).
    assert (Hheq : historical_data = take (Z.to_nat (max_context_rows / 2)) df).
    { unfold historical_data, Rows.head.
      destruct (_ <? 0)%Z eqn:Hneg; [apply Z.ltb_lt in Hneg; lia | done]. }
    assert (Hreq : recent_data
                   = list.drop (length df - Z.to_nat (max_context_rows / 2)) df).
    { unfold recent_data, Rows.tail.
      destruct (_ <? 0)%Z eqn:Hneg; [apply Z.ltb_lt in Hneg; lia | done]. }
    split.
    + apply sublist_length in Hsub. rewrite length_app in Hsub.
      assert (length historical_data <= Z.to_nat (max_context_rows / 2))
        by (rewrite Hheq, length_take; lia).
      assert (length recent_data <= Z.to_nat (max_context_rows / 2))
        by (rewrite Hreq, length_drop; lia).
      lia.
    + intros Hdf.
      assert (Hboth : historical_data ++ recent_data `sublist_of` df).
      { rewrite Hheq, Hreq.
        eapply (transitivity (y := take (Z.to_nat (max_context_rows / 2)) df
                                     ++ list.drop (Z.to_nat (max_context_rows / 2)) df));
          [|by rewrite take_drop].
        apply sublist_app; [done|].
        replace (length df - Z.to_nat (max_context_rows / 2))
          with (Z.to_nat (max_context_rows / 2)
                + (length df - 2 * Z.to_nat (max_context_rows / 2))) by lia.
        rewrite <- drop_drop. apply sublist_drop. }
      rewrite drop_duplicates_after_NoDup.
      * split; [by rewrite Hheq, Hreq|].
        rewrite length_app, Hheq, Hreq, length_take, length_drop. lia.
      * by apply (sublist_NoDup _ df).
      * intros row _. apply not_elem_of_nil.
Qed.

Lemma context_rows_selection_witness :
  Rows.context_rows 5 [1; 2; 3; 4; 5; 6; 7] = [1; 2; 6; 7]
  /\ Rows.context_rows 1 [1; 2; 3] = [].
Proof.
  split.
  - destruct (context_rows_selection 5 [1; 2; 3; 4; 5; 6; 7]) as [_ H].
    destruct H as (_ & _ & H); [reflexivity|].
    destruct H as [_ H]; [lia|].
    destruct H as [H _]; [|exact H].
    apply (bool_decide_unpack _). vm_compute. exact I.
  - destruct (context_rows_selection 1 [1; 2; 3]) as [_ H].
    destruct H as (_ & _ & H); [reflexivity|].
    destruct H as [_ H]; [lia|].
    destruct H as [H _]; [|exact H].
    apply (bool_decide_unpack _). vm_compute. exact I.
Defined.

Section SessionFacts.

Variable client : list Request -> Request -> Result (list string).
Variable SYS_PROMPT_AGENT : string.
Variable context_data : string.

(** The client fails with exceptions that are an [Exception]. *)
Hypothesis client_exceptions :
  forall sent request e, client sent request = Raise e -> is_Exception (Error e) = true.

Local Notation "'loop'" :=
  (run_cli_loop client SYS_PROMPT_AGENT true (Ok context_data)).
Local Notation "'query'" :=
  (query_financial_data client SYS_PROMPT_AGENT true (Ok context_data)).
Local Notation "'request_of'" :=
  (fun user_input =>
     request_for SYS_PROMPT_AGENT default_model_name default_max_tokens
       (full_prompt context_data user_input)).

(** A query returns, and has sent its one request. *)
Lemma query_returns user_input sent :
  exists reply, query user_input sent = (Returns reply, sent ++ [request_of user_input]).
Proof.
  unfold query_financial_data, request_for. cbn [negb].
  destruct (client sent _) as [[|text blocks]|e] eqn:Hc; [by eexists..|].
  rewrite (client_exceptions _ _ _ Hc). by eexists.
Qed.

(** One turn of the loop on a typed line. *)
Lemma run_cli_loop_typed fuel line keys shown sent :
  loop (S fuel) {| keyboard := Typed line :: keys; display := shown; requests := sent |}
  = match line_kind line with
    | Quit =>
        Some (Returns tt, {| keyboard := keys;
                             display := shown ++ [QuestionPrompt; ThankYou];
                             requests := sent |})
    | Help =>
        loop fuel {| keyboard := keys;
                     display := shown ++ [QuestionPrompt; ExampleQueries];
                     requests := sent |}
    | Blank =>
        loop fuel {| keyboard := keys; display := shown ++ [QuestionPrompt];
                     requests := sent |}
    | Question user_input =>
        match query user_input sent with
        | (Returns response, sent') =>
            loop fuel {| keyboard := keys;
                         display := shown ++ [QuestionPrompt; ProcessingQuery;
                                              AIResponse response];
                         requests := sent' |}
        | (Stops x, sent') =>
            match x with
            | KeyboardInterrupt =>
                Some (Returns tt, {| keyboard := keys;
                                     display := shown ++ [QuestionPrompt; ProcessingQuery;
                                                          SessionEnded];
                                     requests := sent' |})
            | _ =>
                if is_Exception x
                then loop fuel {| keyboard := keys;
                                  display := shown ++ [QuestionPrompt; ProcessingQuery;
                                                       ErrorLine x];
                                  requests := sent' |}
                else Some (Stops x, {| keyboard := keys;
                                       display := shown ++ [QuestionPrompt; ProcessingQuery];
                                       requests := sent' |})
            end
        end
    end.
Proof.
  cbn [run_cli_loop]. unfold line_kind, show. cbn [keyboard display requests].
  repeat case_bool_decide; rewrite <- ?app_assoc; cbn [app]; try reflexivity.
  destruct (query _ _) as [[response|x] sent']; rewrite <- ?app_assoc; cbn [app];
    [reflexivity|].
  destruct x; try destruct (is_Exception _); rewrite <- ?app_assoc; reflexivity.
Qed.

Lemma run_cli_loop_lines fuel lines keys shown sent :
  Forall (fun line => line_kind line <> Quit) lines ->
  exists shown',
    loop (length lines + fuel)
      {| keyboard := (Typed <$> lines) ++ keys; display := shown; requests := sent |}
    = loop fuel {| keyboard := keys; display := shown ++ shown';
                   requests := sent ++ (request_of <$> questions lines) |}.
Proof.
  intros Hlines. revert shown sent.
  induction Hlines as [|line lines Hline _ IH]; intros shown sent.
  - exists []. simpl. by rewrite !app_nil_r.
  - rewrite fmap_cons. cbn [app length Nat.add]. rewrite run_cli_loop_typed.
    unfold questions. rewrite bind_cons. fold (questions lines).
    destruct (line_kind line) as [| | |user_input] eqn:Hkind; [done|..].
    + destruct (IH (shown ++ [QuestionPrompt; ExampleQueries]) sent) as [shown' ->].
      eexists. by rewrite <- app_assoc.
    + destruct (IH (shown ++ [QuestionPrompt]) sent) as [shown' ->].
      eexists. by rewrite <- app_assoc.
    + destruct (query_returns user_input sent) as [reply ->].
      destruct (IH (shown ++ [QuestionPrompt; ProcessingQuery; AIResponse reply])
                  (sent ++ [request_of user_input])) as [shown' ->].
      eexists. rewrite <- !app_assoc. simpl. reflexivity.
Qed.

(** X19. A session of the command-line assistant sends one request per
    question and nothing else. For typed lines none of which is quit,
    exit or q, followed by such a line or by an interrupt, the session
    ends there and leaves the keys after it unread; it has sent, in the
    order of the lines, one request for each line that is neither blank
    nor help or examples, carrying the context and the line without the
    blanks around it, with the default model and output limit. A
    failure of the client is shown and does not end the session. *)
Theorem cli_session_requests
    (lines : list string) (last_key : Key) (keys : list Key)
    (shown : list Display) (sent : list Request) (fuel : nat) :
  Forall (fun line => line_kind line <> Quit) lines ->
  last_key = CtrlC \/ (exists line, last_key = Typed line /\ line_kind line = Quit) ->
  length lines < fuel ->
  exists shown',
    loop fuel {| keyboard := (Typed <$> lines) ++ last_key :: keys;
                 display := shown; requests := sent |}
    = Some (Returns tt,
            {| keyboard := keys; display := shown';
               requests := sent ++ (request_of <$> questions lines) |}).
Proof.
  intros Hlines Hlast Hfuel.
  replace fuel with (length lines + S (fuel - S (length lines))) by lia.
  destruct (run_cli_loop_lines (S (fuel - S (length lines))) lines (last_key :: keys)
              shown sent Hlines) as [shown' ->].
  destruct Hlast as [->|(line & -> & Hquit)].
  - eexists. reflexivity.
  - rewrite run_cli_loop_typed, Hquit. by eexists.
Qed.

(** X20. The session of the command-line assistant does not end by
    itself. When no typed line is quit, exit or q and there is no
    interrupt, the loop is still running after any number of turns: at
    the end of the input every [input] raises [EOFError], which the loop
    catches like any [Exception], prints, and goes on. *)
Theorem cli_session_never_ends_at_end_of_input
    (lines : list string) (shown : list Display) (sent : list Request) (fuel : nat) :
  Forall (fun line => line_kind line <> Quit) lines ->
  loop fuel {| keyboard := Typed <$> lines; display := shown; requests := sent |} = None.
Proof.
  revert lines shown sent. induction fuel as [|fuel IH]; intros lines shown sent Hlines;
    [done|].
  destruct Hlines as [|line lines Hline Hlines].
  - cbn [run_cli_loop]. unfold show. cbn [keyboard display requests fmap list_fmap].
    apply (IH []). constructor.
  - rewrite fmap_cons, run_cli_loop_typed.
    destruct (line_kind line) as [| | |user_input]; [done|by apply IH..|].
    destruct (query_returns user_input sent) as [reply ->]. by apply IH.
Qed.

End SessionFacts.

Lemma cli_session_requests_witness :
  exists shown',
    run_cli_loop (Samples.constant_client "Revenue grew.") "system" true (Ok "context") 4
      {| keyboard := [Typed "help"; Typed " How is REXP doing? "; Typed ""; Typed "Q";
                      Typed "more"];
         display := []; requests := [] |}
    = Some (Returns tt,
            {| keyboard := [Typed "more"]; display := shown';
               requests := [ request_for "system" default_model_name default_max_tokens
                               (full_prompt "context" "How is REXP doing?") ] |}).
Proof.
  assert (Hclient : forall sent request e,
            Samples.constant_client "Revenue grew." sent request = Raise e ->
            is_Exception (Error e) = true) by (intros ? ? ? H; discriminate H).
  apply (cli_session_requests (Samples.constant_client "Revenue grew.") "system" "context"
           Hclient ["help"; " How is REXP doing? "; ""] (Typed "Q") [Typed "more"] [] [] 4).
  - repeat constructor; vm_compute; discriminate.
  - right. exists "Q". split; reflexivity.
  - simpl. lia.
Defined.

Lemma cli_session_never_ends_at_end_of_input_witness :
  run_cli_loop (Samples.constant_client "Revenue grew.") "system" true (Ok "context") 100
    {| keyboard := [Typed "help"; Typed "How is REXP doing?"]; display := [];
       requests := [] |}
  = None.
Proof.
  assert (Hclient : forall sent request e,
            Samples.constant_client "Revenue grew." sent request = Raise e ->
            is_Exception (Error e) = true) by (intros ? ? ? H; discriminate H).
  apply (cli_session_never_ends_at_end_of_input (Samples.constant_client "Revenue grew.")
           "system" "context" Hclient ["help"; "How is REXP doing?"] [] [] 100).
  repeat constructor; vm_compute; discriminate.
Defined.

(** ** The charts *)

Section PlotsFacts.

Import Plots.

Implicit Types (df : DataFrame) (rows : list (gmap string PyValue)).

Lemma filter_companies_Ok companies df df_filtered :
  filter_companies companies df = Ok df_filtered ->
  df_filtered.(df_columns) = df.(df_columns)
  /\ df_filtered.(df_rows)
     = filter (fun row => selected companies (row !! "Simbol") = true) df.(df_rows).
Proof.
  unfold filter_companies, selected. destruct companies as [companies|].
  - destruct (decide _); [|done]. by intros [= <-].
  - intros [= <-]. split; [done|].
    induction (df_rows df) as [|row rows IH]; [done|].
    by rewrite filter_cons_True, <- IH.
Qed.

Lemma cells_filter label (keep : option PyValue -> bool) rows :
  cells label (filter (fun row => keep (row !! label) = true) rows)
  = filter (fun cell => keep cell = true) (cells label rows).
Proof.
  unfold cells. induction rows as [|row rows IH]; [done|].
  rewrite fmap_cons, !filter_cons. cbv beta.
  destruct (decide (keep (row !! label) = true)); [rewrite fmap_cons|]; by rewrite IH.
Qed.

Lemma mapR_Ok_fmap {B C} (f : B -> Result C) (g : B -> C) (xs : list B) (ys : list C) :
  mapR f xs = Ok ys ->
  (forall x y, x ∈ xs -> f x = Ok y -> y = g x) ->
  ys = g <$> xs.
Proof.
  revert ys. induction xs as [|x xs IH]; intros ys H Hg; simpl in H.
  - by injection H as <-.
  - destruct (f x) as [y|] eqn:Hx; [|done].
    destruct (mapR f xs) as [ys'|]; [|done]. injection H as <-.
    rewrite fmap_cons. f_equal.
    + apply Hg; [by left | done].
    + apply IH; [done|]. intros x' y' Hin. apply Hg. by right.
Qed.

Lemma mapR_Ok_elem_of {B C} (f : B -> Result C) (xs : list B) (ys : list C) :
  mapR f xs = Ok ys ->
  (forall y, y ∈ ys <-> exists x, x ∈ xs /\ f x = Ok y).
Proof.
  revert ys. induction xs as [|x xs IH]; intros ys H; simpl in H.
  - injection H as <-. intros y. rewrite elem_of_nil. split; [done|].
    intros (x & Hx & _). by apply elem_of_nil in Hx.
  - destruct (f x) as [y0|] eqn:Hx; [|done].
    destruct (mapR f xs) as [ys'|]; [|done]. injection H as <-.
    intros y. rewrite elem_of_cons, (IH ys' eq_refl). split.
    + intros [->|(x' & Hin & Hy)]; [exists x; split; [by left | done]|].
      exists x'. split; [by right | done].
    + intros (x' & Hin & Hy). apply elem_of_cons in Hin as [->|Hin].
      * left. congruence.
      * right. by exists x'.
Qed.

Lemma join_fmap_bind {B C} (g : B -> list C) (xs : list B) :
  mjoin (g <$> xs) = xs ≫= g.
Proof. induction xs as [|x xs IH]; [done|]. by rewrite fmap_cons, bind_cons, <- IH. Qed.

Lemma filter_filter_implied (P Q : gmap string PyValue -> bool) rows :
  (forall row, P row = true -> Q row = true) ->
  filter (fun row => P row = true) (filter (fun row => Q row = true) rows)
  = filter (fun row => P row = true) rows.
Proof.
  intros HPQ. induction rows as [|row rows IH]; [done|].
  rewrite !filter_cons. destruct (decide (Q row = true)) as [HQ|HQ].
  - rewrite filter_cons. destruct (decide (P row = true)); by rewrite IH.
  - rewrite IH. destruct (decide (P row = true)) as [HP|HP]; [|done].
    by apply HPQ in HP.
Qed.

(** One turn of the loop, when it adds its traces. *)
Lemma company_traces_Ok df_filtered company block :
  company_traces df_filtered company = Ok block ->
  block = traces_over company
            (filter (fun row => is_company company row = true) df_filtered.(df_rows)).
Proof.
  unfold company_traces.
  destruct (column "Report Date" _) as [dates|] eqn:H1; [|done].
  destruct (column "Gross Margin %" _) as [gross|] eqn:H2; [|done].
  destruct (column "Operating Margin %" _) as [operating|] eqn:H3; [|done].
  destruct (column "Net Margin %" _) as [net|] eqn:H4; [|done].
  destruct (column "Quarter_Year" _) as [quarters|] eqn:H5; [|done].
  destruct (column "Net Income" _) as [income|] eqn:H6; [|done].
  simpl. intros [= <-].
  apply column_Ok in H1 as [_ ->], H2 as [_ ->], H3 as [_ ->], H4 as [_ ->],
    H5 as [_ ->], H6 as [_ ->].
  reflexivity.
Qed.

Lemma simbol_of_Some cells simbols c :
  mapR simbol_of cells = Ok simbols ->
  Some c ∈ simbols <-> Some (VStr c) ∈ cells.
Proof.
  intros H. rewrite (mapR_Ok_elem_of _ _ _ H). split.
  - intros (cell & Hin & Hcell). destruct cell as [[]|]; simpl in Hcell; try done.
    by injection Hcell as ->.
  - intros Hin. by exists (Some (VStr c)).
Qed.

End PlotsFacts.

(** X21. The trend chart. [create_metric_trend_chart] hands [px.line]
    the rows of the selected companies, in the order of the table (all
    rows when no selection is given, none for an empty selection), and
    the columns of the table. The title is the metric followed by
    Trend Over Time and the label of the metric is the metric followed
    by (Rn), for the four metrics of [METRIC_INFO] as for any other:
    the entries of the table say what the default says. *)
Theorem metric_trend_chart_arguments
    (df : DataFrame) (metric : string) (companies : option (list string))
    (chart : Plots.LineChart) :
  Plots.create_metric_trend_chart df metric companies = Ok chart ->
  chart.(Plots.chart_title) = metric +:+ " Trend Over Time"
  /\ chart.(Plots.chart_labels) !! metric
     = Some (if decide (metric = "Report Date") then "Date" else metric +:+ " (Rn)")
  /\ chart.(Plots.chart_data).(df_columns) = df.(df_columns)
  /\ chart.(Plots.chart_data).(df_rows)
     = filter (fun row => Plots.selected companies (row !! "Simbol") = true) df.(df_rows)
  /\ (companies = Some [] -> chart.(Plots.chart_data).(df_rows) = []).
Proof.
  unfold Plots.create_metric_trend_chart.
  destruct (Plots.filter_companies companies df) as [df_filtered|] eqn:Hf; [|done].
  apply filter_companies_Ok in Hf as [Hcols Hrows]. cbn [rbind]. intros [= <-].
  cbn [Plots.chart_title Plots.chart_labels Plots.chart_data].
  assert (Hinfo : default {| Plots.info_label := metric +:+ " (Rn)";
                             Plots.info_title := metric +:+ " Trend Over Time" |}
                          (Plots.METRIC_INFO !! metric)
                  = {| Plots.info_label := metric +:+ " (Rn)";
                       Plots.info_title := metric +:+ " Trend Over Time" |}).
  { unfold Plots.METRIC_INFO.
    destruct (decide (metric = "Revenue")) as [->|H1]; [by rewrite lookup_insert_eq|].
    rewrite lookup_insert_ne by done.
    destruct (decide (metric = "Gross Profit")) as [->|H2]; [by rewrite lookup_insert_eq|].
    rewrite lookup_insert_ne by done.
    destruct (decide (metric = "Operating Income")) as [->|H3];
      [by rewrite lookup_insert_eq|].
    rewrite lookup_insert_ne by done.
    destruct (decide (metric = "Net Income")) as [->|H4]; [by rewrite lookup_insert_eq|].
    rewrite lookup_insert_ne by done. by rewrite lookup_empty. }
  rewrite Hinfo. cbn [Plots.info_title Plots.info_label]. split; [done|]. split.
  { destruct (decide (metric = "Report Date")) as [->|Hne].
    - by rewrite lookup_insert_eq.
    - rewrite lookup_insert_ne by done. by rewrite lookup_insert_eq. }
  split; [done|]. split; [done|].
  intros ->. rewrite Hrows. clear Hrows.
  induction (df_rows df) as [|row rows IH]; [done|].
  rewrite filter_cons_False; [done|].
  destruct (row !! "Simbol") as [[]|]; simpl; done.
Qed.

Lemma metric_trend_chart_arguments_witness :
  exists chart,
    Plots.create_metric_trend_chart Samples.good_table "Revenue" (Some ["DIPD"]) = Ok chart
    /\ chart.(Plots.chart_title) = "Revenue Trend Over Time"
    /\ length chart.(Plots.chart_data).(df_rows) = 2.
Proof.
  destruct (Plots.create_metric_trend_chart Samples.good_table "Revenue" (Some ["DIPD"]))
    as [chart|] eqn:Hchart; [|exfalso; vm_compute in Hchart; discriminate Hchart].
  exists chart. split; [reflexivity|].
  destruct (metric_trend_chart_arguments _ _ _ _ Hchart) as (Ht & _ & _ & Hrows & _).
  split; [exact Ht|]. rewrite Hrows. vm_compute. reflexivity.
Defined.

(** X22. The profitability figure. When [create_profitability_comparison]
    returns its figure, the traces are, for each company of the selected
    rows in the order in which the companies first occur in the table,
    the four traces of that company: gross, operating and net margin
    over the report dates and net income over the quarters, each over
    all the rows of that company in the table and over no other row, in
    the colour of the company. So there are four traces for every
    selected company that has a row, and none for a company that is not
    selected or has no row. *)
Theorem profitability_traces
    (df : DataFrame) (companies : option (list string)) (traces : list Plots.Trace) :
  Plots.create_profitability_comparison df companies = Ok traces ->
  exists simbols,
    mapR Plots.simbol_of
      (filter (fun cell => Plots.selected companies cell = true)
              (Plots.cells "Simbol" df.(df_rows))) = Ok simbols
    /\ traces
       = Rows.drop_duplicates simbols ≫= (fun company =>
           Plots.traces_over company
             (filter (fun row => Plots.is_company company row = true) df.(df_rows)))
    /\ length traces = 4 * length (Rows.drop_duplicates simbols)
    /\ (forall c,
          Some c ∈ Rows.drop_duplicates simbols
          <-> Plots.selected companies (Some (VStr c)) = true
              /\ exists row, row ∈ df.(df_rows) /\ row !! "Simbol" = Some (VStr c)).
Proof.
  unfold Plots.create_profitability_comparison.
  destruct (Plots.filter_companies companies df) as [df_filtered|] eqn:Hf; [|done].
  apply filter_companies_Ok in Hf as [Hcols Hrows]. simpl.
  destruct (column "Simbol" df_filtered) as [cells|] eqn:Hc; [|done].
  apply column_Ok in Hc as [_ ->]. simpl.
  fold (Plots.cells "Simbol" (df_rows df_filtered)).
  rewrite Hrows, (cells_filter "Simbol" (Plots.selected companies)).
  destruct (mapR Plots.simbol_of _) as [simbols|] eqn:Hs; [|done]. simpl.
  destruct (mapR (Plots.company_traces df_filtered) _) as [blocks|] eqn:Hb; [|done].
  simpl. intros [= <-]. exists simbols. split; [done|].
  assert (Hmem : forall c,
            Some c ∈ Rows.drop_duplicates simbols
            <-> Plots.selected companies (Some (VStr c)) = true
                /\ exists row, row ∈ df_rows df /\ row !! "Simbol" = Some (VStr c)).
  { intros c. unfold Rows.drop_duplicates.
    destruct (drop_duplicates_after_spec [] simbols) as (Hin & _).
    rewrite Hin, (simbol_of_Some _ _ _ Hs), list_elem_of_filter.
    unfold Plots.cells. rewrite list_elem_of_fmap. split.
    - intros [[Hsel (row & Hrow & Hin')] _]. split; [done|]. by exists row.
    - intros [Hsel (row & Hin' & Hrow)]. split; [|apply not_elem_of_nil].
      split; [done|]. by exists row. }
  assert (Hblocks : blocks
            = (fun company =>
                 Plots.traces_over company
                   (filter (fun row => Plots.is_company company row = true) (df_rows df)))
              <$> Rows.drop_duplicates simbols).
  { apply (mapR_Ok_fmap _ _ _ _ Hb). intros company block Hin Hblock.
    apply company_traces_Ok in Hblock as ->. f_equal. rewrite Hrows.
    apply filter_filter_implied. intros row Hrow.
    destruct company as [c|]; [|done]. simpl in Hrow.
    apply bool_decide_eq_true in Hrow. rewrite Hrow.
    by apply Hmem in Hin as [Hsel _]. }
  rewrite Hblocks, join_fmap_bind. split; [done|]. split; [|done].
  clear Hb Hmem Hblocks. generalize (Rows.drop_duplicates simbols). intros l.
  induction l as [|company l IH]; [done|].
  rewrite bind_cons, length_app, IH. simpl. lia.
Qed.

Lemma profitability_traces_witness :
  exists traces,
    Plots.create_profitability_comparison
      (Samples.table_of {[ "Simbol"; "Report Date"; "Gross Margin %"; "Operating Margin %";
                          "Net Margin %"; "Quarter_Year"; "Net Income" ]}
                        Samples.good_rows)
      (Some ["DIPD"]) = Ok traces
    /\ length traces = 4.
Proof.
  destruct (Plots.create_profitability_comparison
              (Samples.table_of {[ "Simbol"; "Report Date"; "Gross Margin %";
                                  "Operating Margin %"; "Net Margin %"; "Quarter_Year";
                                  "Net Income" ]} Samples.good_rows)
              (Some ["DIPD"])) as [traces|] eqn:Htraces;
    [|exfalso; vm_compute in Htraces; discriminate Htraces].
  exists traces. split; [reflexivity|].
  destruct (profitability_traces _ _ _ Htraces) as (simbols & Hs & _ & Hlen & _).
  rewrite Hlen. vm_compute in Hs. injection Hs as <-. reflexivity.
Defined.
